(** * Gava Wrapped: the aggregation engine of [src/services/dataCalculator.js]

    A shallow embedding of [calculatePatientData] and of the route handler of
    [src/server.js] that calls it.  The Supabase client is modelled as a
    snapshot of the four tables the engine reads, together with an outage
    oracle that says, per call site, whether the request comes back with an
    [error].  The engine itself is written in a small monad that threads the
    log of requests issued so far and propagates thrown JavaScript errors. *)

From Stdlib Require Import ZArith List Bool Lia String Ascii QArith Permutation Sorted.
From Stdlib Require Import Lqa.
From Stdlib Require Import DecimalString DecimalNat.
Import ListNotations.

Open Scope Z_scope.

(** ** JavaScript numbers, errors and dates *)

(** A JavaScript number as the engine meets it: [NaN] (what [parseInt]
    gives on a text without a leading numeral), an integer, or an infinity
    (what [parseInt] gives on a numeral beyond the largest double). *)
Inductive jsnum : Type :=
| NaN
| Num (z : Z)
| Infinity (negative : bool).

(** The Number value for the integer [z]: the nearest double, ties to the
    even significand, an infinity from [2^1024 - 2^970] on.  Integers up to
    [2^53] in absolute value are kept as they are. *)
Definition to_double (z : Z) : jsnum :=
  let a := Z.abs z in
  if a <? 2 ^ 53 then Num z
  else
    let e := Z.log2 a - 52 in
    let q := a / 2 ^ e in
    let r := a mod 2 ^ e in
    let half := 2 ^ (e - 1) in
    let q' := if (half <? r) || ((r =? half) && Z.odd q) then q + 1 else q in
    let m := q' * 2 ^ e in
    if 2 ^ 1024 <=? m then Infinity (z <? 0) else Num (Z.sgn z * m).

(** A thrown value: the constructor's name and the message. *)
Record js_error : Type := mkError {
  err_name : string;
  err_message : string
}.

(** [new Error(msg)]. *)
Definition Error (msg : string) : js_error := mkError "Error" msg.

(** [new RangeError(msg)], what [Date.prototype.toISOString] throws. *)
Definition RangeError (msg : string) : js_error := mkError "RangeError" msg.

Module JSDate.

(** The time arithmetic of ECMA-262, section "Date Objects".  A time value
    is a number of milliseconds since the epoch, in UTC. *)

Definition msPerDay : Z := 86400000.
Definition msPerHour : Z := 3600000.
Definition msPerMinute : Z := 60000.
Definition msPerSecond : Z := 1000.

Definition DayFromYear (y : Z) : Z :=
  365 * (y - 1970) + (y - 1969) / 4 - (y - 1901) / 100 + (y - 1601) / 400.

Definition TimeFromYear (y : Z) : Z := msPerDay * DayFromYear y.

Definition DaysInYear (y : Z) : Z :=
  if negb (y mod 4 =? 0) then 365
  else if negb (y mod 100 =? 0) then 366
  else if negb (y mod 400 =? 0) then 365
  else 366.

Definition InLeapYear (y : Z) : Z := DaysInYear y - 365.

(** Day within the year on which month [m] (0 = January) begins. *)
Definition MonthStart (leap m : Z) : Z :=
  match m with
  | 0 => 0
  | 1 => 31
  | 2 => 59 + leap
  | 3 => 90 + leap
  | 4 => 120 + leap
  | 5 => 151 + leap
  | 6 => 181 + leap
  | 7 => 212 + leap
  | 8 => 243 + leap
  | 9 => 273 + leap
  | 10 => 304 + leap
  | _ => 334 + leap
  end.

Definition MakeTime (hour min sec ms : Z) : Z :=
  hour * msPerHour + min * msPerMinute + sec * msPerSecond + ms.

Definition MakeDay (year month date : Z) : Z :=
  let ym := year + month / 12 in
  let mn := month mod 12 in
  DayFromYear ym + MonthStart (InLeapYear ym) mn + date - 1.

Definition MakeDate (day time : Z) : Z := day * msPerDay + time.

(** [TimeClip]: a time value outside the representable range is [NaN],
    here [None]. *)
Definition TimeClip (t : Z) : option Z :=
  if Z.abs t <=? 8640000000000000 then Some t else None.

(** The year the constructor reads: 0 to 99 stand for 1900 to 1999. *)
Definition full_year (y : Z) : Z :=
  if (0 <=? y) && (y <=? 99) then 1900 + y else y.

(** [new Date(year, month, date, hours, minutes, seconds, ms)].  The fields
    are read in local time; [tza] is the offset of local time from UTC in
    milliseconds.  Years 0 to 99 stand for 1900 to 1999.  The result is the
    time value of the new object, [None] for an Invalid Date. *)
Definition construct (tza : Z) (year : jsnum) (month date hours minutes seconds ms : Z)
  : option Z :=
  match year with
  | NaN => None
  | Num y =>
      let yr := full_year y in
      TimeClip (MakeDate (MakeDay yr month date) (MakeTime hours minutes seconds ms) - tza)
  | Infinity _ => None
  end.

(** Decoding of a time value into calendar fields. *)

Definition Day (t : Z) : Z := t / msPerDay.
Definition TimeWithinDay (t : Z) : Z := t mod msPerDay.

(** The largest year whose first day is not after day [d], found by
    stepping from the year [y]; [fuel] steps reach it from a year that is at
    most [fuel] years off. *)
Fixpoint year_search (fuel : nat) (y d : Z) : Z :=
  match fuel with
  | O => y
  | S fuel' =>
      if DayFromYear (y + 1) <=? d then year_search fuel' (y + 1) d
      else if d <? DayFromYear y then year_search fuel' (y - 1) d
      else y
  end.

(** The estimate counts 400 years to 146097 days and is never more than one
    year off. *)
Definition YearFromTime (t : Z) : Z :=
  year_search 2 (1970 + Day t * 400 / 146097) (Day t).

Definition DayWithinYear (t : Z) : Z := Day t - DayFromYear (YearFromTime t).

Fixpoint month_search (fuel : nat) (leap dy m : Z) : Z :=
  match fuel with
  | O => m
  | S fuel' =>
      if MonthStart leap (m + 1) <=? dy then month_search fuel' leap dy (m + 1) else m
  end.

Definition MonthFromTime (t : Z) : Z :=
  month_search 11 (InLeapYear (YearFromTime t)) (DayWithinYear t) 0.

Definition DateFromTime (t : Z) : Z :=
  DayWithinYear t - MonthStart (InLeapYear (YearFromTime t)) (MonthFromTime t) + 1.

(** The local calendar reading of a time value: year, month (0 = January),
    day of the month, and milliseconds since local midnight. *)
Definition local_fields (tza t : Z) : Z * Z * Z * Z :=
  let l := t + tza in
  (YearFromTime l, MonthFromTime l, DateFromTime l, TimeWithinDay l).

End JSDate.

(** ** Records of the backing store *)

(** Row of [profiles]. *)
Record profile : Type := {
  p_id : Z;
  first_name : string;
  last_name : string
}.

(** Row of [purchase].  Timestamps are time values (milliseconds, UTC). *)
Record purchase : Type := {
  pu_id : Z;
  pu_created_at : Z;
  purchase_user : Z
}.

(** Row of [list]. *)
Record list_row : Type := {
  l_id : Z;
  l_name : option string;
  l_created_at : Z;
  owner_user_id : Z
}.

(** Row of [list_item].  [price] holds what [parseFloat] makes of the column:
    [None] for a null or a text without a leading numeral (the parse is
    [NaN]), [Some q] for the parsed amount. *)
Record list_item : Type := {
  li_id : Z;
  purchase_id : option Z;
  list_id : Z;
  title : option string;
  price : option Q;
  link : option string;
  thumbnail_url : option string;
  li_created_at : option Z;
  suggested_by : option Z
}.

(** The requests of [calculatePatientData], one per call site, in the order
    of the source. *)
Inductive site : Type :=
| SProfile              (* line 25 *)
| SPurchases            (* line 42 *)
| SListItems            (* line 66 *)
| SLastMinutePurchases  (* line 129 *)
| SLastMinuteItemsCount (* line 146 *)
| SLists                (* line 173 *)
| SListItemsCount       (* line 196 *)
| SUserLists            (* line 242 *)
| SUserListItems        (* line 256 *)
| SUserListsForDay      (* line 321 *)
| SItemsOnDay           (* line 328 *)
| SSuggestedGifts       (* line 359 *)
| SSuggestedInfo.       (* line 392 *)

Definition site_eqb (a b : site) : bool :=
  match a, b with
  | SProfile, SProfile | SPurchases, SPurchases | SListItems, SListItems
  | SLastMinutePurchases, SLastMinutePurchases
  | SLastMinuteItemsCount, SLastMinuteItemsCount
  | SLists, SLists | SListItemsCount, SListItemsCount
  | SUserLists, SUserLists | SUserListItems, SUserListItems
  | SUserListsForDay, SUserListsForDay
  | SItemsOnDay, SItemsOnDay | SSuggestedGifts, SSuggestedGifts
  | SSuggestedInfo, SSuggestedInfo => true
  | _, _ => false
  end.

(** A snapshot of the store.  [outage s = Some m] means the request issued at
    site [s] comes back as [{ data: null, error: { message: m } }]. *)
Record store : Type := {
  profiles : list profile;
  purchases : list purchase;
  lists : list list_row;
  list_items : list list_item;
  outage : site -> option string
}.


(** What the client hands back: [{ data, error }]. *)
Record response (A : Type) : Type := mkResponse {
  data : option A;
  error : option string
}.
Arguments mkResponse {A} _ _.
Arguments data {A} _.
Arguments error {A} _.

(** ** The effect monad: request log and thrown errors *)

Inductive outcome (A : Type) : Type :=
| Returned (a : A)
| Threw (e : js_error).
Arguments Returned {A} _.
Arguments Threw {A} _.

Definition M (A : Type) : Type := list site -> outcome A * list site.

Definition ret {A} (a : A) : M A := fun log => (Returned a, log).

Definition throw {A} (e : js_error) : M A := fun log => (Threw e, log).

Definition bind {A B} (m : M A) (k : A -> M B) : M B :=
  fun log =>
    match m log with
    | (Returned a, log') => k a log'
    | (Threw e, log') => (Threw e, log')
    end.

Declare Scope js_scope.
Delimit Scope js_scope with js.
Notation "x <- m ;; k" := (bind m (fun x => k))
  (at level 100, m at next level, right associativity) : js_scope.
Notation "' p <- m ;; k" := (bind m (fun p => k))
  (at level 100, p pattern, m at next level, right associativity) : js_scope.
Open Scope js_scope.

(** [await] of a request built at site [s]: the request is logged, and the
    rows the query selects are returned unless the store is out at [s]. *)
Definition request {A} (st : store) (s : site) (rows : A) : M (response A) :=
  fun log =>
    (Returned match outage st s with
              | Some m => mkResponse None (Some m)
              | None => mkResponse (Some rows) None
              end,
     log ++ [s]).

(** PostgREST's answer to [.single()] when the rows are not exactly one. *)
Definition PGRST116 : string :=
  "JSON object requested, multiple (or no) rows returned".

(** The same for a request that ends in [.single()]. *)
Definition request_single {A} (st : store) (s : site) (rows : list A) : M (response A) :=
  fun log =>
    (Returned match outage st s with
              | Some m => mkResponse None (Some m)
              | None =>
                  match rows with
                  | [r] => mkResponse (Some r) None
                  | _ => mkResponse None (Some PGRST116)
                  end
              end,
     log ++ [s]).

(** [Date.prototype.toISOString]: throws on an Invalid Date.  The text is
    passed on to the store, which reads it back as the same instant, so the
    instant stands for it. *)
Definition toISOString (d : option Z) : M Z :=
  match d with
  | Some t => ret t
  | None => throw (RangeError "Invalid time value")
  end.

(** ** JavaScript objects used as maps *)

Module JSObject.

(** An object keyed by identifiers, as the list of its properties in the
    order of their creation.  Identifiers are integers that print and parse
    back exactly ([parseInt (String k) = k]). *)
Definition t (V : Type) : Type := list (Z * V).

Fixpoint get {V} (o : t V) (k : Z) : option V :=
  match o with
  | [] => None
  | (k', v) :: o' => if k' =? k then Some v else get o' k
  end.

(** [o[k] = v]: an existing property keeps its place, a new one goes last. *)
Fixpoint set {V} (o : t V) (k : Z) (v : V) : t V :=
  match o with
  | [] => [(k, v)]
  | (k', v') :: o' => if k' =? k then (k', v) :: o' else (k', v') :: set o' k v
  end.

(** A property name that is an array index: a canonical numeral below
    [2^32 - 1]. *)
Definition is_array_index (k : Z) : bool := (0 <=? k) && (k <? 4294967295).

Fixpoint insert_key {V} (e : Z * V) (l : list (Z * V)) : list (Z * V) :=
  match l with
  | [] => [e]
  | e' :: l' => if fst e <=? fst e' then e :: l else e' :: insert_key e l'
  end.

Definition ascending {V} (l : list (Z * V)) : list (Z * V) :=
  fold_right insert_key [] l.

(** [Object.entries o] (OrdinaryOwnPropertyKeys): the array-index names in
    ascending numeric order, then the other names in order of creation. *)
Definition entries {V} (o : t V) : list (Z * V) :=
  ascending (filter (fun e => is_array_index (fst e)) o)
  ++ filter (fun e => negb (is_array_index (fst e))) o.

(** [Object.values o] for an object whose names are texts that are not
    numerals (here dates, [YYYY-MM-DD]): order of creation. *)
Definition values_of_text_keys {V} (o : t V) : list V := map snd o.

End JSObject.

(** ** Spend and extremes (lines 93 to 113) *)

(** [parseFloat(item.price) || 0]. *)
Definition price_or_0 (item : list_item) : Q :=
  match price item with
  | Some q => q
  | None => 0%Q
  end.

(** [a > b] on numbers. *)
Definition Qgtb (a b : Q) : bool := negb (Qle_bool a b).

(** The callback of line 97: [(sum, item) => sum + (parseFloat(item.price) || 0)]. *)
Definition add_price (sum : Q) (item : list_item) : Q := (sum + price_or_0 item)%Q.

(** [listItems.reduce(add_price, 0)]. *)
Definition spent (listItems : list list_item) : Q := fold_left add_price listItems 0%Q.

(** The callback of lines 108 to 112. *)
Definition dearer (max item : list_item) : list_item :=
  let itemPrice := price_or_0 item in
  let maxPrice := price_or_0 max in
  if Qgtb itemPrice maxPrice then item else max.

(** The reduction of lines 107 to 113, seeded with [listItems[0]]. *)
Definition mostExpensiveItem (listItems : list list_item) : option list_item :=
  match listItems with
  | [] => None
  | first :: _ => Some (fold_left dearer listItems first)
  end.

(** ** List statistics (lines 202 to 229) *)

(** [counts[k] = (counts[k] || 0) + 1], the counting step of lines 206 and 377. *)
Definition bump (counts : JSObject.t nat) (k : Z) : JSObject.t nat :=
  JSObject.set counts k
    (match JSObject.get counts k with Some c => c | None => O end + 1)%nat.

(** The [forEach] of lines 204 to 207. *)
Definition listItemCounts (listItemsCount : list list_item) : JSObject.t nat :=
  fold_left (fun counts item => bump counts (list_id item)) listItemsCount [].

(** The callback of lines 212 to 217, on the state [(maxCount, maxListId)]. *)
Definition keep_larger (state : nat * option Z) (entry : Z * nat) : nat * option Z :=
  let '(maxCount, maxListId) := state in
  let '(listId, count) := entry in
  if (maxCount <? count)%nat then (count, Some listId) else (maxCount, maxListId).

(** The [forEach] of lines 212 to 217 over [Object.entries]. *)
Definition maxList (counts : JSObject.t nat) : nat * option Z :=
  fold_left keep_larger (JSObject.entries counts) (O, None).

(** [listWithMostItems] as the engine keeps it (lines 222 to 226). *)
Record list_with_most_items : Type := {
  lwm_id : Z;
  lwm_name : string;
  lwm_itemCount : nat
}.

(** [x || fallback] for a nullable text. *)
Definition text_or (x : option string) (fallback : string) : string :=
  match x with
  | Some s => if String.eqb s "" then fallback else s
  | None => fallback
  end.

(** Lines 209 to 229: [listItemsCount] is [None] when the request gave no
    data, in which case the [?.forEach] does nothing. *)
Definition listWithMostItems (owned : list list_row) (listItemsCount : option (list list_item))
  : option list_with_most_items :=
  let counts := match listItemsCount with Some l => listItemCounts l | None => [] end in
  let '(maxCount, maxListId) := maxList counts in
  match maxListId with
  | Some id =>
      if id =? 0 then None
      else
        match find (fun l => l_id l =? id) owned with
        | Some maxL =>
            Some {| lwm_id := l_id maxL;
                    lwm_name := text_or (l_name maxL) "Unnamed List";
                    lwm_itemCount := maxCount |}
        | None => None
        end
  | None => None
  end.

(** ** Most active day (lines 272 to 301) *)

Record day_data : Type := {
  dd_date : Z;       (* the UTC day, for the text YYYY-MM-DD *)
  dd_datetime : Z;
  dd_count : nat
}.

(** [if (x)] on a nullable identifier: null and 0 are falsy. *)
Definition truthy_id (x : option Z) : bool :=
  match x with
  | Some id => negb (id =? 0)
  | None => false
  end.

(** The [forEach] of lines 273 to 289. *)
Definition itemsByDate (userListItems : list list_item) : JSObject.t day_data :=
  fold_left
    (fun byDate item =>
       match li_created_at item with
       | Some created_at =>
           if truthy_id (suggested_by item) then byDate
           else
             let dateKey := JSDate.Day created_at in
             let entry :=
               match JSObject.get byDate dateKey with
               | Some d => d
               | None => {| dd_date := dateKey; dd_datetime := created_at; dd_count := O |}
               end in
             JSObject.set byDate dateKey
               {| dd_date := dd_date entry;
                  dd_datetime := dd_datetime entry;
                  dd_count := S (dd_count entry) |}
       | None => byDate
       end)
    userListItems [].

(** The [forEach] of lines 296 to 301: the state is [(maxDayCount, maxDay)]. *)
Definition maxDay (byDate : JSObject.t day_data) : nat * option day_data :=
  fold_left
    (fun '(maxDayCount, best) dayData =>
       if (maxDayCount <? dd_count dayData)%nat then (dd_count dayData, Some dayData)
       else (maxDayCount, best))
    (JSObject.values_of_text_keys byDate) (O, None).

(** ** Suggestion tally (lines 373 to 387 and 401 to 410) *)

Record tally_entry : Type := {
  t_suggested_by : Z;
  t_count : nat;
  t_name : option string   (* absent until the names are looked up *)
}.

(** The [forEach] of lines 374 to 379. *)
Definition suggestedGiftCounts (suggestedGifts : list list_item) : JSObject.t nat :=
  fold_left
    (fun counts gift =>
       match suggested_by gift with
       | Some suggesterId => if suggesterId =? 0 then counts else bump counts suggesterId
       | None => counts
       end)
    suggestedGifts [].

(** [Array.prototype.sort] with [(a, b) => b.count - a.count]: a stable sort,
    larger counts first. *)
Fixpoint insert_by_count (e : tally_entry) (l : list tally_entry) : list tally_entry :=
  match l with
  | [] => [e]
  | e' :: l' =>
      if (t_count e <? t_count e')%nat then e' :: insert_by_count e l' else e :: l
  end.

Definition sort_by_count (l : list tally_entry) : list tally_entry :=
  fold_right insert_by_count [] l.

(** Lines 382 to 387. *)
Definition suggestedGiftCountsArray (suggestedGifts : list list_item) : list tally_entry :=
  sort_by_count
    (map (fun '(suggester, count) =>
            {| t_suggested_by := suggester; t_count := count; t_name := None |})
         (JSObject.entries (suggestedGiftCounts suggestedGifts))).

(** Lines 401 to 404. *)
Definition profileMap (suggestedInfo : list profile) : JSObject.t string :=
  fold_left
    (fun m p => JSObject.set m (p_id p) (first_name p ++ " " ++ last_name p)%string)
    suggestedInfo [].

(** Lines 407 to 410. *)
Definition with_names (names : JSObject.t string) (l : list tally_entry) : list tally_entry :=
  map (fun e =>
         {| t_suggested_by := t_suggested_by e;
            t_count := t_count e;
            t_name := Some (text_or (JSObject.get names (t_suggested_by e)) "Unknown") |})
      l.

(** ** The report (lines 424 to 466) *)

Record most_expensive_gift : Type := {
  meg_title : string;
  meg_price : Q;
  meg_thumbnail_url : option string
}.

Record purchase_timing : Type := {
  pt_earlyBird : nat;
  pt_onTime : nat;
  pt_lastMinute : nat
}.

Record wrapped_stats : Type := {
  s_totalGiftsGiven : nat;
  s_totalGiftsReceived : nat;
  s_mostExpensiveGift : most_expensive_gift;
  s_totalSpending : Q;
  s_peopleExchangedWith : nat;
  s_mostPopularCategory : string;
  s_giftGivingStreak : nat;
  s_santaScore : nat;
  s_lastMinutePurchases : nat;
  s_mostUsedRetailer : string;
  s_homemadeGifts : nat;
  s_purchaseTiming : purchase_timing
}.

(** The columns selected at line 330. *)
Record day_item : Type := {
  di_id : Z;
  di_title : option string;
  di_price : option Q;
  di_link : option string;
  di_thumbnail_url : option string;
  di_created_at : option Z;
  di_suggested_by : option Z
}.

Definition day_item_of (item : list_item) : day_item :=
  {| di_id := li_id item;
     di_title := title item;
     di_price := price item;
     di_link := link item;
     di_thumbnail_url := thumbnail_url item;
     di_created_at := li_created_at item;
     di_suggested_by := suggested_by item |}.

Record most_active_day : Type := {
  mad_date : Z;
  mad_datetime : Z;
  mad_itemCount : nat;
  mad_items : option (list day_item)   (* [None] is [items: null] *)
}.

Record list_stats : Type := {
  ls_totalListsCreated : nat;
  ls_listWithMostItems : option (string * nat);   (* name, itemCount *)
  ls_mostActiveDay : option most_active_day;
  ls_suggestedGiftCounts : list tally_entry
}.

Record WrappedData : Type := {
  wd_profileId : Z;
  wd_year : jsnum;
  wd_stats : wrapped_stats;
  wd_personalityType : string;
  wd_personalityReason : string;
  wd_listStats : list_stats
}.

(** ** The queries *)

(** [.in(column, ids)]. *)
Definition in_ids (ids : list Z) (x : Z) : bool := existsb (Z.eqb x) ids.

(** [.gte('created_at', lo).lte('created_at', hi)]. *)
Definition within (lo hi t : Z) : bool := (lo <=? t) && (t <=? hi).

Definition within_opt (lo hi : Z) (t : option Z) : bool :=
  match t with
  | Some t' => within lo hi t'
  | None => false
  end.

Definition is_null {A} (x : option A) : bool :=
  match x with
  | Some _ => false
  | None => true
  end.

Definition purchased_in (ids : list Z) (item : list_item) : bool :=
  match purchase_id item with
  | Some p => in_ids ids p
  | None => false
  end.

(** [.order('created_at', { ascending: true })] on rows whose [created_at]
    is not null. *)
Definition created_or_0 (item : list_item) : Z :=
  match li_created_at item with
  | Some t => t
  | None => 0
  end.

Fixpoint insert_by_created_at (item : list_item) (l : list list_item) : list list_item :=
  match l with
  | [] => [item]
  | item' :: l' =>
      if created_or_0 item' <=? created_or_0 item
      then item' :: insert_by_created_at item l'
      else item :: l
  end.

Definition order_by_created_at (l : list list_item) : list list_item :=
  fold_left (fun acc item => insert_by_created_at item acc) l [].

(** [d.setHours(h, m, s, ms)] on the time value [t], in local time. *)
Definition setHours (tza t h m s ms : Z) : option Z :=
  JSDate.TimeClip
    (JSDate.MakeDate (JSDate.Day (t + tza)) (JSDate.MakeTime h m s ms) - tza).

(** [data || []]. *)
Definition rows_or_empty {A} (r : response (list A)) : list A :=
  match data r with
  | Some l => l
  | None => []
  end.

(** ** The engine: [calculatePatientData] *)

Section Engine.

(** The store handle and the host's offset of local time from UTC. *)
Variable st : store.
Variable tza : Z.

(** Lines 19 and 20. *)
Definition yearStart (year : jsnum) : option Z :=
  JSDate.construct tza year 0 1 0 0 0 0.
Definition yearEnd (year : jsnum) : option Z :=
  JSDate.construct tza year 11 31 23 59 59 999.

(** Lines 123 and 124. *)
Definition lastMinuteStart (year : jsnum) : option Z :=
  JSDate.construct tza year 11 17 0 0 0 0.
Definition lastMinuteEnd (year : jsnum) : option Z :=
  JSDate.construct tza year 11 26 0 0 0 0.

(** Lines 40 to 88: the purchases of the year and their line items. *)
Definition fetchListItems (profileId ys ye : Z) : M (list list_item) :=
  r <- request st SPurchases
         (filter (fun p => (purchase_user p =? profileId) && within ys ye (pu_created_at p))
                 (purchases st)) ;;
  match error r with
  | Some m => throw (Error ("Failed to fetch purchases: " ++ m)%string)
  | None =>
      let purchaseIds := map pu_id (rows_or_empty r) in
      match purchaseIds with
      | [] => ret []
      | _ :: _ =>
          i <- request st SListItems (filter (purchased_in purchaseIds) (list_items st)) ;;
          match error i with
          | Some m => throw (Error ("Failed to fetch list items: " ++ m)%string)
          | None => ret (rows_or_empty i)
          end
      end
  end.

(** Lines 120 to 160. *)
Definition lastMinutePurchases (profileId : Z) (year : jsnum) : M nat :=
  lmStart <- toISOString (lastMinuteStart year) ;;
  lmEnd <- toISOString (lastMinuteEnd year) ;;
  r <- request st SLastMinutePurchases
         (filter (fun p => (purchase_user p =? profileId)
                           && (lmStart <=? pu_created_at p) && (pu_created_at p <? lmEnd))
                 (purchases st)) ;;
  match error r with
  | Some _ => ret O
  | None =>
      match data r with
      | Some ((_ :: _) as lastMinutePurchaseData) =>
          let lastMinutePurchaseIds := map pu_id lastMinutePurchaseData in
          c <- request st SLastMinuteItemsCount
                 (List.length (filter (purchased_in lastMinutePurchaseIds) (list_items st))) ;;
          match error c with
          | Some _ => ret O
          | None => ret (match data c with Some itemsCount => itemsCount | None => O end)
          end
      | _ => ret O
      end
  end.

(** Lines 162 to 231: [(totalListsCreated, listWithMostItems)].  Neither
    [listsError] nor [listItemsCountError] is looked at. *)
Definition listStatistics (profileId ys ye : Z) : M (nat * option list_with_most_items) :=
  r <- request st SLists
         (filter (fun l => (owner_user_id l =? profileId) && within ys ye (l_created_at l))
                 (lists st)) ;;
  let owned := rows_or_empty r in
  let totalListsCreated := List.length owned in
  match owned with
  | [] => ret (totalListsCreated, None)
  | _ :: _ =>
      let listIds := map l_id owned in
      c <- request st SListItemsCount
             (filter (fun item => in_ids listIds (list_id item)) (list_items st)) ;;
      ret (totalListsCreated, listWithMostItems owned (data c))
  end.

(** Lines 253 to 352, for the owned list ids fetched at line 242. *)
Definition mostActiveDay (profileId ys ye : Z) (userListIds : list Z)
  : M (option most_active_day) :=
  match userListIds with
  | [] => ret None
  | _ :: _ =>
      r <- request st SUserListItems
             (filter (fun item => in_ids userListIds (list_id item)
                                  && within_opt ys ye (li_created_at item))
                     (list_items st)) ;;
      match error r with
      | Some _ => ret None
      | None =>
          match data r with
          | Some ((_ :: _) as userListItems) =>
              match snd (maxDay (itemsByDate userListItems)) with
              | Some best =>
                  let parsed := dd_date best * JSDate.msPerDay in
                  dayStart <- toISOString (setHours tza parsed 0 0 0 0) ;;
                  dayEnd <- toISOString (setHours tza parsed 23 59 59 999) ;;
                  userListIdsForDay <-
                    match userListIds with
                    | [] =>
                        again <- request st SUserListsForDay
                                   (filter (fun l => owner_user_id l =? profileId) (lists st)) ;;
                        ret (map l_id (rows_or_empty again))
                    | _ :: _ => ret userListIds
                    end ;;
                  i <- request st SItemsOnDay
                         (order_by_created_at
                            (filter (fun item => in_ids userListIdsForDay (list_id item)
                                                 && is_null (suggested_by item)
                                                 && within_opt dayStart dayEnd (li_created_at item))
                                    (list_items st))) ;;
                  ret (Some {| mad_date := dd_date best;
                               mad_datetime := dd_datetime best;
                               mad_itemCount := dd_count best;
                               mad_items :=
                                 match error i with
                                 | Some _ => None
                                 | None => Some (map day_item_of (rows_or_empty i))
                                 end |})
              | None => ret None
              end
          | _ => ret None
          end
      end
  end.

(** Lines 354 to 420, for the same owned list ids. *)
Definition suggestionTally (ys ye : Z) (userListIds : list Z) : M (list tally_entry) :=
  match userListIds with
  | [] => ret []
  | _ :: _ =>
      r <- request st SSuggestedGifts
             (filter (fun item => in_ids userListIds (list_id item)
                                  && negb (is_null (suggested_by item))
                                  && within_opt ys ye (li_created_at item))
                     (list_items st)) ;;
      match error r with
      | Some _ => ret []
      | None =>
          let counted := suggestedGiftCountsArray (rows_or_empty r) in
          let suggesterIds := map t_suggested_by counted in
          i <- request st SSuggestedInfo
                 (filter (fun p => in_ids suggesterIds (p_id p)) (profiles st)) ;;
          match error i with
          | Some _ => ret counted
          | None =>
              match data i with
              | Some suggestedInfo => ret (with_names (profileMap suggestedInfo) counted)
              | None =>
                  throw (mkError "TypeError"
                           "Cannot read properties of null (reading 'forEach')")
              end
          end
      end
  end.

(** Lines 233 to 421: [(mostActiveDay with its items, suggestedGiftCountsArray)]. *)
Definition ownedListReducers (profileId ys ye : Z)
  : M (option most_active_day * list tally_entry) :=
  r <- request st SUserLists (filter (fun l => owner_user_id l =? profileId) (lists st)) ;;
  match error r with
  | Some _ => ret (None, [])
  | None =>
      let userListIds := map l_id (rows_or_empty r) in
      day <- mostActiveDay profileId ys ye userListIds ;;
      counts <- suggestionTally ys ye userListIds ;;
      ret (day, counts)
  end.

(** [x || null] for a nullable text. *)
Definition text_or_null (x : option string) : option string :=
  match x with
  | Some s => if String.eqb s "" then None else Some s
  | None => None
  end.

(** Lines 424 to 466. *)
Definition assemble (profileId : Z) (year : jsnum) (listItems : list list_item)
  (lastMinute : nat) (listsPart : nat * option list_with_most_items)
  (ownedPart : option most_active_day * list tally_entry) : WrappedData :=
  let expensive := mostExpensiveItem listItems in
  {| wd_profileId := profileId;
     wd_year := year;
     wd_stats :=
       {| s_totalGiftsGiven := List.length listItems;
          s_totalGiftsReceived := O;
          s_mostExpensiveGift :=
            {| meg_title := text_or (match expensive with Some i => title i | None => None end) "";
               meg_price := match expensive with Some i => price_or_0 i | None => 0%Q end;
               meg_thumbnail_url :=
                 text_or_null (match expensive with Some i => thumbnail_url i | None => None end) |};
          s_totalSpending := spent listItems;
          s_peopleExchangedWith := O;
          s_mostPopularCategory := "";
          s_giftGivingStreak := O;
          s_santaScore := O;
          s_lastMinutePurchases := lastMinute;
          s_mostUsedRetailer := "";
          s_homemadeGifts := O;
          s_purchaseTiming :=
            {| pt_earlyBird := O; pt_onTime := O; pt_lastMinute := lastMinute |} |};
     wd_personalityType := "";
     wd_personalityReason := "";
     wd_listStats :=
       {| ls_totalListsCreated := fst listsPart;
          ls_listWithMostItems :=
            match snd listsPart with
            | Some l => Some (lwm_name l, lwm_itemCount l)
            | None => None
            end;
          ls_mostActiveDay := fst ownedPart;
          ls_suggestedGiftCounts := snd ownedPart |} |}.

(** The whole function.  The log line 21 already calls [toISOString] on
    both ends of the year, before the first request. *)
Definition calculatePatientData (profileId : Z) (year : jsnum) : M WrappedData :=
  ys <- toISOString (yearStart year) ;;
  ye <- toISOString (yearEnd year) ;;
  p <- request_single st SProfile (filter (fun p => p_id p =? profileId) (profiles st)) ;;
  match error p with
  | Some m => throw (Error ("Failed to fetch profile: " ++ m)%string)
  | None =>
      listItems <- fetchListItems profileId ys ye ;;
      lastMinute <- lastMinutePurchases profileId year ;;
      listsPart <- listStatistics profileId ys ye ;;
      ownedPart <- ownedListReducers profileId ys ye ;;
      ret (assemble profileId year listItems lastMinute listsPart ownedPart)
  end.

End Engine.

(** ** The route handler of [src/server.js] (lines 67 to 97) *)

Module Server.

(** A JavaScript string: the sequence of its UTF-16 code units, integers
    from 0 to 65535. *)
Definition jsstring : Type := list Z.

(** The string of a text written with characters below U+0100, each of
    which is one code unit. *)
Definition code_units (s : string) : jsstring :=
  map (fun c => Z.of_nat (nat_of_ascii c)) (list_ascii_of_string s).

(** The code units that [TrimString] strips: WhiteSpace (TAB, VT, FF, the
    space separators of Unicode, U+FEFF) and LineTerminator (LF, CR, U+2028,
    U+2029). *)
Definition is_whitespace (c : Z) : bool :=
  ((9 <=? c) && (c <=? 13)) || (c =? 32) || (c =? 160) || (c =? 5760)
  || ((8192 <=? c) && (c <=? 8202)) || (c =? 8232) || (c =? 8233)
  || (c =? 8239) || (c =? 8287) || (c =? 12288) || (c =? 65279).

Fixpoint skip_whitespace (s : jsstring) : jsstring :=
  match s with
  | c :: s' => if is_whitespace c then skip_whitespace s' else s
  | [] => s
  end.

(** The value of [c] as a digit in [radix], if it is one: [0-9], [a-z] and
    [A-Z]. *)
Definition digit_value (radix : Z) (c : Z) : option Z :=
  let v :=
    if (48 <=? c) && (c <=? 57) then c - 48
    else if (97 <=? c) && (c <=? 122) then c - 87
    else if (65 <=? c) && (c <=? 90) then c - 55
    else 36 in
  if v <? radix then Some v else None.

(** The longest prefix of digits, read in [radix]: [None] when it is empty. *)
Fixpoint read_digits (radix : Z) (s : jsstring) (acc : option Z) : option Z :=
  match s with
  | c :: s' =>
      match digit_value radix c with
      | Some v => read_digits radix s' (Some (radix * match acc with Some a => a | None => 0 end + v))
      | None => acc
      end
  | [] => acc
  end.

(** [parseInt(text)] with no radix given: leading white space, a sign, a
    [0x] or [0X] prefix, then the digits; the integer read is returned as a
    Number.  (For a decimal numeral of more than 20 significant digits the
    standard lets an implementation round before converting; the value here
    is the correctly rounded one.) *)
Definition parseInt (text : jsstring) : jsnum :=
  let s := skip_whitespace text in
  let '(sign, s) :=
    match s with
    | 45 :: s' => (-1, s')
    | 43 :: s' => (1, s')
    | _ => (1, s)
    end in
  let '(radix, s) :=
    match s with
    | 48 :: 120 :: s' => (16, s')
    | 48 :: 88 :: s' => (16, s')
    | _ => (10, s)
    end in
  match read_digits radix s None with
  | Some n => to_double (sign * n)
  | None => NaN
  end.

(** Line 84: [year ? parseInt(year) : new Date().getFullYear()], for the
    [year] of the query, a string or absent; the empty string is falsy. *)
Definition yearParam_of (year : option jsstring) (currentYear : Z) : jsnum :=
  match year with
  | Some [] => Num currentYear
  | Some text => parseInt text
  | None => Num currentYear
  end.

Inductive http_response : Type :=
| Json200 (body : WrappedData)
| Json500 (error message : string).

(** The handler, for a configured client and a numeric [patientId] in the
    path.  Whatever is caught is answered the same way. *)
Definition handler (st : store) (tza currentYear patientId : Z) (year : option jsstring)
  : http_response * list site :=
  match calculatePatientData st tza patientId (yearParam_of year currentYear) [] with
  | (Returned wrappedData, log) => (Json200 wrappedData, log)
  | (Threw e, log) => (Json500 "Failed to calculate wrapped data" (err_message e), log)
  end.

(** The same for a year given as a text of characters below U+0100. *)
Definition yearParam (year : option string) (currentYear : Z) : jsnum :=
  yearParam_of (option_map code_units year) currentYear.

Definition api_patient_data (st : store) (tza currentYear patientId : Z) (year : option string)
  : http_response * list site :=
  handler st tza currentYear patientId (option_map code_units year).

End Server.

(** ** Fixtures *)

Module Fixtures.

(** The instant [hour]:00 UTC on day [date] of month [month] (0 = January). *)
Definition at_hour (year month date hour : Z) : Z :=
  JSDate.MakeDate (JSDate.MakeDay year month date) (JSDate.MakeTime hour 0 0 0).

Definition item (id : Z) (purchase : option Z) (parent : Z) (amount : option Q)
  (created : option Z) (suggester : option Z) : list_item :=
  {| li_id := id; purchase_id := purchase; list_id := parent;
     title := Some "gift"%string; price := amount; link := None;
     thumbnail_url := None; li_created_at := created; suggested_by := suggester |}.

(** A line item of purchase 100 with the given parse of its price. *)
Definition line_item (id : Z) (amount : option Q) : list_item :=
  item id (Some 100) 50 amount None None.

Definition fifty : option Q := Some (50 # 1).
Definition ten : option Q := Some (10 # 1).
Definition zero : option Q := Some (0 # 1).
Definition minus_five : option Q := Some (-5 # 1).

Definition pat : profile := {| p_id := 7; first_name := "Pat"; last_name := "Doe" |}.
Definition quinn : profile := {| p_id := 8; first_name := "Quinn"; last_name := "Roe" |}.
Definition robin : profile := {| p_id := 9; first_name := "Robin"; last_name := "Poe" |}.

Definition no_outage : site -> option string := fun _ => None.

Definition outage_at (s : site) (m : string) : site -> option string :=
  fun s' => if site_eqb s s' then Some m else None.

(** Profile 7 in 2024: a purchase on Dec 10 (one item at 50) and one on
    Dec 20 (one item at 10); list 1 with three items, one of them suggested
    by profile 8, and list 2 with one item. *)
Definition year_2024 : store :=
  {| profiles := [pat; quinn];
     purchases :=
       [ {| pu_id := 100; pu_created_at := at_hour 2024 11 10 12; purchase_user := 7 |};
         {| pu_id := 101; pu_created_at := at_hour 2024 11 20 12; purchase_user := 7 |} ];
     lists :=
       [ {| l_id := 1; l_name := Some "A"%string;
            l_created_at := at_hour 2024 1 1 0; owner_user_id := 7 |};
         {| l_id := 2; l_name := Some "B"%string;
            l_created_at := at_hour 2024 1 2 0; owner_user_id := 7 |} ];
     list_items :=
       [ item 1 (Some 100) 50 (Some (50 # 1)) (Some (at_hour 2024 5 1 0)) None;
         item 2 (Some 101) 50 (Some (10 # 1)) (Some (at_hour 2024 5 1 0)) None;
         item 3 None 1 None (Some (at_hour 2024 3 1 10)) None;
         item 4 None 1 None (Some (at_hour 2024 3 1 11)) None;
         item 5 None 1 None (Some (at_hour 2024 3 2 11)) (Some 8);
         item 6 None 2 None (Some (at_hour 2024 3 2 11)) None ];
     outage := no_outage |}.

Definition with_outage (st : store) (o : site -> option string) : store :=
  {| profiles := profiles st; purchases := purchases st; lists := lists st;
     list_items := list_items st; outage := o |}.

(** Profile 7 with a single purchase, made on Dec 17, 2024 at noon. *)
Definition bought_on_dec_17 : store :=
  {| profiles := [pat];
     purchases :=
       [ {| pu_id := 100; pu_created_at := at_hour 2024 11 17 12; purchase_user := 7 |} ];
     lists := [];
     list_items := [ item 1 (Some 100) 50 (Some (20 # 1)) (Some (at_hour 2024 11 17 12)) None ];
     outage := no_outage |}.

(** The same tables as [year_2024] without the row of profile 7. *)
Definition without_profile : store :=
  {| profiles := [quinn]; purchases := purchases year_2024; lists := lists year_2024;
     list_items := list_items year_2024; outage := no_outage |}.

(** Profile 7 owns list 1, on which profiles 8 and 9 each suggested one
    gift in 2024. *)
Definition two_suggesters : store :=
  {| profiles := [pat; quinn; robin];
     purchases := [];
     lists :=
       [ {| l_id := 1; l_name := Some "A"%string;
            l_created_at := at_hour 2024 1 1 0; owner_user_id := 7 |} ];
     list_items :=
       [ item 1 None 1 None (Some (at_hour 2024 3 1 10)) (Some 9);
         item 2 None 1 None (Some (at_hour 2024 3 2 10)) (Some 8) ];
     outage := no_outage |}.

(** Profile 7 owns lists 1 and 2; the store returns the item of list 2
    before the item of list 1. *)
Definition tied_lists : store :=
  {| profiles := [pat];
     purchases := [];
     lists :=
       [ {| l_id := 1; l_name := Some "A"%string;
            l_created_at := at_hour 2024 1 1 0; owner_user_id := 7 |};
         {| l_id := 2; l_name := Some "B"%string;
            l_created_at := at_hour 2024 1 2 0; owner_user_id := 7 |} ];
     list_items :=
       [ item 1 None 2 None (Some (at_hour 2024 3 1 10)) None;
         item 2 None 1 None (Some (at_hour 2024 3 2 10)) None ];
     outage := no_outage |}.

(** Profile 7 owns list 1 with one item of its own and one item whose
    suggester is the profile with id 0. *)
Definition suggester_zero : store :=
  {| profiles := [pat; {| p_id := 0; first_name := "Zed"; last_name := "Null" |}];
     purchases := [];
     lists :=
       [ {| l_id := 1; l_name := Some "A"%string;
            l_created_at := at_hour 2024 1 1 0; owner_user_id := 7 |} ];
     list_items :=
       [ item 1 None 1 None (Some (at_hour 2024 3 1 10)) None;
         item 2 None 1 None (Some (at_hour 2024 3 1 11)) (Some 0) ];
     outage := no_outage |}.

(** Profile 7 owns list 1, created in 2024, to which nothing was added. *)
Definition empty_list : store :=
  {| profiles := [pat];
     purchases := [];
     lists :=
       [ {| l_id := 1; l_name := Some "A"%string;
            l_created_at := at_hour 2024 1 1 0; owner_user_id := 7 |} ];
     list_items := [];
     outage := no_outage |}.

End Fixtures.

(** ** Counting, for the statements *)

(** The number of fetched list items that belong to list [id]. *)
Definition count_for (id : Z) (items : list list_item) : nat :=
  List.length (filter (fun item => list_id item =? id) items).

(** The number of fetched gifts suggested by [suggester]. *)
Definition suggested_count (suggester : Z) (gifts : list list_item) : nat :=
  List.length (filter (fun gift => match suggested_by gift with
                                   | Some s => s =? suggester
                                   | None => false
                                   end) gifts).

(** Order of two properties by key. *)
Definition key_le {V} (a b : Z * V) : Prop := fst a <= fst b.

(** [res] is the largest count with the smallest key that reaches it, or
    [(0, None)] when nothing is counted. *)
Definition winner_of (count : Z -> nat) (res : nat * option Z) : Prop :=
  (forall k, (count k <= fst res)%nat) /\
  match snd res with
  | None => fst res = O
  | Some k =>
      (0 < fst res)%nat /\ count k = fst res /\
      forall k', count k' = fst res -> k <= k'
  end.

(** [counts[k] || 0]. *)
Definition count_in (counts : JSObject.t nat) (k : Z) : nat :=
  match JSObject.get counts k with
  | Some c => c
  | None => O
  end.

(** Order of two tally entries: the first has at least the count of the
    second. *)
Definition count_ge (a b : tally_entry) : Prop := (t_count b <= t_count a)%nat.

(** The sum of the counts held by a counting object. *)
Definition sum_values (counts : list (Z * nat)) : nat :=
  fold_right (fun e n => (snd e + n)%nat) O counts.

(** The suggesters that line 376 lets through, one per gift, in order. *)
Definition truthy_suggesters (gifts : list list_item) : list Z :=
  flat_map (fun gift => match suggested_by gift with
                        | Some s => if s =? 0 then [] else [s]
                        | None => []
                        end) gifts.

(** List [id] is one of the lists of [profileId] in the store. *)
Definition owned_by (st : store) (profileId id : Z) : bool :=
  existsb (fun l => (owner_user_id l =? profileId) && (l_id l =? id)) (lists st).

(** The list items of the store that were suggested for a list of
    [profileId] and created between [ys] and [ye]. *)
Definition suggested_items (st : store) (profileId ys ye : Z) : list list_item :=
  filter (fun item => owned_by st profileId (list_id item)
                      && negb (is_null (suggested_by item))
                      && within_opt ys ye (li_created_at item))
         (list_items st).

(** The sum of the [count] fields of a tally. *)
Definition total_count (counts : list tally_entry) : nat :=
  fold_right (fun e n => (t_count e + n)%nat) O counts.

(** ** Statements of the specification that the code does not meet, in its words *)

Module Spec.

(** "[lastMinute(Y)] spans Dec 18 00:00:00.000 (inclusive) ...": the start
    of the last-minute window as the specification and the comment at line
    123 have it. *)
Definition lastMinuteStart (tza : Z) (year : jsnum) : option Z :=
  JSDate.construct tza year 11 18 0 0 0 0.

(** A year text that is a number: an optional sign and decimal digits only. *)
Fixpoint all_digits (s : string) : bool :=
  match s with
  | String c s' =>
      let n := nat_of_ascii c in
      ((48 <=? n) && (n <=? 57))%nat && all_digits s'
  | EmptyString => true
  end.

Definition numeric (text : string) : bool :=
  match text with
  | String "-" s | String "+" s => negb (String.eqb s "") && all_digits s
  | _ => negb (String.eqb text "") && all_digits text
  end.

(** "An invalid/non-numeric year ... should be rejected with an
    [InvalidInput] error before any fetch occurs", for the year text [text]
    of a request. *)
Definition invalid_year_rejected (st : store) (tza currentYear profileId : Z) (text : string)
  : Prop :=
  numeric text = false ->
  text <> ""%string ->
  exists m,
    calculatePatientData st tza profileId (Server.yearParam (Some text) currentYear) []
    = (Threw (mkError "InvalidInput" m), []).



(** "A LineItem with a null/unparseable price ... is never selected as the
    most-expensive item unless all items are zero-priced", for the line items
    [listItems]. *)
Definition unpriced_wins_only_if_all_zero (listItems : list list_item) : Prop :=
  forall chosen,
    mostExpensiveItem listItems = Some chosen ->
    price chosen = None ->
    forall item, In item listItems -> (price_or_0 item == 0)%Q.

(** "Ties resolve to whichever list id is encountered first during the
    grouping pass": the winner loop run over the groups in the order in which
    the grouping pass created them. *)
Definition first_encountered_winner (listItemsCount : list list_item) : option Z :=
  snd (fold_left keep_larger (listItemCounts listItemsCount) (O, None)).

Definition first_encountered_wins (owned : list list_row) (listItemsCount : list list_item)
  : Prop :=
  forall w,
    listWithMostItems owned (Some listItemsCount) = Some w ->
    first_encountered_winner listItemsCount = Some (lwm_id w).

(** "If the profile owns at least one list created in the year window but
    no list item references any of those lists, the returned report has
    totalListsCreated > 0 while listStats.listWithMostItems is null", for the
    report computed on [st], with no condition on the requests. *)
Definition empty_lists_are_counted (st : store) (tza profileId : Z) (year : jsnum) : Prop :=
  forall ys ye r log,
    calculatePatientData st tza profileId year [] = (Returned r, log) ->
    yearStart tza year = Some ys ->
    yearEnd tza year = Some ye ->
    (exists l, In l (lists st) /\ owner_user_id l = profileId /\ ys <= l_created_at l <= ye) ->
    (forall l item,
       In l (lists st) -> owner_user_id l = profileId -> ys <= l_created_at l <= ye ->
       In item (list_items st) -> list_id item <> l_id l) ->
    (0 < ls_totalListsCreated (wd_listStats r))%nat /\
    ls_listWithMostItems (wd_listStats r) = None.

(** "Sorted strictly descending by count". *)
Definition strictly_descending (counts : list tally_entry) : Prop :=
  StronglySorted (fun a b => (t_count b < t_count a)%nat) counts.

(** "Suggestion tally is sorted strictly descending by count", for the
    report computed on [st]. *)
Definition tally_strictly_descending (st : store) (tza profileId : Z) (year : jsnum) : Prop :=
  forall r log,
    calculatePatientData st tza profileId year [] = (Returned r, log) ->
    strictly_descending (ls_suggestedGiftCounts (wd_listStats r)).

End Spec.

(** ** Further definitions for the statements *)

(** [Math.max(a, b)]. *)
Definition js_max (a b : Q) : Q := if Qgtb b a then b else a.

(** Lines 101 to 103: [Math.max] over the parsed prices, 0 for no item. *)
Definition maxPrice (listItems : list list_item) : Q :=
  match listItems with
  | [] => 0%Q
  | first :: rest => fold_left js_max (map price_or_0 rest) (price_or_0 first)
  end.

(** The place of a call site in the source. *)
Definition site_rank (s : site) : nat :=
  match s with
  | SProfile => 0
  | SPurchases => 1
  | SListItems => 2
  | SLastMinutePurchases => 3
  | SLastMinuteItemsCount => 4
  | SLists => 5
  | SListItemsCount => 6
  | SUserLists => 7
  | SUserListItems => 8
  | SUserListsForDay => 9
  | SItemsOnDay => 10
  | SSuggestedGifts => 11
  | SSuggestedInfo => 12
  end%nat.

Definition site_before (a b : site) : Prop := (site_rank a < site_rank b)%nat.

(** Whatever the log so far, [m] adds to it requests of rank [lo] to [hi]
    only, in the order of the source, and never the request of line 321. *)
Definition issues {A} (m : M A) (lo hi : nat) : Prop :=
  forall log,
  exists l,
    snd (m log) = log ++ l /\
    StronglySorted site_before l /\
    Forall (fun s => (lo <= site_rank s <= hi)%nat /\ s <> SUserListsForDay) l.

(** The instant under which the grouping of lines 273 to 289 counts an
    item: its [created_at], unless it is null or the suggester is truthy. *)
Definition counted_at (item : list_item) : option Z :=
  match li_created_at item with
  | Some created_at => if truthy_id (suggested_by item) then None else Some created_at
  | None => None
  end.

(** The items that the grouping counts under the UTC day [day]. *)
Definition counted_on (day : Z) (items : list list_item) : list list_item :=
  filter (fun item => match counted_at item with
                      | Some created_at => JSDate.Day created_at =? day
                      | None => false
                      end) items.

(** The purchases of [profileId] created between [ys] and [ye]. *)
Definition purchases_of_year (st : store) (profileId ys ye : Z) : list purchase :=
  filter (fun p => (purchase_user p =? profileId) && within ys ye (pu_created_at p))
         (purchases st).



(** Order of the tally: larger counts first, equal counts by ascending id. *)
Definition tally_before (a b : tally_entry) : Prop :=
  (t_count b < t_count a)%nat \/
  (t_count a = t_count b /\ t_suggested_by a < t_suggested_by b).

(** A year written in decimal digits. *)
Definition decimal (n : nat) : string := NilEmpty.string_of_uint (Nat.to_uint n).

(** What the grouping holds for the UTC day [day] after the pass over
    [items]: nothing when no item is counted under it, else the day, the
    [created_at] of the first item counted and the number of items counted. *)
Definition day_summary (day : Z) (items : list list_item) : option day_data :=
  match counted_on day items with
  | [] => None
  | first :: rest =>
      Some {| dd_date := day;
              dd_datetime := match counted_at first with Some c => c | None => 0 end;
              dd_count := S (List.length rest) |}
  end.

(** The display name that the lookup of lines 392 to 410 gives to profile
    [id]: first and last name of the last row of [profiles] with that id,
    "Unknown" when there is none. *)
Definition resolved_name (rows : list profile) (id : Z) : string :=
  match find (fun p => p_id p =? id) (rev rows) with
  | Some p => (first_name p ++ " " ++ last_name p)%string
  | None => "Unknown"%string
  end.

(** The suggester of a gift, when there is one, is an array index. *)
Definition suggester_is_index (gift : list_item) : Prop :=
  match suggested_by gift with
  | Some s => JSObject.is_array_index s = true
  | None => True
  end.

(** The item was bought in a purchase of [profileId] whose creation time
    [accept] lets through. *)
Definition bought_when (st : store) (profileId : Z) (accept : Z -> bool) (item : list_item)
  : bool :=
  match purchase_id item with
  | Some k =>
      existsb (fun p => (purchase_user p =? profileId) && accept (pu_created_at p)
                        && (pu_id p =? k))
              (purchases st)
  | None => false
  end.

(** The errors that the engine raises. *)
Definition engine_error (e : js_error) : Prop :=
  e = RangeError "Invalid time value" \/
  exists m,
    e = Error ("Failed to fetch profile: " ++ m) \/
    e = Error ("Failed to fetch purchases: " ++ m) \/
    e = Error ("Failed to fetch list items: " ++ m).

(** Whatever [m] throws satisfies [P]. *)
Definition throws_only {A} (P : js_error -> Prop) (m : M A) : Prop :=
  forall log e log', m log = (Threw e, log') -> P e.

(** * Properties *)

(** ** Running the monad *)

Lemma bind_returned {A B} (m : M A) (k : A -> M B) log b log' :
  bind m k log = (Returned b, log') ->
  exists a log1, m log = (Returned a, log1) /\ k a log1 = (Returned b, log').
Proof.
  unfold bind. destruct (m log) as [[a | e] log1]; intros H.
  - exists a, log1. split; [reflexivity | exact H].
  - discriminate H.
Qed.



Lemma request_run {A} st s (rows : A) log :
  request st s rows log =
  (Returned match outage st s with
            | Some m => mkResponse None (Some m)
            | None => mkResponse (Some rows) None
            end, log ++ [s]).
Proof. reflexivity. Qed.

Lemma toISOString_returned d log t log' :
  toISOString d log = (Returned t, log') -> d = Some t /\ log' = log.
Proof.
  destruct d as [t' |]; cbn; intros H; inversion H; subst; auto.
Qed.

Ltac run_step :=
  match goal with
  | H : bind _ _ _ = (Returned _, _) |- _ =>
      let a := fresh "a" in
      let l := fresh "log" in
      let Ha := fresh "Hrun" in
      apply bind_returned in H; destruct H as (a & l & Ha & H)
  | H : toISOString _ _ = (Returned _, _) |- _ =>
      apply toISOString_returned in H; destruct H as [H ?]; subst
  | H : ret _ _ = (Returned _, _) |- _ =>
      unfold ret in H; inversion H; subst; clear H
  | H : throw _ _ = (Returned _, _) |- _ => discriminate H
  end.

(** A report that is returned has gone through every stage. *)
Lemma calculatePatientData_returned st tza profileId year log r log' :
  calculatePatientData st tza profileId year log = (Returned r, log') ->
  exists ys ye listItems lastMinute listsPart ownedPart log1 log2 log3,
    yearStart tza year = Some ys /\
    yearEnd tza year = Some ye /\
    fetchListItems st profileId ys ye (log ++ [SProfile]) = (Returned listItems, log1) /\
    lastMinutePurchases st tza profileId year log1 = (Returned lastMinute, log2) /\
    listStatistics st profileId ys ye log2 = (Returned listsPart, log3) /\
    ownedListReducers st tza profileId ys ye log3 = (Returned ownedPart, log') /\
    r = assemble profileId year listItems lastMinute listsPart ownedPart.
Proof.
  unfold calculatePatientData. intros H.
  repeat run_step.
  unfold request_single in Hrun1. inversion Hrun1; subst; clear Hrun1.
  match type of H with
  | context [error ?x] => destruct (error x); [discriminate H |]
  end.
  repeat run_step.
  do 9 eexists. repeat split; eauto.
Qed.

(** ** The windows *)

Lemma DaysInYear_cases y : JSDate.DaysInYear y = 365 \/ JSDate.DaysInYear y = 366.
Proof.
  unfold JSDate.DaysInYear.
  destruct (y mod 4 =? 0), (y mod 100 =? 0), (y mod 400 =? 0); cbn; auto.
Qed.

Lemma DayFromYear_succ y :
  JSDate.DayFromYear (y + 1) = JSDate.DayFromYear y + JSDate.DaysInYear y.
Proof.
  unfold JSDate.DayFromYear, JSDate.DaysInYear.
  destruct (Z.eqb_spec (y mod 4) 0), (Z.eqb_spec (y mod 100) 0),
    (Z.eqb_spec (y mod 400) 0); cbn [negb];
    Z.div_mod_to_equations; lia.
Qed.

(** The full-year window runs from the first millisecond of the year the
    constructor reads to its last, in local time. *)
Lemma fullYear_window tza y ys ye :
  yearStart tza (Num y) = Some ys ->
  yearEnd tza (Num y) = Some ye ->
  ys = JSDate.TimeFromYear (JSDate.full_year y) - tza /\
  ye = JSDate.TimeFromYear (JSDate.full_year y + 1) - 1 - tza.
Proof.
  unfold yearStart, yearEnd, JSDate.construct, JSDate.TimeClip.
  set (yr := JSDate.full_year y).
  destruct (_ <=? _); [| discriminate]. intros Hs. inversion Hs; subst ys; clear Hs.
  destruct (_ <=? _); [| discriminate]. intros He. inversion He; subst ye; clear He.
  unfold JSDate.TimeFromYear. rewrite DayFromYear_succ.
  unfold JSDate.MakeDate, JSDate.MakeDay, JSDate.MakeTime, JSDate.InLeapYear.
  change (0 / 12) with 0. change (11 / 12) with 0.
  change (0 mod 12) with 0. change (11 mod 12) with 11.
  rewrite !Z.add_0_r. cbn [JSDate.MonthStart].
  unfold JSDate.msPerDay, JSDate.msPerHour, JSDate.msPerMinute, JSDate.msPerSecond.
  split; lia.
Qed.

(** The last-minute window starts one day before Dec 18. *)
Lemma lastMinuteStart_day_before_dec_18 tza y s dec18 :
  lastMinuteStart tza (Num y) = Some s ->
  Spec.lastMinuteStart tza (Num y) = Some dec18 ->
  s = dec18 - JSDate.msPerDay.
Proof.
  unfold lastMinuteStart, Spec.lastMinuteStart, JSDate.construct, JSDate.TimeClip.
  destruct (_ <=? _); [| discriminate]. intros Hs. inversion Hs; subst s; clear Hs.
  destruct (_ <=? _); [| discriminate]. intros Hd. inversion Hd; subst dec18; clear Hd.
  unfold JSDate.MakeDate, JSDate.MakeDay. lia.
Qed.

(** C1.  At year 2024 the engine's last-minute window opens on Dec 17 at
    00:00:00.000, one day before the Dec 18 of the specification and of the
    comment at line 123, and closes before Dec 26 at 00:00:00.000; the
    full-year window runs from Jan 1 at 00:00:00.000 to Dec 31 at
    23:59:59.999.  A purchase made on Dec 17 at noon is therefore counted as a
    last-minute purchase. *)
Theorem lastMinuteStart_2024_is_dec_17 :
  option_map (JSDate.local_fields 0) (yearStart 0 (Num 2024)) = Some (2024, 0, 1, 0) /\
  option_map (JSDate.local_fields 0) (yearEnd 0 (Num 2024)) = Some (2024, 11, 31, 86399999) /\
  option_map (JSDate.local_fields 0) (lastMinuteStart 0 (Num 2024)) = Some (2024, 11, 17, 0) /\
  option_map (JSDate.local_fields 0) (lastMinuteEnd 0 (Num 2024)) = Some (2024, 11, 26, 0) /\
  option_map (JSDate.local_fields 0) (Spec.lastMinuteStart 0 (Num 2024))
  = Some (2024, 11, 18, 0) /\
  lastMinuteStart 0 (Num 2024) <> Spec.lastMinuteStart 0 (Num 2024) /\
  exists r log,
    calculatePatientData Fixtures.bought_on_dec_17 0 7 (Num 2024) [] = (Returned r, log) /\
    s_lastMinutePurchases (wd_stats r) = 1%nat.
Proof.
  repeat split; try (vm_compute; reflexivity).
  - vm_compute. discriminate.
  - eexists. eexists. split; vm_compute; reflexivity.
Qed.

(** ** The assembled report *)

(** C9.  In every report that [calculatePatientData] returns,
    [stats.purchaseTiming.lastMinute] equals [stats.lastMinutePurchases]. *)
Theorem lastMinute_fields_agree st tza profileId year log r log' :
  calculatePatientData st tza profileId year log = (Returned r, log') ->
  pt_lastMinute (s_purchaseTiming (wd_stats r)) = s_lastMinutePurchases (wd_stats r).
Proof.
  intros H. apply calculatePatientData_returned in H.
  destruct H as (ys & ye & items & lm & lp & op & l1 & l2 & l3 & _ & _ & _ & _ & _ & _ & ->).
  reflexivity.
Qed.

Lemma lastMinute_fields_agree_witness :
  exists r log',
    calculatePatientData Fixtures.year_2024 0 7 (Num 2024) [] = (Returned r, log') /\
    s_lastMinutePurchases (wd_stats r) = 1%nat /\
    pt_lastMinute (s_purchaseTiming (wd_stats r)) = s_lastMinutePurchases (wd_stats r).
Proof.
  eexists. eexists. split; [vm_compute; reflexivity |].
  split; [vm_compute; reflexivity |].
  match goal with
  | |- pt_lastMinute (s_purchaseTiming (wd_stats ?r)) = _ =>
      apply (lastMinute_fields_agree Fixtures.year_2024 0 7 (Num 2024) [] r
               [SProfile; SPurchases; SListItems; SLastMinutePurchases;
                SLastMinuteItemsCount; SLists; SListItemsCount; SUserLists;
                SUserListItems; SItemsOnDay; SSuggestedGifts; SSuggestedInfo])
  end.
  vm_compute. reflexivity.
Defined.

(** ** Rejected inputs *)

Lemma yearStart_NaN tza : yearStart tza NaN = None.
Proof. reflexivity. Qed.

(** C6, as amended.  A year that is [NaN] (a year text without a leading
    numeral), or whose window lies outside the range of [Date], makes the
    computation throw [RangeError: Invalid time value] before any request is
    issued. *)
Theorem invalid_year_throws_before_any_fetch st tza profileId year log :
  yearStart tza year = None \/ yearEnd tza year = None ->
  calculatePatientData st tza profileId year log
  = (Threw (RangeError "Invalid time value"), log).
Proof.
  unfold calculatePatientData, bind. intros [H | H].
  - rewrite H. reflexivity.
  - rewrite H. destruct (yearStart tza year); reflexivity.
Qed.

Lemma invalid_year_throws_before_any_fetch_witness :
  Server.yearParam (Some "abc"%string) 2026 = NaN /\
  calculatePatientData Fixtures.year_2024 0 7 (Server.yearParam (Some "abc"%string) 2026) []
  = (Threw (RangeError "Invalid time value"), []).
Proof.
  split; [reflexivity |].
  apply (invalid_year_throws_before_any_fetch Fixtures.year_2024 0 7
           (Server.yearParam (Some "abc"%string) 2026) []).
  left. reflexivity.
Defined.

(** C6, as stated, fails: the year text [2024abc] is not a number, yet the
    computation is not rejected; it runs for 2024 and issues its requests. *)
Lemma invalid_year_not_rejected :
  ~ Spec.invalid_year_rejected Fixtures.year_2024 0 2026 7 "2024abc".
Proof.
  intros H. destruct H as [m Hm]; [reflexivity | discriminate |].
  vm_compute in Hm. discriminate Hm.
Qed.




(** The route handler answers both failures with the same status and label;
    only the message differs. *)
Example handler_answers_alike :
  Server.api_patient_data Fixtures.without_profile 0 2026 7 (Some "2024"%string)
  = (Server.Json500 "Failed to calculate wrapped data"
       ("Failed to fetch profile: " ++ PGRST116), [SProfile]) /\
  Server.api_patient_data
    (Fixtures.with_outage Fixtures.year_2024
       (Fixtures.outage_at SPurchases "connection reset"))
    0 2026 7 (Some "2024"%string)
  = (Server.Json500 "Failed to calculate wrapped data"
       "Failed to fetch purchases: connection reset", [SProfile; SPurchases]).
Proof. split; reflexivity. Qed.

(** A year string that [parseInt] cannot read is answered with the message
    of the [RangeError], and no request reaches the store. *)
Lemma handler_on_unreadable_year st tza currentYear patientId (text : Server.jsstring) :
  Server.parseInt text = NaN ->
  text <> [] ->
  Server.handler st tza currentYear patientId (Some text)
  = (Server.Json500 "Failed to calculate wrapped data" "Invalid time value", []).
Proof.
  intros Hnan Hne. unfold Server.handler, Server.yearParam_of.
  destruct text as [| c text]; [contradiction |].
  rewrite Hnan. reflexivity.
Qed.

(** ** Dates the engine builds are valid *)

Lemma DayFromYear_mono y1 y2 :
  y1 <= y2 -> JSDate.DayFromYear y1 <= JSDate.DayFromYear y2.
Proof.
  unfold JSDate.DayFromYear. intros. Z.div_mod_to_equations. lia.
Qed.

Lemma year_estimate d :
  JSDate.DayFromYear (1970 + d * 400 / 146097 - 1) <= d
  < JSDate.DayFromYear (1970 + d * 400 / 146097 + 2).
Proof.
  unfold JSDate.DayFromYear. Z.div_mod_to_equations. lia.
Qed.

Lemma year_search_spec fuel : forall y d,
  JSDate.DayFromYear (y - Z.of_nat fuel) <= d < JSDate.DayFromYear (y + 1 + Z.of_nat fuel) ->
  JSDate.DayFromYear (JSDate.year_search fuel y d) <= d
  < JSDate.DayFromYear (JSDate.year_search fuel y d + 1).
Proof.
  induction fuel as [| fuel IH]; intros y d H; cbn [JSDate.year_search].
  - cbn in H. rewrite Z.sub_0_r, Z.add_0_r in H. exact H.
  - rewrite Nat2Z.inj_succ in H.
    destruct (Z.leb_spec (JSDate.DayFromYear (y + 1)) d) as [Hup | Hup].
    + apply IH. split.
      * pose proof (DayFromYear_mono (y + 1 - Z.of_nat fuel) (y + 1)). lia.
      * replace (y + 1 + 1 + Z.of_nat fuel) with (y + 1 + Z.succ (Z.of_nat fuel)) by lia. lia.
    + destruct (Z.ltb_spec d (JSDate.DayFromYear y)) as [Hdn | Hdn].
      * apply IH. split.
        -- replace (y - 1 - Z.of_nat fuel) with (y - Z.succ (Z.of_nat fuel)) by lia. lia.
        -- pose proof (DayFromYear_mono y (y - 1 + 1 + Z.of_nat fuel)). lia.
      * lia.
Qed.

(** [YearFromTime t] is the year that holds the day of [t], for every time
    value. *)
Lemma YearFromTime_spec t :
  JSDate.DayFromYear (JSDate.YearFromTime t) <= JSDate.Day t
  < JSDate.DayFromYear (JSDate.YearFromTime t + 1).
Proof.
  unfold JSDate.YearFromTime. apply year_search_spec.
  pose proof (year_estimate (JSDate.Day t)) as [H1 H2].
  set (y0 := 1970 + JSDate.Day t * 400 / 146097) in *.
  pose proof (DayFromYear_mono (y0 - Z.of_nat 2) (y0 - 1)).
  pose proof (DayFromYear_mono (y0 + 2) (y0 + 1 + Z.of_nat 2)).
  lia.
Qed.


Lemma TimeClip_Some t v : JSDate.TimeClip t = Some v -> v = t /\ Z.abs t <= 8640000000000000.
Proof.
  unfold JSDate.TimeClip.
  destruct (Z.leb_spec (Z.abs t) 8640000000000000) as [Hle | Hgt]; intros E;
    inversion E; subst; split; [reflexivity | exact Hle].
Qed.

Lemma TimeClip_in_range t :
  Z.abs t <= 8640000000000000 -> JSDate.TimeClip t = Some t.
Proof.
  unfold JSDate.TimeClip. intros H.
  destruct (Z.leb_spec (Z.abs t) 8640000000000000); [reflexivity | lia].
Qed.




(** ** Facts on objects and on the two winner loops *)

Lemma fold_left_invariant {A B} (P : A -> Prop) (f : A -> B -> A) (l : list B) (a : A) :
  P a ->
  (forall a' b, P a' -> In b l -> P (f a' b)) ->
  P (fold_left f l a).
Proof.
  revert a. induction l as [| b l IH]; intros a Ha Hstep; cbn.
  - exact Ha.
  - apply IH.
    + apply Hstep; [exact Ha | left; reflexivity].
    + intros a' b' Ha' Hin. apply Hstep; [exact Ha' | right; exact Hin].
Qed.

Lemma set_Forall {V} (Q : Z * V -> Prop) (o : JSObject.t V) k v :
  Forall Q o -> Q (k, v) -> Forall Q (JSObject.set o k v).
Proof.
  intros Ho Hkv. induction o as [| [k' v'] o IH]; cbn.
  - constructor; [exact Hkv | constructor].
  - inversion Ho; subst. destruct (Z.eqb_spec k' k) as [-> | Hne].
    + constructor; assumption.
    + constructor; [assumption | apply IH; assumption].
Qed.


Lemma maxDay_In (byDate : JSObject.t day_data) d :
  snd (maxDay byDate) = Some d -> In d (JSObject.values_of_text_keys byDate).
Proof.
  unfold maxDay.
  set (vals := JSObject.values_of_text_keys byDate).
  assert (H : forall acc,
             (forall d', snd acc = Some d' -> In d' vals) ->
             forall d', snd (fold_left
                               (fun '(maxDayCount, best) dayData =>
                                  if (maxDayCount <? dd_count dayData)%nat
                                  then (dd_count dayData, Some dayData)
                                  else (maxDayCount, best)) vals acc) = Some d' ->
                        In d' vals).
  { intros acc Hacc.
    apply (fold_left_invariant (fun acc => forall d', snd acc = Some d' -> In d' vals)).
    - exact Hacc.
    - intros [m best] x Hinv Hin. destruct (m <? dd_count x)%nat; cbn.
      + intros d' E. inversion E; subst. exact Hin.
      + exact Hinv. }
  apply H. cbn. discriminate.
Qed.

(** ** The reducers that recover from a failed request *)




Lemma with_names_counts names l :
  map t_count (with_names names l) = map t_count l.
Proof.
  unfold with_names. rewrite map_map. reflexivity.
Qed.





(** ** Which failures abort the computation *)








(** ** Lists without items *)

Lemma listWithMostItems_no_items owned :
  listWithMostItems owned (Some []) = None /\ listWithMostItems owned None = None.
Proof. split; reflexivity. Qed.

(** C10, as amended.  If the request for the lists of the year (line 173)
    succeeds, the profile owns at least one list created in the year window
    and no list item refers to any of those lists, then the returned report
    has [totalListsCreated > 0] and [listWithMostItems] null. *)
Theorem empty_lists_have_no_winner st tza profileId year ys ye log r log' :
  calculatePatientData st tza profileId year log = (Returned r, log') ->
  yearStart tza year = Some ys ->
  yearEnd tza year = Some ye ->
  outage st SLists = None ->
  (exists l, In l (lists st) /\ owner_user_id l = profileId /\ ys <= l_created_at l <= ye) ->
  (forall l item,
     In l (lists st) -> owner_user_id l = profileId -> ys <= l_created_at l <= ye ->
     In item (list_items st) -> list_id item <> l_id l) ->
  (0 < ls_totalListsCreated (wd_listStats r))%nat /\
  ls_listWithMostItems (wd_listStats r) = None.
Proof.
  intros Hrun Hs He O1 (l & Hl & Hown & Hwin) Hnone.
  apply calculatePatientData_returned in Hrun.
  destruct Hrun as (ys' & ye' & items & lm & lp & op & l1 & l2 & l3
                    & Hs' & He' & _ & _ & Hstat & _ & ->).
  rewrite Hs in Hs'. inversion Hs'; subst ys'. rewrite He in He'. inversion He'; subst ye'.
  cbn [assemble wd_listStats ls_totalListsCreated ls_listWithMostItems].
  unfold listStatistics, bind, request, ret, rows_or_empty in Hstat.
  rewrite O1 in Hstat. cbn [error data] in Hstat.
  set (f := fun l0 : list_row =>
              (owner_user_id l0 =? profileId) && within ys ye (l_created_at l0)) in *.
  assert (Hin : In l (filter f (lists st))).
  { apply filter_In. split; [exact Hl |]. unfold f, within.
    apply andb_true_intro. split; [apply Z.eqb_eq; exact Hown |].
    apply andb_true_intro. split; apply Z.leb_le; lia. }
  assert (Hempty : filter (fun item => in_ids (map l_id (filter f (lists st))) (list_id item))
                          (list_items st) = []).
  { destruct (filter _ (list_items st)) as [| item rest] eqn:E; [reflexivity | exfalso].
    assert (Hitem : In item (item :: rest)) by (left; reflexivity).
    rewrite <- E in Hitem. apply filter_In in Hitem. destruct Hitem as [Hi Hids].
    unfold in_ids in Hids. apply existsb_exists in Hids. destruct Hids as (id & Hid & Heq).
    apply Z.eqb_eq in Heq. apply in_map_iff in Hid. destruct Hid as (l0 & <- & Hl0).
    apply filter_In in Hl0. destruct Hl0 as [Hl0 Hf]. unfold f, within in Hf.
    apply andb_prop in Hf. destruct Hf as [Ho Hw]. apply andb_prop in Hw. destruct Hw as [W1 W2].
    apply Z.eqb_eq in Ho. apply Z.leb_le in W1. apply Z.leb_le in W2.
    apply (Hnone l0 item Hl0 Ho (conj W1 W2) Hi). exact Heq. }
  destruct (filter f (lists st)) as [| l0 rows] eqn:Erows; [destruct Hin |].
  rewrite Hempty in Hstat.
  destruct (outage st SListItemsCount); cbn [error data] in Hstat;
    inversion Hstat; subst; cbn; split; try lia; reflexivity.
Qed.

Lemma empty_lists_have_no_winner_witness :
  exists r log',
    calculatePatientData Fixtures.empty_list 0 7 (Num 2024) [] = (Returned r, log') /\
    (0 < ls_totalListsCreated (wd_listStats r))%nat /\
    ls_listWithMostItems (wd_listStats r) = None.
Proof.
  eexists. eexists. split; [vm_compute; reflexivity |].
  match goal with
  | |- (0 < ls_totalListsCreated (wd_listStats ?r))%nat /\ _ =>
      apply (empty_lists_have_no_winner Fixtures.empty_list 0 7 (Num 2024)
               1704067200000 1735689599999 [] r
               [SProfile; SPurchases; SLastMinutePurchases; SLists; SListItemsCount;
                SUserLists; SUserListItems; SSuggestedGifts; SSuggestedInfo])
  end.
  - vm_compute. reflexivity.
  - reflexivity.
  - reflexivity.
  - reflexivity.
  - eexists. split; [left; reflexivity |]. split; [reflexivity |].
    vm_compute. split; discriminate.
  - intros l item _ _ _ Hitem. destruct Hitem.
Defined.

(** C10, as stated, fails: when the request for the lists of the year fails,
    its error is not looked at, the lists are taken to be none, and the
    report has [totalListsCreated = 0] although the profile owns a list
    created in the year. *)
Lemma failed_list_request_counts_no_list :
  ~ Spec.empty_lists_are_counted
      (Fixtures.with_outage Fixtures.empty_list (Fixtures.outage_at SLists "timeout"))
      0 7 (Num 2024).
Proof.
  unfold Spec.empty_lists_are_counted. intros H.
  eassert (Hrun : calculatePatientData
                    (Fixtures.with_outage Fixtures.empty_list
                       (Fixtures.outage_at SLists "timeout"))
                    0 7 (Num 2024) [] = (Returned _, _)).
  { vm_compute. reflexivity. }
  destruct (H 1704067200000 1735689599999 _ _ Hrun eq_refl eq_refl) as [Hpos _].
  - eexists. split; [left; reflexivity |]. split; [reflexivity |].
    vm_compute. split; discriminate.
  - intros l item _ _ _ Hitem. destruct Hitem.
  - vm_compute in Hpos. lia.
Qed.

(** ** Spend and extremes *)

Lemma fold_add_price_shift l a :
  (fold_left add_price l a == a + fold_left add_price l 0)%Q.
Proof.
  revert a. induction l as [| x l IH]; intros a; cbn.
  - ring.
  - rewrite (IH (add_price a x)), (IH (add_price 0 x)). unfold add_price. ring.
Qed.

Lemma spent_app l1 l2 : (spent (l1 ++ l2) == spent l1 + spent l2)%Q.
Proof.
  unfold spent. rewrite fold_left_app.
  apply fold_add_price_shift.
Qed.

Lemma Qgtb_true a b : Qgtb a b = true <-> (b < a)%Q.
Proof.
  unfold Qgtb. rewrite negb_true_iff. split.
  - intros H. apply Qnot_le_lt. intros Hle. apply Qle_bool_iff in Hle. congruence.
  - intros H. destruct (Qle_bool a b) eqn:E; [| reflexivity].
    apply Qle_bool_iff in E. exfalso. apply (Qlt_not_le _ _ H). exact E.
Qed.

Lemma Qgtb_false a b : Qgtb a b = false <-> (a <= b)%Q.
Proof.
  unfold Qgtb. rewrite negb_false_iff. apply Qle_bool_iff.
Qed.

(** The reduction keeps an item that no later item beats: the result is the
    seed or an item of the list, and nothing seen is dearer. *)
Lemma fold_dearer_max l seed :
  let chosen := fold_left dearer l seed in
  (chosen = seed \/ In chosen l) /\
  (price_or_0 seed <= price_or_0 chosen)%Q /\
  (forall item, In item l -> (price_or_0 item <= price_or_0 chosen)%Q).
Proof.
  revert seed. induction l as [| x l IH]; intros seed; cbn.
  - split; [left; reflexivity |]. split; [apply Qle_refl | intros item []].
  - destruct (IH (dearer seed x)) as (Hin & Hseed & Hall).
    assert (Hstep : (price_or_0 seed <= price_or_0 (dearer seed x))%Q /\
                    (price_or_0 x <= price_or_0 (dearer seed x))%Q /\
                    (dearer seed x = seed \/ dearer seed x = x)).
    { unfold dearer. destruct (Qgtb (price_or_0 x) (price_or_0 seed)) eqn:E.
      - apply Qgtb_true in E. repeat split; [apply Qlt_le_weak; exact E | apply Qle_refl | auto].
      - apply Qgtb_false in E. repeat split; [apply Qle_refl | exact E | auto]. }
    destruct Hstep as (S1 & S2 & S3).
    split; [| split].
    + destruct Hin as [Hin | Hin].
      * rewrite Hin. destruct S3 as [-> | ->]; auto.
      * right. right. exact Hin.
    + eapply Qle_trans; [exact S1 | exact Hseed].
    + intros item [<- | Hitem].
      * eapply Qle_trans; [exact S2 | exact Hseed].
      * apply Hall. exact Hitem.
Qed.

Lemma fold_dearer_all_zero l seed :
  (price_or_0 seed == 0)%Q ->
  (forall item, In item l -> (price_or_0 item == 0)%Q) ->
  fold_left dearer l seed = seed.
Proof.
  intros Hseed. induction l as [| x l IH]; intros Hall; cbn; [reflexivity |].
  assert (E : dearer seed x = seed).
  { unfold dearer. assert (Hx : (price_or_0 x == 0)%Q) by (apply Hall; left; reflexivity).
    destruct (Qgtb (price_or_0 x) (price_or_0 seed)) eqn:G; [| reflexivity].
    apply Qgtb_true in G. rewrite Hx, Hseed in G. exfalso. apply (Qlt_irrefl 0). exact G. }
  rewrite E. apply IH. intros item Hitem. apply Hall. right. exact Hitem.
Qed.

(** C5, as amended.  An item with a null or unparseable price adds exactly
    0 to [totalSpending]; it is selected as the most expensive item only if
    no item has a positive parsed price; and when every parsed price is 0 the
    first item is selected. *)
Theorem unpriced_item_in_spend_and_extremes :
  (forall before item after,
     price item = None ->
     (spent (before ++ item :: after) == spent (before ++ after))%Q) /\
  (forall listItems chosen,
     mostExpensiveItem listItems = Some chosen ->
     price chosen = None ->
     forall item, In item listItems -> (price_or_0 item <= 0)%Q) /\
  (forall first rest,
     (forall item, In item (first :: rest) -> (price_or_0 item == 0)%Q) ->
     mostExpensiveItem (first :: rest) = Some first).
Proof.
  split; [| split].
  - intros before item after Hnull.
    assert (Hz : (spent [item] == 0)%Q).
    { unfold spent, add_price, price_or_0. cbn [fold_left]. rewrite Hnull. ring. }
    change (item :: after) with ([item] ++ after).
    rewrite !spent_app, Hz. ring.
  - intros listItems chosen Hsel Hnull item Hitem.
    destruct listItems as [| first rest]; [destruct Hitem |].
    destruct (fold_dearer_max (first :: rest) first) as (_ & _ & Hall).
    unfold mostExpensiveItem in Hsel. injection Hsel as E.
    cbv zeta in Hall. cbn [fold_left] in Hall, E. rewrite E in Hall.
    assert (Hz : price_or_0 chosen = 0%Q) by (unfold price_or_0; rewrite Hnull; reflexivity).
    rewrite Hz in Hall. apply Hall. exact Hitem.
  - intros first rest Hall. unfold mostExpensiveItem. f_equal.
    apply fold_dearer_all_zero; [apply Hall; left; reflexivity | exact Hall].
Qed.

Lemma unpriced_item_in_spend_and_extremes_witness :
  (spent ([Fixtures.line_item 1 Fixtures.fifty]
          ++ Fixtures.line_item 2 None
          :: [Fixtures.line_item 3 Fixtures.ten])
   == spent ([Fixtures.line_item 1 Fixtures.fifty]
             ++ [Fixtures.line_item 3 Fixtures.ten]))%Q /\
  (price_or_0 (Fixtures.line_item 1 Fixtures.zero) <= 0)%Q /\
  mostExpensiveItem [Fixtures.line_item 1 None;
                     Fixtures.line_item 2 Fixtures.zero]
  = Some (Fixtures.line_item 1 None).
Proof.
  destruct unpriced_item_in_spend_and_extremes as (Hsum & Hsel & Hfirst).
  split; [| split].
  - apply Hsum. reflexivity.
  - apply (Hsel [Fixtures.line_item 2 None;
                 Fixtures.line_item 1 Fixtures.zero]
                (Fixtures.line_item 2 None)).
    + reflexivity.
    + reflexivity.
    + right. left. reflexivity.
  - apply Hfirst. intros item [<- | [<- | []]]; reflexivity.
Defined.

(** C5, as stated, fails: of an item priced -5 followed by an item without
    a price, the one without a price is selected, though not every parsed
    price is 0. *)
Lemma unpriced_item_beats_negative_price :
  ~ Spec.unpriced_wins_only_if_all_zero
      [Fixtures.line_item 1 Fixtures.minus_five;
       Fixtures.line_item 2 None].
Proof.
  intros H.
  specialize (H (Fixtures.line_item 2 None) eq_refl eq_refl
                (Fixtures.line_item 1 Fixtures.minus_five)
                (or_introl eq_refl)).
  vm_compute in H. discriminate H.
Qed.

(** ** Counting objects *)

Lemma get_set_same {V} (o : JSObject.t V) k v : JSObject.get (JSObject.set o k v) k = Some v.
Proof.
  induction o as [| [k' v'] o IH]; cbn.
  - rewrite Z.eqb_refl. reflexivity.
  - destruct (Z.eqb_spec k' k) as [-> | Hne]; cbn.
    + rewrite Z.eqb_refl. reflexivity.
    + destruct (Z.eqb_spec k' k); [contradiction | exact IH].
Qed.

Lemma get_set_other {V} (o : JSObject.t V) k k' v :
  k <> k' -> JSObject.get (JSObject.set o k v) k' = JSObject.get o k'.
Proof.
  intros Hne. induction o as [| [k1 v1] o IH]; cbn.
  - destruct (Z.eqb_spec k k'); [contradiction | reflexivity].
  - destruct (Z.eqb_spec k1 k) as [-> | Hk]; cbn.
    + destruct (Z.eqb_spec k k'); [contradiction | reflexivity].
    + rewrite IH. reflexivity.
Qed.

Lemma get_None_keys {V} (o : JSObject.t V) k :
  JSObject.get o k = None <-> ~ In k (map fst o).
Proof.
  induction o as [| [k' v'] o IH]; cbn.
  - split; [intros _ [] | reflexivity].
  - destruct (Z.eqb_spec k' k) as [-> | Hne].
    + split; [discriminate | intros H; exfalso; apply H; left; reflexivity].
    + rewrite IH. split.
      * intros H [E | Hin]; [contradiction | apply H; exact Hin].
      * intros H Hin. apply H. right. exact Hin.
Qed.

Lemma keys_set {V} (o : JSObject.t V) k v :
  map fst (JSObject.set o k v)
  = match JSObject.get o k with
    | Some _ => map fst o
    | None => map fst o ++ [k]
    end.
Proof.
  induction o as [| [k' v'] o IH]; cbn.
  - reflexivity.
  - destruct (Z.eqb_spec k' k) as [-> | Hne]; cbn.
    + reflexivity.
    + rewrite IH. destruct (JSObject.get o k); reflexivity.
Qed.

Lemma set_NoDup {V} (o : JSObject.t V) k v :
  NoDup (map fst o) -> NoDup (map fst (JSObject.set o k v)).
Proof.
  intros Hnd. rewrite keys_set. destruct (JSObject.get o k) eqn:E; [exact Hnd |].
  apply get_None_keys in E.
  apply NoDup_app; [exact Hnd | constructor; [intros [] | constructor] |].
  intros x Hx [<- | []]. apply E. exact Hx.
Qed.

Lemma In_get {V} (o : JSObject.t V) k v :
  NoDup (map fst o) -> (In (k, v) o <-> JSObject.get o k = Some v).
Proof.
  induction o as [| [k' v'] o IH]; cbn; intros Hnd.
  - split; [intros [] | discriminate].
  - inversion Hnd as [| ? ? Hnot Hnd']; subst.
    destruct (Z.eqb_spec k' k) as [-> | Hne].
    + split.
      * intros [E | Hin]; [inversion E; reflexivity |].
        exfalso. apply Hnot. apply in_map_iff. exists (k, v). split; [reflexivity | exact Hin].
      * intros E. inversion E. left. reflexivity.
    + rewrite <- (IH Hnd'). split.
      * intros [E | Hin]; [inversion E; contradiction | exact Hin].
      * intros Hin. right. exact Hin.
Qed.

Lemma count_in_bump counts k k' :
  count_in (bump counts k) k'
  = (count_in counts k' + if Z.eq_dec k k' then 1 else 0)%nat.
Proof.
  unfold count_in, bump. destruct (Z.eq_dec k k') as [<- | Hne].
  - rewrite get_set_same. reflexivity.
  - rewrite (get_set_other _ _ _ _ Hne). lia.
Qed.

(** The object built by counting the keys [ks] one by one. *)
Lemma count_in_fold ks counts k :
  count_in (fold_left bump ks counts) k = (count_in counts k + count_occ Z.eq_dec ks k)%nat.
Proof.
  revert counts. induction ks as [| k1 ks IH]; intros counts; cbn [fold_left count_occ].
  - lia.
  - rewrite IH, count_in_bump. destruct (Z.eq_dec k1 k); lia.
Qed.

Lemma fold_bump_NoDup ks counts :
  NoDup (map fst counts) -> NoDup (map fst (fold_left bump ks counts)).
Proof.
  revert counts. induction ks as [| k ks IH]; intros counts Hnd; cbn; [exact Hnd |].
  apply IH. apply set_NoDup. exact Hnd.
Qed.

Lemma fold_bump_positive ks counts :
  Forall (fun e => (0 < snd e)%nat) counts ->
  Forall (fun e => (0 < snd e)%nat) (fold_left bump ks counts).
Proof.
  revert counts. induction ks as [| k ks IH]; intros counts Hpos; cbn; [exact Hpos |].
  apply IH. apply set_Forall; [exact Hpos | cbn; lia].
Qed.

(** An entry of the counting object is a key with its positive number of
    occurrences. *)
Lemma counted_entries ks k c :
  In (k, c) (fold_left bump ks []) <-> c = count_occ Z.eq_dec ks k /\ (0 < c)%nat.
Proof.
  assert (Hnd : NoDup (map fst (fold_left bump ks []))).
  { apply fold_bump_NoDup. constructor. }
  assert (Hpos : Forall (fun e => (0 < snd e)%nat) (fold_left bump ks [])).
  { apply fold_bump_positive. constructor. }
  pose proof (count_in_fold ks [] k) as Hc. unfold count_in at 2 in Hc. cbn in Hc.
  rewrite (In_get _ _ _ Hnd). split.
  - intros E. split.
    + unfold count_in in Hc. rewrite E in Hc. exact Hc.
    + apply (In_get _ _ _ Hnd) in E. rewrite Forall_forall in Hpos. apply (Hpos _ E).
  - intros [-> Hc0]. unfold count_in in Hc.
    destruct (JSObject.get (fold_left bump ks []) k); [f_equal; exact Hc | lia].
Qed.

(** ** The order of [Object.entries] *)

Lemma insert_key_perm {V} (e : Z * V) l : Permutation (JSObject.insert_key e l) (e :: l).
Proof.
  induction l as [| e' l IH]; cbn.
  - apply Permutation_refl.
  - destruct (fst e <=? fst e').
    + apply Permutation_refl.
    + eapply Permutation_trans; [apply perm_skip; exact IH | apply perm_swap].
Qed.

Lemma ascending_perm {V} (l : list (Z * V)) : Permutation (JSObject.ascending l) l.
Proof.
  induction l as [| e l IH]; cbn.
  - apply Permutation_refl.
  - eapply Permutation_trans; [apply insert_key_perm | apply perm_skip; exact IH].
Qed.

Lemma insert_key_sorted {V} (e : Z * V) l :
  StronglySorted key_le l -> StronglySorted key_le (JSObject.insert_key e l).
Proof.
  intros Hs. induction Hs as [| e' l Hs IH Hall]; cbn.
  - constructor; [constructor | constructor].
  - destruct (Z.leb_spec (fst e) (fst e')) as [Hle | Hgt].
    + constructor; [constructor; assumption |].
      constructor; [exact Hle |].
      rewrite Forall_forall in *. intros x Hx. unfold key_le in *.
      specialize (Hall x Hx). lia.
    + constructor; [exact IH |].
      rewrite Forall_forall in *. intros x Hx.
      apply (Permutation_in _ (insert_key_perm e l)) in Hx. destruct Hx as [<- | Hx].
      * unfold key_le. lia.
      * apply Hall. exact Hx.
Qed.

Lemma ascending_sorted {V} (l : list (Z * V)) : StronglySorted key_le (JSObject.ascending l).
Proof.
  induction l as [| e l IH]; cbn; [constructor | apply insert_key_sorted; exact IH].
Qed.

Lemma filter_partition_perm {A} (f : A -> bool) l :
  Permutation (filter f l ++ filter (fun x => negb (f x)) l) l.
Proof.
  induction l as [| x l IH]; cbn; [apply Permutation_refl |].
  destruct (f x); cbn.
  - apply perm_skip. exact IH.
  - eapply Permutation_trans; [apply Permutation_sym, Permutation_middle |].
    apply perm_skip. exact IH.
Qed.

(** [Object.entries] lists every property once, in some order. *)
Lemma entries_perm {V} (o : JSObject.t V) : Permutation (JSObject.entries o) o.
Proof.
  unfold JSObject.entries.
  eapply Permutation_trans; [| apply (filter_partition_perm
                                       (fun e => JSObject.is_array_index (fst e)) o)].
  apply Permutation_app_tail. apply ascending_perm.
Qed.

(** When every key is an array index, the order is ascending by key. *)
Lemma entries_of_indices {V} (o : JSObject.t V) :
  Forall (fun e => JSObject.is_array_index (fst e) = true) o ->
  JSObject.entries o = JSObject.ascending o.
Proof.
  intros Hidx. unfold JSObject.entries.
  assert (H : filter (fun e => JSObject.is_array_index (fst e)) o = o /\
              filter (fun e => negb (JSObject.is_array_index (fst e))) o = []).
  { induction Hidx as [| e l He Hl [IH1 IH2]]; cbn; [split; reflexivity |].
    rewrite He. cbn. rewrite IH1. split; [reflexivity | exact IH2]. }
  destruct H as [H1 H2]. rewrite H1, H2, app_nil_r. reflexivity.
Qed.

Lemma sorted_after {A} (R : A -> A -> Prop) l1 x l2 :
  StronglySorted R (l1 ++ x :: l2) -> forall y, In y l2 -> R x y.
Proof.
  induction l1 as [| a l1 IH]; cbn; intros Hs y Hy.
  - inversion Hs as [| ? ? _ Hall]; subst. rewrite Forall_forall in Hall. apply Hall. exact Hy.
  - inversion Hs; subst. apply IH; assumption.
Qed.

(** ** The winner loop *)

(** The loop ends on the first entry, in the order given, that holds the
    largest count; it keeps its initial state when no entry exceeds it. *)
Lemma fold_keep_larger es m0 r0 :
  let res := fold_left keep_larger es (m0, r0) in
  (m0 <= fst res)%nat /\
  (forall k c, In (k, c) es -> (c <= fst res)%nat) /\
  (res = (m0, r0) \/
   (m0 < fst res)%nat /\
   exists es1 k es2,
     es = es1 ++ (k, fst res) :: es2 /\ snd res = Some k /\
     forall k' c', In (k', c') es1 -> (c' < fst res)%nat).
Proof.
  revert m0 r0. induction es as [| [k c] es IH]; intros m0 r0; cbn [fold_left].
  - cbn. split; [lia |]. split; [intros k c [] | left; reflexivity].
  - change (keep_larger (m0, r0) (k, c))
      with (if (m0 <? c)%nat then (c, Some k) else (m0, r0)).
    destruct (Nat.ltb_spec m0 c) as [Hlt | Hge].
    + destruct (IH c (Some k)) as (H1 & H2 & H3).
      set (res := fold_left keep_larger es (c, Some k)) in *.
      cbv zeta. split; [lia |]. split.
      * intros k' c' [E | Hin]; [injection E as <- <-; exact H1 | apply (H2 k'); exact Hin].
      * right. destruct H3 as [E | (Hlt' & es1 & k1 & es2 & Ees & Hr & Hbefore)].
        -- rewrite E. cbn. split; [exact Hlt |].
           exists [], k, es. cbn. repeat split. intros k' c' [].
        -- split; [lia |]. exists ((k, c) :: es1), k1, es2. cbn [app].
           split; [f_equal; exact Ees |]. split; [exact Hr |].
           intros k' c' [E | Hin]; [injection E as <- <-; exact Hlt' | apply (Hbefore k'); exact Hin].
    + destruct (IH m0 r0) as (H1 & H2 & H3).
      set (res := fold_left keep_larger es (m0, r0)) in *.
      cbv zeta. split; [exact H1 |]. split.
      * intros k' c' [E | Hin]; [injection E as <- <-; lia | apply (H2 k'); exact Hin].
      * destruct H3 as [E | (Hlt' & es1 & k1 & es2 & Ees & Hr & Hbefore)]; [left; exact E |].
        right. split; [exact Hlt' |]. exists ((k, c) :: es1), k1, es2. cbn [app].
        split; [f_equal; exact Ees |]. split; [exact Hr |].
        intros k' c' [E | Hin]; [injection E as <- <-; lia | apply (Hbefore k'); exact Hin].
Qed.

Lemma counted_keys_are_indices ks :
  Forall (fun k => JSObject.is_array_index k = true) ks ->
  Forall (fun e : Z * nat => JSObject.is_array_index (fst e) = true) (fold_left bump ks []).
Proof.
  intros Hidx. apply Forall_forall. intros [k c] Hin. cbn.
  apply counted_entries in Hin. destruct Hin as [-> Hpos].
  apply (count_occ_In Z.eq_dec) in Hpos.
  rewrite Forall_forall in Hidx. apply Hidx. exact Hpos.
Qed.

(** Over keys that are array indices, the loop picks the smallest key among
    those counted most often. *)
Lemma maxList_winner ks :
  Forall (fun k => JSObject.is_array_index k = true) ks ->
  winner_of (count_occ Z.eq_dec ks) (maxList (fold_left bump ks [])).
Proof.
  intros Hidx. unfold maxList.
  rewrite (entries_of_indices _ (counted_keys_are_indices ks Hidx)).
  set (obj := fold_left bump ks []).
  assert (Hin : forall k c, In (k, c) (JSObject.ascending obj)
                            <-> c = count_occ Z.eq_dec ks k /\ (0 < c)%nat).
  { intros k c. rewrite <- counted_entries. fold obj. split.
    - apply Permutation_in. apply ascending_perm.
    - apply Permutation_in. apply Permutation_sym, ascending_perm. }
  pose proof (ascending_sorted obj) as Hsorted.
  destruct (fold_keep_larger (JSObject.ascending obj) O None) as (_ & Hmax & Hcase).
  set (res := fold_left keep_larger (JSObject.ascending obj) (O, None)) in *.
  split.
  - intros k. destruct (count_occ Z.eq_dec ks k) as [| n] eqn:E; [lia |].
    apply (Hmax k). apply Hin. split; [symmetry; exact E | lia].
  - destruct Hcase as [E | (Hpos & es1 & k & es2 & Ees & Hr & Hbefore)].
    + rewrite E. reflexivity.
    + rewrite Hr. split; [exact Hpos |].
      assert (Hk : In (k, fst res) (JSObject.ascending obj)).
      { rewrite Ees. apply in_or_app. right. left. reflexivity. }
      apply Hin in Hk. destruct Hk as [Hk _]. split; [symmetry; exact Hk |].
      intros k' Hk'.
      assert (Hin' : In (k', fst res) (JSObject.ascending obj)).
      { apply Hin. split; [symmetry; exact Hk' | exact Hpos]. }
      rewrite Ees in Hin', Hsorted. apply in_app_or in Hin'.
      destruct Hin' as [H1 | [H1 | H1]].
      * apply Hbefore in H1. lia.
      * injection H1 as ->. lia.
      * apply (sorted_after key_le es1 (k, fst res) es2 Hsorted) in H1. exact H1.
Qed.

Lemma winner_unique count r1 r2 : winner_of count r1 -> winner_of count r2 -> r1 = r2.
Proof.
  destruct r1 as [m1 [k1 |]], r2 as [m2 [k2 |]]; unfold winner_of; cbn;
    intros [B1 W1] [B2 W2].
  - destruct W1 as (P1 & C1 & L1). destruct W2 as (P2 & C2 & L2).
    assert (Em : m1 = m2).
    { pose proof (B1 k2). pose proof (B2 k1). lia. }
    assert (Ek : k1 = k2).
    { assert (H12 : k1 <= k2) by (apply L1; lia).
      assert (H21 : k2 <= k1) by (apply L2; lia). lia. }
    rewrite Em, Ek. reflexivity.
  - destruct W1 as (P1 & C1 & L1). pose proof (B2 k1). lia.
  - destruct W2 as (P2 & C2 & L2). pose proof (B1 k2). lia.
  - subst. reflexivity.
Qed.

Lemma winner_of_ext c1 c2 res :
  (forall k, c1 k = c2 k) -> winner_of c1 res -> winner_of c2 res.
Proof.
  intros Hext [B W]. split.
  - intros k. rewrite <- Hext. apply B.
  - destruct (snd res) as [k |]; [| exact W].
    destruct W as (P & C & L). split; [exact P |]. split; [rewrite <- Hext; exact C |].
    intros k' Hk'. apply L. rewrite Hext. exact Hk'.
Qed.

Lemma listItemCounts_fold items :
  listItemCounts items = fold_left bump (map list_id items) [].
Proof.
  unfold listItemCounts. generalize (@nil (Z * nat)).
  induction items as [| item items IH]; intros acc; cbn; [reflexivity | apply IH].
Qed.

Lemma count_for_occ id items :
  count_for id items = count_occ Z.eq_dec (map list_id items) id.
Proof.
  unfold count_for. induction items as [| item items IH]; cbn; [reflexivity |].
  destruct (Z.eqb_spec (list_id item) id) as [E | E], (Z.eq_dec (list_id item) id);
    try contradiction; cbn; rewrite IH; reflexivity.
Qed.

Lemma maxList_of_items items :
  Forall (fun item => JSObject.is_array_index (list_id item) = true) items ->
  winner_of (fun id => count_for id items) (maxList (listItemCounts items)).
Proof.
  intros Hidx. rewrite listItemCounts_fold.
  apply (winner_of_ext (count_occ Z.eq_dec (map list_id items))).
  - intros k. symmetry. apply count_for_occ.
  - apply maxList_winner. apply Forall_forall. intros k Hk.
    apply in_map_iff in Hk. destruct Hk as (item & <- & Hitem).
    rewrite Forall_forall in Hidx. apply Hidx. exact Hitem.
Qed.

Lemma count_for_positive id items :
  (0 < count_for id items)%nat -> exists item, In item items /\ list_id item = id.
Proof.
  unfold count_for. intros H.
  destruct (filter (fun item => list_id item =? id) items) as [| item rest] eqn:E;
    [cbn in H; lia |].
  assert (Hin : In item (item :: rest)) by (left; reflexivity).
  rewrite <- E in Hin. apply filter_In in Hin. destruct Hin as [Hin Hid].
  exists item. split; [exact Hin | apply Z.eqb_eq; exact Hid].
Qed.

(** When an item is fetched, the winner loop ends on a list id. *)
Lemma maxList_of_some_item items :
  Forall (fun item => JSObject.is_array_index (list_id item) = true) items ->
  items <> [] ->
  exists m k,
    maxList (listItemCounts items) = (m, Some k) /\
    (0 < m)%nat /\ count_for k items = m /\ 0 <= k /\
    (forall id, (count_for id items <= m)%nat) /\
    (forall id, count_for id items = m -> k <= id).
Proof.
  intros Hidx Hne. pose proof (maxList_of_items items Hidx) as Hwin.
  destruct (maxList (listItemCounts items)) as [m [k |]]; destruct Hwin as [B W];
    cbn [fst snd] in *.
  - destruct W as (P & C & L). exists m, k. repeat split; try assumption.
    assert (Hk : (0 < count_for k items)%nat) by lia.
    apply count_for_positive in Hk. destruct Hk as (item & Hin & <-).
    rewrite Forall_forall in Hidx. specialize (Hidx item Hin).
    unfold JSObject.is_array_index in Hidx. apply andb_prop in Hidx.
    destruct Hidx as [H0 _]. apply Z.leb_le in H0. exact H0.
  - exfalso. destruct items as [| item items']; [contradiction |].
    specialize (B (list_id item)). subst m.
    unfold count_for in B. cbn [filter] in B. rewrite Z.eqb_refl in B. cbn in B. lia.
Qed.

(** ** The list with most items *)

(** C4, as amended.  For list ids that are array indices (0 to 2^32 - 2):
    the list reported is one with the greatest item count, and among the
    lists that reach that count it is the one with the smallest id, whatever
    the order in which the store returns the items; and when the request
    returns at least one item, each of an owned list, a list is reported,
    unless list 0 holds the greatest count: an id of 0 fails the test of line
    219 and [listWithMostItems] stays null. *)
Theorem most_items_winner_is_smallest_id owned items :
  Forall (fun item => JSObject.is_array_index (list_id item) = true) items ->
  (forall w,
     listWithMostItems owned (Some items) = Some w ->
     (0 < lwm_itemCount w)%nat /\
     count_for (lwm_id w) items = lwm_itemCount w /\
     (forall id, (count_for id items <= lwm_itemCount w)%nat) /\
     (forall id, count_for id items = lwm_itemCount w -> lwm_id w <= id) /\
     (forall items', Permutation items items' ->
                     listWithMostItems owned (Some items') = Some w)) /\
  (items <> [] ->
   Forall (fun item => exists l, In l owned /\ l_id l = list_id item) items ->
   (listWithMostItems owned (Some items) = None <->
    forall id, (count_for id items <= count_for 0 items)%nat)).
Proof.
  intros Hidx. split.
  - intros w Hw.
    pose proof (maxList_of_items items Hidx) as Hwin.
    unfold listWithMostItems in Hw.
    destruct (maxList (listItemCounts items)) as [m [id |]] eqn:Emax; [| discriminate Hw].
    destruct (id =? 0) eqn:Ezero; [discriminate Hw |].
    destruct (find (fun l => l_id l =? id) owned) as [maxL |] eqn:Efind; [| discriminate Hw].
    injection Hw as <-. cbn [lwm_id lwm_itemCount].
    destruct (find_some _ _ Efind) as [_ Eid]. apply Z.eqb_eq in Eid.
    destruct Hwin as [B (P & C & L)]. cbn [fst snd] in *. rewrite Eid.
    repeat split; try assumption.
    intros items' Hperm.
    assert (Hwin' : winner_of (fun id => count_for id items) (maxList (listItemCounts items'))).
    { apply (winner_of_ext (fun id => count_for id items')).
      - intros k. rewrite !count_for_occ. symmetry.
        apply Permutation_count_occ. apply Permutation_map. exact Hperm.
      - apply maxList_of_items. apply (Permutation_Forall Hperm). exact Hidx. }
    assert (E : maxList (listItemCounts items') = (m, Some id)).
    { apply (winner_unique (fun id => count_for id items)); [exact Hwin' |].
      split; [exact B | cbn; auto]. }
    unfold listWithMostItems. rewrite E, Ezero, Efind, Eid. reflexivity.
  - intros Hne Howned.
    destruct (maxList_of_some_item items Hidx Hne) as (m & k & Emax & P & C & K0 & B & L).
    unfold listWithMostItems. rewrite Emax.
    destruct (Z.eqb_spec k 0) as [-> | Hk].
    + split; [| reflexivity]. intros _ id. rewrite C. apply B.
    + assert (Hfind : exists maxL, find (fun l => l_id l =? k) owned = Some maxL).
      { assert (Hpos : (0 < count_for k items)%nat) by lia.
        apply count_for_positive in Hpos. destruct Hpos as (item & Hin & Eid).
        rewrite Forall_forall in Howned. destruct (Howned item Hin) as (l & Hl & El).
        destruct (find (fun l => l_id l =? k) owned) as [maxL |] eqn:Efind;
          [exists maxL; reflexivity | exfalso].
        apply (find_none _ _ Efind) in Hl. rewrite El, Eid, Z.eqb_refl in Hl.
        discriminate Hl. }
      destruct Hfind as (maxL & ->). split; [discriminate |].
      intros Hzero. exfalso. apply Hk.
      assert (E0 : count_for 0 items = m).
      { pose proof (Hzero k). pose proof (B 0). lia. }
      specialize (L 0 E0). lia.
Qed.

(** ** The suggestion tally *)

Lemma insert_by_count_perm e l : Permutation (insert_by_count e l) (e :: l).
Proof.
  induction l as [| e' l IH]; cbn [insert_by_count].
  - apply Permutation_refl.
  - destruct (t_count e <? t_count e')%nat.
    + eapply Permutation_trans; [apply perm_skip; exact IH | apply perm_swap].
    + apply Permutation_refl.
Qed.

Lemma sort_by_count_perm l : Permutation (sort_by_count l) l.
Proof.
  induction l as [| e l IH]; cbn.
  - apply Permutation_refl.
  - eapply Permutation_trans; [apply insert_by_count_perm | apply perm_skip; exact IH].
Qed.

Lemma insert_by_count_sorted e l :
  StronglySorted count_ge l -> StronglySorted count_ge (insert_by_count e l).
Proof.
  intros Hs. induction Hs as [| e' l Hs IH Hall]; cbn [insert_by_count].
  - constructor; [constructor | constructor].
  - destruct (Nat.ltb_spec (t_count e) (t_count e')) as [Hlt | Hge].
    + constructor; [exact IH |].
      rewrite Forall_forall in *. intros x Hx.
      apply (Permutation_in _ (insert_by_count_perm e l)) in Hx. destruct Hx as [<- | Hx].
      * unfold count_ge. lia.
      * apply Hall. exact Hx.
    + constructor; [constructor; assumption |].
      constructor; [exact Hge |].
      rewrite Forall_forall in *. intros x Hx. unfold count_ge in *.
      specialize (Hall x Hx). lia.
Qed.

Lemma sort_by_count_sorted l : StronglySorted count_ge (sort_by_count l).
Proof.
  induction l as [| e l IH]; cbn; [constructor | apply insert_by_count_sorted; exact IH].
Qed.

Lemma with_names_sorted names l :
  StronglySorted count_ge l -> StronglySorted count_ge (with_names names l).
Proof.
  intros Hs. induction Hs as [| e l Hs IH Hall]; cbn; [constructor |].
  constructor; [exact IH |].
  rewrite Forall_forall in *. intros x Hx. unfold with_names in Hx.
  apply in_map_iff in Hx. destruct Hx as (y & <- & Hy). apply (Hall y Hy).
Qed.

Lemma with_names_total names l : total_count (with_names names l) = total_count l.
Proof.
  unfold total_count, with_names.
  induction l as [| e l IH]; cbn; [reflexivity | rewrite IH; reflexivity].
Qed.

Lemma total_count_perm l l' : Permutation l l' -> total_count l = total_count l'.
Proof.
  unfold total_count. intros Hp. induction Hp; cbn; [reflexivity | lia | lia | congruence].
Qed.

Lemma sum_values_perm l l' : Permutation l l' -> sum_values l = sum_values l'.
Proof.
  unfold sum_values. intros Hp. induction Hp; cbn; [reflexivity | lia | lia | congruence].
Qed.

Lemma sum_values_set counts k v :
  (sum_values (JSObject.set counts k v) + count_in counts k = sum_values counts + v)%nat.
Proof.
  unfold count_in, sum_values. induction counts as [| [k' v'] counts IH]; cbn.
  - lia.
  - destruct (Z.eqb_spec k' k) as [-> | Hne]; cbn; lia.
Qed.

Lemma sum_values_fold ks counts :
  sum_values (fold_left bump ks counts) = (sum_values counts + List.length ks)%nat.
Proof.
  revert counts. induction ks as [| k ks IH]; intros counts; cbn [fold_left List.length].
  - lia.
  - rewrite IH. unfold bump. pose proof (sum_values_set counts k (count_in counts k + 1)).
    unfold count_in in *. lia.
Qed.

Lemma suggestedGiftCounts_fold gifts :
  suggestedGiftCounts gifts = fold_left bump (truthy_suggesters gifts) [].
Proof.
  unfold suggestedGiftCounts, truthy_suggesters. generalize (@nil (Z * nat)).
  induction gifts as [| gift gifts IH]; intros acc; cbn [fold_left flat_map];
    [reflexivity |].
  rewrite fold_left_app, IH.
  destruct (suggested_by gift) as [s |]; [| reflexivity].
  destruct (s =? 0); reflexivity.
Qed.

(** The counts of the tally add up to the number of gifts that line 376
    lets through. *)
Lemma suggestedGiftCountsArray_total gifts :
  total_count (suggestedGiftCountsArray gifts) = List.length (truthy_suggesters gifts).
Proof.
  unfold suggestedGiftCountsArray.
  rewrite (total_count_perm _ _ (sort_by_count_perm _)).
  rewrite (total_count_perm _ _ (Permutation_map _ (entries_perm _))).
  rewrite suggestedGiftCounts_fold.
  assert (H : forall o : list (Z * nat),
             total_count (map (fun '(suggester, count) =>
                                 {| t_suggested_by := suggester; t_count := count;
                                    t_name := None |}) o)
             = sum_values o).
  { unfold total_count, sum_values.
    induction o as [| [k c] o IH]; cbn; [reflexivity | rewrite IH; reflexivity]. }
  rewrite H, sum_values_fold. reflexivity.
Qed.

Lemma truthy_suggesters_all gifts :
  Forall (fun gift => is_null (suggested_by gift) = false /\ suggested_by gift <> Some 0) gifts ->
  List.length (truthy_suggesters gifts) = List.length gifts.
Proof.
  unfold truthy_suggesters.
  intros H. induction H as [| gift gifts [Hn Hz] Hall IH]; cbn [flat_map]; [reflexivity |].
  rewrite length_app, IH. destruct (suggested_by gift) as [s |]; [| discriminate Hn].
  destruct (Z.eqb_spec s 0) as [-> | Hne]; [contradiction | reflexivity].
Qed.

Lemma in_owned_ids st profileId id :
  in_ids (map l_id (filter (fun l => owner_user_id l =? profileId) (lists st))) id
  = owned_by st profileId id.
Proof.
  unfold in_ids, owned_by. induction (lists st) as [| l ls IH]; cbn; [reflexivity |].
  destruct (owner_user_id l =? profileId); cbn.
  - rewrite IH. rewrite (Z.eqb_sym id). reflexivity.
  - exact IH.
Qed.

Lemma suggestionTally_result st ys ye userListIds log counts log' :
  suggestionTally st ys ye userListIds log = (Returned counts, log') ->
  StronglySorted count_ge counts /\
  (outage st SSuggestedGifts = None ->
   total_count counts
   = List.length
       (truthy_suggesters
          (filter (fun item => in_ids userListIds (list_id item)
                               && negb (is_null (suggested_by item))
                               && within_opt ys ye (li_created_at item))
                  (list_items st)))).
Proof.
  unfold suggestionTally. destruct userListIds as [| id ids].
  - intros H. unfold ret in H. injection H as <- _. split; [constructor |].
    intros _. induction (list_items st) as [| item l IH]; cbn; [reflexivity | exact IH].
  - unfold bind, request, ret.
    destruct (outage st SSuggestedGifts) as [m |]; cbn [error data].
    + intros H. injection H as <- _. split; [constructor | discriminate].
    + unfold rows_or_empty. cbn [data].
      destruct (outage st SSuggestedInfo) as [m |]; cbn [error data];
        intros H; injection H as <- _.
      * split; [apply sort_by_count_sorted |]. intros _. apply suggestedGiftCountsArray_total.
      * split; [apply with_names_sorted, sort_by_count_sorted |]. intros _.
        rewrite with_names_total. apply suggestedGiftCountsArray_total.
Qed.

Lemma ownedListReducers_tally st tza profileId ys ye log part log' :
  ownedListReducers st tza profileId ys ye log = (Returned part, log') ->
  StronglySorted count_ge (snd part) /\
  (outage st SUserLists = None ->
   outage st SSuggestedGifts = None ->
   total_count (snd part)
   = List.length (truthy_suggesters (suggested_items st profileId ys ye))).
Proof.
  unfold ownedListReducers. intros H. apply bind_returned in H.
  destruct H as (resp & log1 & Hreq & H). rewrite request_run in Hreq.
  injection Hreq as <- <-.
  destruct (outage st SUserLists) as [m |]; cbn [error data] in H.
  - unfold ret in H. injection H as <- _. cbn. split; [constructor | discriminate].
  - unfold rows_or_empty in H. cbn [data] in H.
    repeat run_step. cbn [snd].
    match goal with
    | Ht : suggestionTally _ _ _ _ _ = _ |- _ =>
        destruct (suggestionTally_result _ _ _ _ _ _ _ Ht) as [Hsorted Htotal]
    end.
    split; [exact Hsorted |]. intros _ O2. rewrite (Htotal O2).
    unfold suggested_items. f_equal. f_equal. apply filter_ext. intros item.
    rewrite in_owned_ids. reflexivity.
Qed.

(** C3, as amended.  In every returned report [suggestedGiftCounts] is
    sorted by count in descending order, equal counts allowed; and when the
    requests for the owned lists and for the suggested gifts succeed and no
    suggester id is 0, its counts add up to the number of list items with a
    non-null suggester that belong to lists owned by the profile and were
    created within the year window. *)
Theorem tally_sorted_and_complete st tza profileId year log r log' :
  calculatePatientData st tza profileId year log = (Returned r, log') ->
  StronglySorted count_ge (ls_suggestedGiftCounts (wd_listStats r)) /\
  (forall ys ye,
     yearStart tza year = Some ys ->
     yearEnd tza year = Some ye ->
     outage st SUserLists = None ->
     outage st SSuggestedGifts = None ->
     (forall item, In item (list_items st) -> suggested_by item <> Some 0) ->
     total_count (ls_suggestedGiftCounts (wd_listStats r))
     = List.length (suggested_items st profileId ys ye)).
Proof.
  intros Hrun. apply calculatePatientData_returned in Hrun.
  destruct Hrun as (ys' & ye' & items & lm & lp & op & l1 & l2 & l3
                    & Hs' & He' & _ & _ & _ & Howned & ->).
  cbn [assemble wd_listStats ls_suggestedGiftCounts].
  destruct (ownedListReducers_tally _ _ _ _ _ _ _ _ Howned) as [Hsorted Htotal].
  split; [exact Hsorted |].
  intros ys ye Hs He O1 O2 Hnz.
  rewrite Hs in Hs'. injection Hs' as <-. rewrite He in He'. injection He' as <-.
  rewrite (Htotal O1 O2). apply truthy_suggesters_all.
  apply Forall_forall. intros gift Hgift. unfold suggested_items in Hgift.
  apply filter_In in Hgift. destruct Hgift as [Hin Hf].
  apply andb_prop in Hf. destruct Hf as [Hf _]. apply andb_prop in Hf. destruct Hf as [_ Hn].
  split; [apply negb_true_iff; exact Hn | apply Hnz; exact Hin].
Qed.

Lemma tally_sorted_and_complete_witness :
  exists r log',
    calculatePatientData Fixtures.two_suggesters 0 7 (Num 2024) [] = (Returned r, log') /\
    map t_count (ls_suggestedGiftCounts (wd_listStats r)) = [1%nat; 1%nat] /\
    StronglySorted count_ge (ls_suggestedGiftCounts (wd_listStats r)) /\
    total_count (ls_suggestedGiftCounts (wd_listStats r))
    = List.length (suggested_items Fixtures.two_suggesters 7 1704067200000 1735689599999).
Proof.
  eexists. eexists. split; [vm_compute; reflexivity |].
  split; [vm_compute; reflexivity |].
  match goal with
  | |- StronglySorted _ (ls_suggestedGiftCounts (wd_listStats ?r)) /\ _ =>
      destruct (tally_sorted_and_complete Fixtures.two_suggesters 0 7 (Num 2024) [] r
                  [SProfile; SPurchases; SLastMinutePurchases; SLists; SListItemsCount;
                   SUserLists; SUserListItems; SSuggestedGifts; SSuggestedInfo])
        as [Hsorted Htotal]
  end.
  - vm_compute. reflexivity.
  - split; [exact Hsorted |]. apply Htotal; try reflexivity.
    intros item [<- | [<- | []]]; discriminate.
Defined.

(** C3, as stated, fails: two suggesters with one gift each give the counts
    1 and 1, which are not strictly descending. *)
Lemma tally_ties_are_not_strict :
  ~ Spec.tally_strictly_descending Fixtures.two_suggesters 0 7 (Num 2024).
Proof.
  unfold Spec.tally_strictly_descending, Spec.strictly_descending. intros H.
  eassert (Hrun : calculatePatientData Fixtures.two_suggesters 0 7 (Num 2024) []
                  = (Returned _, _)).
  { vm_compute. reflexivity. }
  apply H in Hrun. cbn [wd_listStats ls_suggestedGiftCounts] in Hrun.
  inversion Hrun as [| e l _ Hall]. subst.
  inversion Hall as [| e' l' Hlt _]. subst. cbn in Hlt. lia.
Qed.

Lemma most_items_winner_is_smallest_id_witness :
  listWithMostItems (lists Fixtures.tied_lists) (Some (list_items Fixtures.tied_lists))
  = Some {| lwm_id := 1; lwm_name := "A"; lwm_itemCount := 1 |} /\
  (forall id, count_for id (list_items Fixtures.tied_lists) = 1%nat -> 1 <= id) /\
  listWithMostItems (lists Fixtures.tied_lists) (Some (list_items Fixtures.tied_lists))
  <> None.
Proof.
  destruct (most_items_winner_is_smallest_id
              (lists Fixtures.tied_lists) (list_items Fixtures.tied_lists))
    as [Hselected Hnone].
  - repeat constructor.
  - split; [reflexivity |]. split.
    + destruct (Hselected {| lwm_id := 1; lwm_name := "A"; lwm_itemCount := 1 |} eq_refl)
        as (_ & _ & _ & Hsmallest & _).
      exact Hsmallest.
    + assert (Hne : list_items Fixtures.tied_lists <> []) by discriminate.
      assert (Howned : Forall (fun item => exists l, In l (lists Fixtures.tied_lists) /\
                                                     l_id l = list_id item)
                              (list_items Fixtures.tied_lists)).
      { apply Forall_forall. unfold Fixtures.tied_lists. cbn [lists list_items In].
        intros item [<- | [<- | []]]; eexists.
        - split; [right; left; reflexivity | reflexivity].
        - split; [left; reflexivity | reflexivity]. }
      destruct (Hnone Hne Howned) as [Hzero _].
      intros E. specialize (Hzero E 1). vm_compute in Hzero. lia.
Defined.

(** C4, as stated, fails: lists 1 and 2 hold one item each and the item of
    list 2 is met first by the grouping pass, yet list 1 is reported. *)
Lemma smallest_id_beats_first_encountered :
  ~ Spec.first_encountered_wins
      (lists Fixtures.tied_lists) (list_items Fixtures.tied_lists).
Proof.
  intros H. specialize (H _ eq_refl). vm_compute in H. discriminate H.
Qed.

Example tied_lists_report :
  exists r log,
    calculatePatientData Fixtures.tied_lists 0 7 (Num 2024) [] = (Returned r, log) /\
    ls_listWithMostItems (wd_listStats r) = Some ("A"%string, 1%nat).
Proof.
  eexists. eexists. split; vm_compute; reflexivity.
Qed.

(** ** Suggested items *)

(** An item whose suggester passes the test of line 275 takes no part in
    the grouping by day. *)
Lemma itemsByDate_skips_suggested before item after :
  truthy_id (suggested_by item) = true ->
  itemsByDate (before ++ item :: after) = itemsByDate (before ++ after).
Proof.
  intros Ht. unfold itemsByDate. rewrite !fold_left_app. cbn [fold_left].
  rewrite Ht. destruct (li_created_at item); reflexivity.
Qed.

Lemma order_by_created_at_In item l :
  In item (order_by_created_at l) -> In item l.
Proof.
  unfold order_by_created_at.
  assert (Hins : forall x acc, In item (insert_by_created_at x acc) -> item = x \/ In item acc).
  { intros x acc. induction acc as [| y acc IH]; cbn.
    - intros [<- | []]. left. reflexivity.
    - destruct (created_or_0 y <=? created_or_0 x); cbn.
      + intros [<- | H]; [right; left; reflexivity |].
        destruct (IH H) as [-> | H']; [left; reflexivity | right; right; exact H'].
      + intros [<- | [<- | H]]; auto. }
  assert (Hfold : forall acc, In item (fold_left (fun acc x => insert_by_created_at x acc) l acc)
                              -> In item acc \/ In item l).
  { induction l as [| x l IH]; cbn; intros acc H; [left; exact H |].
    destruct (IH _ H) as [H1 | H1]; [| right; right; exact H1].
    destruct (Hins _ _ H1) as [-> | H2]; [right; left; reflexivity | left; exact H2]. }
  intros H. destruct (Hfold [] H) as [[] | H']. exact H'.
Qed.

(** No item of the winning day's list has a suggester. *)
Lemma items_on_day_have_no_suggester st tza profileId ys ye userListIds log d items log' :
  mostActiveDay st tza profileId ys ye userListIds log = (Returned (Some d), log') ->
  mad_items d = Some items ->
  Forall (fun i => di_suggested_by i = None) items.
Proof.
  unfold mostActiveDay. destruct userListIds as [| id ids]; [discriminate |].
  intros H. apply bind_returned in H. destruct H as (resp & log1 & Hreq & H).
  rewrite request_run in Hreq. injection Hreq as <- <-.
  destruct (outage st SUserListItems); cbn [error data] in H; [discriminate H |].
  destruct (filter _ (list_items st)) as [| i rows]; [discriminate H |].
  destruct (snd (maxDay (itemsByDate (i :: rows)))) as [best |]; [| discriminate H].
  repeat run_step.
  match goal with
  | Hr : request _ SItemsOnDay _ _ = _ |- _ => rewrite request_run in Hr; injection Hr as <- <-
  end.
  cbn [mad_items]. destruct (outage st SItemsOnDay); cbn [error data]; [discriminate |].
  intros E. injection E as <-. unfold rows_or_empty. cbn [data].
  apply Forall_forall. intros x Hx. apply in_map_iff in Hx. destruct Hx as (y & <- & Hy).
  apply order_by_created_at_In in Hy. apply filter_In in Hy. destruct Hy as [_ Hf].
  apply andb_prop in Hf. destruct Hf as [Hf _]. apply andb_prop in Hf. destruct Hf as [_ Hn].
  cbn. destruct (suggested_by y); [discriminate Hn | reflexivity].
Qed.

Lemma truthy_suggesters_occ gifts s :
  s <> 0 -> count_occ Z.eq_dec (truthy_suggesters gifts) s = suggested_count s gifts.
Proof.
  intros Hs. unfold truthy_suggesters, suggested_count.
  induction gifts as [| gift gifts IH]; cbn [flat_map filter]; [reflexivity |].
  rewrite count_occ_app, IH. destruct (suggested_by gift) as [s' |]; [| reflexivity].
  destruct (Z.eqb_spec s' 0) as [-> | Hne].
  - destruct (Z.eqb_spec 0 s); [congruence | reflexivity].
  - cbn. destruct (Z.eq_dec s' s), (Z.eqb_spec s' s); try contradiction; reflexivity.
Qed.

(** Every suggester other than 0 has its entry in the tally, with the number
    of gifts it suggested. *)
Lemma suggester_is_tallied gifts s :
  s <> 0 ->
  (0 < suggested_count s gifts)%nat ->
  In {| t_suggested_by := s; t_count := suggested_count s gifts; t_name := None |}
     (suggestedGiftCountsArray gifts).
Proof.
  intros Hs Hpos. unfold suggestedGiftCountsArray.
  apply (Permutation_in _ (Permutation_sym (sort_by_count_perm _))).
  apply in_map_iff. exists (s, suggested_count s gifts). split; [reflexivity |].
  apply (Permutation_in _ (Permutation_sym (entries_perm _))).
  rewrite suggestedGiftCounts_fold. apply counted_entries.
  rewrite truthy_suggesters_occ by exact Hs. split; [reflexivity | exact Hpos].
Qed.

(** C8.  For profile 7, whose list holds one item of its own and one item
    suggested by the profile with id 0 on the same day: the grouping by day
    counts both items, the re-fetched list of the day holds only the owner's
    item, and the tally is empty. *)
Theorem suggester_zero_is_grouped_and_not_tallied :
  exists r log d,
    calculatePatientData Fixtures.suggester_zero 0 7 (Num 2024) [] = (Returned r, log) /\
    ls_mostActiveDay (wd_listStats r) = Some d /\
    mad_itemCount d = 2%nat /\
    option_map (map di_id) (mad_items d) = Some [1] /\
    ls_suggestedGiftCounts (wd_listStats r) = [].
Proof.
  eexists. eexists. eexists.
  split; [vm_compute; reflexivity |].
  split; [vm_compute; reflexivity |].
  repeat split; vm_compute; reflexivity.
Qed.

(** * Further properties of the code *)

(** ** The windows, continued *)

Lemma lastMinute_window_nested tza year ys ye :
  yearStart tza year = Some ys ->
  yearEnd tza year = Some ye ->
  exists a b,
    lastMinuteStart tza year = Some a /\ lastMinuteEnd tza year = Some b /\
    ys <= a /\ b <= ye /\ b - a = 9 * JSDate.msPerDay.
Proof.
  intros Hs He. destruct year as [| y | neg]; [discriminate Hs | | discriminate Hs].
  unfold yearStart, JSDate.construct in Hs. apply TimeClip_Some in Hs. destruct Hs as [Es Hs].
  unfold yearEnd, JSDate.construct in He. apply TimeClip_Some in He. destruct He as [Ee He].
  unfold lastMinuteStart, lastMinuteEnd, JSDate.construct.
  unfold JSDate.MakeDate, JSDate.MakeDay, JSDate.MakeTime in *.
  change (0 / 12) with 0 in *. change (0 mod 12) with 0 in *.
  change (11 / 12) with 0 in *. change (11 mod 12) with 11 in *.
  cbn [JSDate.MonthStart] in *. unfold JSDate.InLeapYear in *.
  pose proof (DaysInYear_cases (JSDate.full_year y + 0)) as Hd.
  unfold JSDate.msPerDay, JSDate.msPerHour, JSDate.msPerMinute, JSDate.msPerSecond in *.
  do 2 eexists. split; [apply TimeClip_in_range; lia |].
  split; [apply TimeClip_in_range; lia |]. lia.
Qed.

(** X1.  For every year with a valid year window, the last-minute window
    the engine builds is valid and exactly nine days long, and every instant
    that the last-minute query accepts is accepted by the year query. *)
Theorem lastMinute_window_inside_year tza year ys ye :
  yearStart tza year = Some ys ->
  yearEnd tza year = Some ye ->
  exists a b,
    lastMinuteStart tza year = Some a /\ lastMinuteEnd tza year = Some b /\
    b - a = 9 * JSDate.msPerDay /\
    forall c, (a <=? c) && (c <? b) = true -> within ys ye c = true.
Proof.
  intros Hs He.
  destruct (lastMinute_window_nested tza year ys ye Hs He) as (a & b & Ha & Hb & Hlo & Hhi & Hlen).
  exists a, b. split; [exact Ha |]. split; [exact Hb |]. split; [exact Hlen |].
  intros c Hc. apply andb_prop in Hc. destruct Hc as [H1 H2].
  apply Z.leb_le in H1. apply Z.ltb_lt in H2.
  unfold within. apply andb_true_intro. split; apply Z.leb_le; lia.
Qed.

Lemma lastMinute_window_inside_year_witness :
  exists a b,
    lastMinuteStart 0 (Num 2024) = Some a /\ lastMinuteEnd 0 (Num 2024) = Some b /\
    b - a = 9 * JSDate.msPerDay /\
    within 1704067200000 1735689599999 (Fixtures.at_hour 2024 11 20 12) = true.
Proof.
  destruct (lastMinute_window_inside_year 0 (Num 2024) 1704067200000 1735689599999)
    as (a & b & Ha & Hb & Hlen & Hin); [reflexivity | reflexivity |].
  exists a, b. split; [exact Ha |]. split; [exact Hb |]. split; [exact Hlen |].
  apply Hin. injection Ha as <-. injection Hb as <-. reflexivity.
Defined.

(** X2.  Outside the two-digit years, the year window of a year ends
    one millisecond before the year window of the next year begins. *)
Theorem year_windows_adjacent tza y ye ys' :
  y < -1 \/ 99 < y ->
  yearEnd tza (Num y) = Some ye ->
  yearStart tza (Num (y + 1)) = Some ys' ->
  ys' = ye + 1.
Proof.
  intros Hy He Hs.
  unfold yearEnd, JSDate.construct in He. apply TimeClip_Some in He. destruct He as [-> _].
  unfold yearStart, JSDate.construct in Hs. apply TimeClip_Some in Hs. destruct Hs as [-> _].
  assert (E1 : JSDate.full_year y = y).
  { unfold JSDate.full_year.
    destruct (Z.leb_spec 0 y), (Z.leb_spec y 99); cbn; lia. }
  assert (E2 : JSDate.full_year (y + 1) = y + 1).
  { unfold JSDate.full_year.
    destruct (Z.leb_spec 0 (y + 1)), (Z.leb_spec (y + 1) 99); cbn; lia. }
  rewrite E1, E2.
  unfold JSDate.MakeDate, JSDate.MakeDay, JSDate.MakeTime, JSDate.InLeapYear.
  change (0 / 12) with 0. change (0 mod 12) with 0.
  change (11 / 12) with 0. change (11 mod 12) with 11.
  rewrite !Z.add_0_r. cbn [JSDate.MonthStart]. rewrite DayFromYear_succ.
  unfold JSDate.msPerDay, JSDate.msPerHour, JSDate.msPerMinute, JSDate.msPerSecond.
  lia.
Qed.

Lemma year_windows_adjacent_witness :
  yearEnd 0 (Num 2024) = Some 1735689599999 /\
  yearStart 0 (Num 2025) = Some 1735689600000.
Proof.
  assert (H : 1735689600000 = 1735689599999 + 1).
  { apply (year_windows_adjacent 0 2024 1735689599999 1735689600000);
      [right; lia | reflexivity | reflexivity]. }
  split; reflexivity.
Defined.

(** X3.  A year from 0 to 99 is read as the year 1900 later: its four
    window bounds are those of that year. *)
Theorem two_digit_year_is_1900s tza y :
  0 <= y <= 99 ->
  yearStart tza (Num y) = yearStart tza (Num (1900 + y)) /\
  yearEnd tza (Num y) = yearEnd tza (Num (1900 + y)) /\
  lastMinuteStart tza (Num y) = lastMinuteStart tza (Num (1900 + y)) /\
  lastMinuteEnd tza (Num y) = lastMinuteEnd tza (Num (1900 + y)).
Proof.
  intros Hy.
  assert (E : JSDate.full_year y = JSDate.full_year (1900 + y)).
  { unfold JSDate.full_year.
    destruct (Z.leb_spec 0 y), (Z.leb_spec y 99),
      (Z.leb_spec 0 (1900 + y)), (Z.leb_spec (1900 + y) 99); cbn; lia. }
  unfold yearStart, yearEnd, lastMinuteStart, lastMinuteEnd, JSDate.construct.
  rewrite E. repeat split; reflexivity.
Qed.

Lemma two_digit_year_is_1900s_witness :
  yearStart 0 (Num 24) = yearStart 0 (Num 1924) /\
  option_map (JSDate.local_fields 0) (yearStart 0 (Num 24)) = Some (1924, 0, 1, 0).
Proof.
  destruct (two_digit_year_is_1900s 0 24) as (H & _); [lia |].
  split; [exact H | vm_compute; reflexivity].
Defined.

(** ** The requests of a run *)

Lemma issues_ret {A} (a : A) lo hi : issues (ret a) lo hi.
Proof.
  intros log. exists []. cbn. rewrite app_nil_r.
  split; [reflexivity |]. split; constructor.
Qed.

Lemma issues_throw {A} (e : js_error) lo hi : issues (@throw A e) lo hi.
Proof.
  intros log. exists []. cbn. rewrite app_nil_r.
  split; [reflexivity |]. split; constructor.
Qed.

Lemma issues_toISOString d lo hi : issues (toISOString d) lo hi.
Proof.
  destruct d; [apply issues_ret | apply issues_throw].
Qed.

Lemma issues_request {A} st s (rows : A) lo hi :
  (lo <= site_rank s <= hi)%nat ->
  s <> SUserListsForDay ->
  issues (request st s rows) lo hi.
Proof.
  intros Hr Hs log. exists [s]. cbn.
  split; [reflexivity |].
  split; [constructor; constructor | constructor; [split; assumption | constructor]].
Qed.

Lemma issues_bind {A B} (m : M A) (k : A -> M B) lo mid hi :
  (lo <= S mid)%nat ->
  (mid <= hi)%nat ->
  issues m lo mid ->
  (forall a, issues (k a) (S mid) hi) ->
  issues (bind m k) lo hi.
Proof.
  intros Hlo Hhi Hm Hk log. destruct (Hm log) as (l1 & E1 & S1 & F1).
  unfold bind. destruct (m log) as [[a | e] log1] eqn:Em; cbn in E1; subst log1.
  - destruct (Hk a (log ++ l1)) as (l2 & E2 & S2 & F2).
    exists (l1 ++ l2). rewrite E2, app_assoc. split; [reflexivity |].
    rewrite Forall_forall in F1, F2. split.
    + clear E2 Em. induction S1 as [| s l1 S1 IH Hall]; cbn; [exact S2 |].
      constructor.
      * apply IH. intros x Hx. apply F1. right. exact Hx.
      * apply Forall_forall. intros x Hx. apply in_app_or in Hx. destruct Hx as [Hx | Hx].
        -- rewrite Forall_forall in Hall. apply Hall. exact Hx.
        -- unfold site_before. pose proof (F1 s (or_introl eq_refl)) as [R1 _].
           pose proof (F2 x Hx) as [R2 _]. lia.
    + apply Forall_forall. intros x Hx. apply in_app_or in Hx. destruct Hx as [Hx | Hx].
      * destruct (F1 x Hx) as [R N]. split; [lia | exact N].
      * destruct (F2 x Hx) as [R N]. split; [lia | exact N].
  - exists l1. cbn. split; [reflexivity |]. split; [exact S1 |].
    rewrite Forall_forall in *. intros x Hx. destruct (F1 x Hx) as [R N].
    split; [lia | exact N].
Qed.

Lemma issues_bind_silent {A B} (m : M A) (k : A -> M B) lo hi :
  (forall log, snd (m log) = log) ->
  (forall a, issues (k a) lo hi) ->
  issues (bind m k) lo hi.
Proof.
  intros Hm Hk log. unfold bind. specialize (Hm log).
  destruct (m log) as [[a | e] log1]; cbn in Hm; subst log1.
  - apply Hk.
  - exists []. cbn. rewrite app_nil_r. split; [reflexivity |]. split; constructor.
Qed.

Lemma toISOString_silent d log : snd (toISOString d log) = log.
Proof. destruct d; reflexivity. Qed.

Ltac issues_step :=
  match goal with
  | |- issues (ret _) _ _ => apply issues_ret
  | |- issues (throw _) _ _ => apply issues_throw
  | |- issues (bind (toISOString _) _) _ _ =>
      apply issues_bind_silent; [apply toISOString_silent | intros ?]
  | |- issues (bind (ret _) _) _ _ =>
      apply issues_bind_silent; [reflexivity | intros ?]
  | |- issues (bind (request _ ?s _) _) _ _ =>
      apply (issues_bind _ _ _ (site_rank s) _);
      [cbn; lia | cbn; lia | apply issues_request; [cbn; lia | discriminate] | intros ?; cbn [site_rank]]
  | |- issues (match ?x with _ => _ end) _ _ => destruct x
  end.

Lemma fetchListItems_issues st profileId ys ye : issues (fetchListItems st profileId ys ye) 1 2.
Proof. unfold fetchListItems. repeat issues_step. Qed.

Lemma lastMinutePurchases_issues st tza profileId year :
  issues (lastMinutePurchases st tza profileId year) 3 4.
Proof. unfold lastMinutePurchases. repeat issues_step. Qed.

Lemma listStatistics_issues st profileId ys ye : issues (listStatistics st profileId ys ye) 5 6.
Proof. unfold listStatistics. repeat issues_step. Qed.

Lemma mostActiveDay_issues st tza profileId ys ye ids :
  issues (mostActiveDay st tza profileId ys ye ids) 8 10.
Proof.
  unfold mostActiveDay. destruct ids as [| id ids]; [apply issues_ret |].
  repeat issues_step.
Qed.

Lemma suggestionTally_issues st ys ye ids : issues (suggestionTally st ys ye ids) 11 12.
Proof. unfold suggestionTally. repeat issues_step. Qed.

Lemma ownedListReducers_issues st tza profileId ys ye :
  issues (ownedListReducers st tza profileId ys ye) 7 12.
Proof.
  unfold ownedListReducers. issues_step. issues_step; [apply issues_ret |].
  apply (issues_bind _ _ 8 10 12); [lia | lia | apply mostActiveDay_issues | intros day].
  apply (issues_bind _ _ 11 12 12); [lia | lia | apply suggestionTally_issues | intros counts].
  apply issues_ret.
Qed.

(** X4.  In every run of [calculatePatientData], whether it returns or
    throws, the requests reach the store in the order of the source, each at
    most once, and the second request for the owned lists (line 321) is never
    issued. *)
Theorem requests_follow_the_source st tza profileId year log :
  exists l,
    snd (calculatePatientData st tza profileId year log) = log ++ l /\
    StronglySorted site_before l /\
    NoDup l /\
    ~ In SUserListsForDay l.
Proof.
  assert (H : issues (calculatePatientData st tza profileId year) 0 12).
  { unfold calculatePatientData. issues_step. issues_step.
    apply (issues_bind _ _ 0 0 12); [lia | lia | | intros p].
    { intros lg. exists [SProfile]. cbn. split; [reflexivity |].
      split; [constructor; constructor |].
      constructor; [split; [cbn; lia | discriminate] | constructor]. }
    destruct (error p); [apply issues_throw |].
    apply (issues_bind _ _ 1 2 12); [lia | lia | apply fetchListItems_issues | intros items].
    apply (issues_bind _ _ 3 4 12); [lia | lia | apply lastMinutePurchases_issues | intros lm].
    apply (issues_bind _ _ 5 6 12); [lia | lia | apply listStatistics_issues | intros lp].
    apply (issues_bind _ _ 7 12 12); [lia | lia | apply ownedListReducers_issues | intros op].
    apply issues_ret. }
  destruct (H log) as (l & E & Hs & Hf). exists l.
  split; [exact E |]. split; [exact Hs |]. split.
  - clear E Hf. induction Hs as [| s l Hs IH Hall]; constructor; [| exact IH].
    intros Hin. rewrite Forall_forall in Hall. specialize (Hall s Hin).
    unfold site_before in Hall. lia.
  - intros Hin. rewrite Forall_forall in Hf. destruct (Hf _ Hin) as [_ N]. apply N. reflexivity.
Qed.

(** ** Purchases and their line items *)

Lemma purchased_in_nil item : purchased_in [] item = false.
Proof. unfold purchased_in. destruct (purchase_id item); reflexivity. Qed.

Lemma filter_none {A} (f : A -> bool) l : (forall x, f x = false) -> filter f l = [].
Proof.
  intros H. induction l as [| x l IH]; cbn; [reflexivity |]. rewrite H. exact IH.
Qed.

Lemma filter_length_le {A} (f g : A -> bool) l :
  (forall x, f x = true -> g x = true) ->
  (List.length (filter f l) <= List.length (filter g l))%nat.
Proof.
  intros H. induction l as [| x l IH]; cbn; [lia |].
  destruct (f x) eqn:Ef.
  - rewrite (H x Ef). cbn. lia.
  - destruct (g x); cbn; lia.
Qed.

Lemma fetchListItems_result st profileId ys ye log listItems log' :
  fetchListItems st profileId ys ye log = (Returned listItems, log') ->
  listItems = filter (purchased_in (map pu_id (purchases_of_year st profileId ys ye)))
                     (list_items st) /\
  log' = log ++ SPurchases :: match purchases_of_year st profileId ys ye with
                              | [] => []
                              | _ :: _ => [SListItems]
                              end.
Proof.
  unfold fetchListItems, purchases_of_year, bind, request, ret, rows_or_empty.
  destruct (outage st SPurchases); cbn [error data]; [discriminate |].
  destruct (filter _ (purchases st)) as [| p rows]; cbn [map].
  - intros H. injection H as <- <-. split; [| reflexivity].
    symmetry. apply filter_none. apply purchased_in_nil.
  - destruct (outage st SListItems); cbn [error data]; [discriminate |].
    intros H. injection H as <- <-. split; [reflexivity |].
    rewrite <- app_assoc. reflexivity.
Qed.

Lemma lastMinutePurchases_result st tza profileId year log n log' :
  lastMinutePurchases st tza profileId year log = (Returned n, log') ->
  exists a b,
    lastMinuteStart tza year = Some a /\ lastMinuteEnd tza year = Some b /\
    let inWindow := filter (fun p => (purchase_user p =? profileId)
                                     && (a <=? pu_created_at p) && (pu_created_at p <? b))
                           (purchases st) in
    (n <= List.length (filter (purchased_in (map pu_id inWindow)) (list_items st)))%nat /\
    (inWindow = [] -> n = O /\ log' = log ++ [SLastMinutePurchases]).
Proof.
  unfold lastMinutePurchases. intros H. repeat run_step.
  match goal with
  | Ha : lastMinuteStart _ _ = Some ?a, Hb : lastMinuteEnd _ _ = Some ?b |- _ =>
      exists a, b; split; [exact Ha |]; split; [exact Hb |]
  end.
  match goal with
  | Hr : request _ SLastMinutePurchases _ _ = _ |- _ =>
      rewrite request_run in Hr; injection Hr as <- <-
  end.
  cbv zeta.
  destruct (outage st SLastMinutePurchases); cbn [error data] in H.
  - unfold ret in H. injection H as <- <-. split; [lia | auto].
  - destruct (filter _ (purchases st)) as [| p rows].
    + unfold ret in H. injection H as <- <-. split; [lia | auto].
    + unfold bind, request, ret in H.
      destruct (outage st SLastMinuteItemsCount); cbn [error data] in H;
        injection H as <- <-; (split; [cbn [map]; lia | discriminate]).
Qed.

(** X5.  In every returned report [lastMinutePurchases] is at most
    [totalGiftsGiven]: the items counted as last-minute are among the items
    counted as given. *)
Theorem lastMinute_at_most_gifts st tza profileId year log r log' :
  calculatePatientData st tza profileId year log = (Returned r, log') ->
  (s_lastMinutePurchases (wd_stats r) <= s_totalGiftsGiven (wd_stats r))%nat.
Proof.
  intros Hrun. apply calculatePatientData_returned in Hrun.
  destruct Hrun as (ys & ye & items & lm & lp & op & l1 & l2 & l3
                    & Hs & He & Hitems & Hlm & _ & _ & ->).
  cbn [assemble wd_stats s_lastMinutePurchases s_totalGiftsGiven].
  apply fetchListItems_result in Hitems. destruct Hitems as [-> _].
  apply lastMinutePurchases_result in Hlm.
  destruct Hlm as (a & b & Ha & Hb & Hle & _). cbv zeta in Hle.
  destruct (lastMinute_window_nested tza year ys ye Hs He)
    as (a' & b' & Ha' & Hb' & Hlo & Hhi & _).
  rewrite Ha in Ha'. injection Ha' as <-. rewrite Hb in Hb'. injection Hb' as <-.
  eapply Nat.le_trans; [exact Hle |]. apply filter_length_le.
  intros item. unfold purchased_in. destruct (purchase_id item) as [pid |]; [| discriminate].
  unfold in_ids. rewrite !existsb_exists. intros (id & Hid & Heq).
  exists id. split; [| exact Heq].
  apply in_map_iff in Hid. destruct Hid as (p & <- & Hp). apply in_map. 
  apply filter_In in Hp. destruct Hp as [Hp Hf]. unfold purchases_of_year.
  apply filter_In. split; [exact Hp |].
  apply andb_prop in Hf. destruct Hf as [Hf H3]. apply andb_prop in Hf. destruct Hf as [H1 H2].
  rewrite H1. cbn. unfold within. apply Z.leb_le in H2. apply Z.ltb_lt in H3.
  apply andb_true_intro. split; apply Z.leb_le; lia.
Qed.

Lemma lastMinute_at_most_gifts_witness :
  exists r log',
    calculatePatientData Fixtures.year_2024 0 7 (Num 2024) [] = (Returned r, log') /\
    s_lastMinutePurchases (wd_stats r) = 1%nat /\
    s_totalGiftsGiven (wd_stats r) = 2%nat /\
    (s_lastMinutePurchases (wd_stats r) <= s_totalGiftsGiven (wd_stats r))%nat.
Proof.
  eexists. eexists. split; [vm_compute; reflexivity |].
  split; [vm_compute; reflexivity |]. split; [vm_compute; reflexivity |].
  match goal with
  | |- (s_lastMinutePurchases (wd_stats ?r) <= _)%nat =>
      apply (lastMinute_at_most_gifts Fixtures.year_2024 0 7 (Num 2024) [] r
               [SProfile; SPurchases; SListItems; SLastMinutePurchases;
                SLastMinuteItemsCount; SLists; SListItemsCount; SUserLists;
                SUserListItems; SItemsOnDay; SSuggestedGifts; SSuggestedInfo])
  end.
  vm_compute. reflexivity.
Defined.

Lemma issues_log {A} (m : M A) lo hi log a log' :
  issues m lo hi ->
  m log = (Returned a, log') ->
  exists l, log' = log ++ l /\ Forall (fun s => (lo <= site_rank s)%nat) l.
Proof.
  intros Hm Hrun. destruct (Hm log) as (l & E & _ & F). rewrite Hrun in E. cbn in E.
  exists l. split; [exact E |]. apply Forall_forall. intros s Hs.
  rewrite Forall_forall in F. destruct (F s Hs) as [[R _] _]. exact R.
Qed.

Lemma filter_none_in {A} (f : A -> bool) l :
  (forall x, In x l -> f x = false) -> filter f l = [].
Proof.
  intros H. induction l as [| x l IH]; cbn; [reflexivity |].
  rewrite (H x (or_introl eq_refl)). apply IH. intros y Hy. apply H. right. exact Hy.
Qed.

(** X6.  When the profile has no purchase in the year window, the returned
    report has no gift given, nothing spent, an empty most expensive gift and
    no last-minute purchase, and neither the line items nor the last-minute
    item count are requested from the store. *)
Theorem no_purchases_report st tza profileId year ys ye log r log' :
  calculatePatientData st tza profileId year log = (Returned r, log') ->
  yearStart tza year = Some ys ->
  yearEnd tza year = Some ye ->
  purchases_of_year st profileId ys ye = [] ->
  s_totalGiftsGiven (wd_stats r) = O /\
  s_totalSpending (wd_stats r) = 0%Q /\
  s_mostExpensiveGift (wd_stats r)
  = {| meg_title := ""; meg_price := 0%Q; meg_thumbnail_url := None |} /\
  s_lastMinutePurchases (wd_stats r) = O /\
  exists l,
    log' = log ++ SProfile :: SPurchases :: SLastMinutePurchases :: l /\
    ~ In SListItems l /\ ~ In SLastMinuteItemsCount l.
Proof.
  intros Hrun Hs He Hnone. apply calculatePatientData_returned in Hrun.
  destruct Hrun as (ys' & ye' & items & lm & lp & op & l1 & l2 & l3
                    & Hs' & He' & Hitems & Hlm & Hstat & Howned & ->).
  rewrite Hs in Hs'. injection Hs' as <-. rewrite He in He'. injection He' as <-.
  apply fetchListItems_result in Hitems. rewrite Hnone in Hitems.
  destruct Hitems as [Hitems ->]. cbn [map] in Hitems.
  rewrite (filter_none _ _ purchased_in_nil) in Hitems. subst items.
  apply lastMinutePurchases_result in Hlm.
  destruct Hlm as (a & b & Ha & Hb & _ & Hzero). cbv zeta in Hzero.
  destruct (lastMinute_window_nested tza year ys ye Hs He)
    as (a' & b' & Ha' & Hb' & Hlo & Hhi & _).
  rewrite Ha in Ha'. injection Ha' as <-. rewrite Hb in Hb'. injection Hb' as <-.
  destruct Hzero as [-> ->].
  { apply filter_none_in. intros p Hin.
    destruct ((purchase_user p =? profileId) && (a <=? pu_created_at p)
              && (pu_created_at p <? b)) eqn:E; [exfalso | reflexivity].
    apply andb_prop in E. destruct E as [E H3]. apply andb_prop in E. destruct E as [H1 H2].
    apply Z.leb_le in H2. apply Z.ltb_lt in H3.
    assert (Hy : In p (purchases_of_year st profileId ys ye)).
    { apply filter_In. split; [exact Hin |]. rewrite H1. cbn. unfold within.
      apply andb_true_intro. split; apply Z.leb_le; lia. }
    rewrite Hnone in Hy. destruct Hy. }
  destruct (issues_log _ _ _ _ _ _ (listStatistics_issues st profileId ys ye) Hstat)
    as (k1 & -> & F1).
  destruct (issues_log _ _ _ _ _ _ (ownedListReducers_issues st tza profileId ys ye) Howned)
    as (k2 & -> & F2).
  cbn [assemble wd_stats s_totalGiftsGiven s_totalSpending s_mostExpensiveGift
         s_lastMinutePurchases].
  split; [reflexivity |]. split; [reflexivity |]. split; [reflexivity |].
  split; [reflexivity |].
  exists (k1 ++ k2). split; [rewrite <- !app_assoc; reflexivity |].
  rewrite Forall_forall in F1, F2.
  split; intros Hin; apply in_app_or in Hin; destruct Hin as [Hin | Hin].
  - apply F1 in Hin. cbn in Hin. lia.
  - apply F2 in Hin. cbn in Hin. lia.
  - apply F1 in Hin. cbn in Hin. lia.
  - apply F2 in Hin. cbn in Hin. lia.
Qed.

Lemma no_purchases_report_witness :
  exists r log',
    calculatePatientData Fixtures.empty_list 0 7 (Num 2024) [] = (Returned r, log') /\
    s_totalGiftsGiven (wd_stats r) = O /\
    ~ In SListItems log'.
Proof.
  eexists. eexists. split; [vm_compute; reflexivity |].
  match goal with
  | |- s_totalGiftsGiven (wd_stats ?r) = O /\ _ =>
      destruct (no_purchases_report Fixtures.empty_list 0 7 (Num 2024)
                  1704067200000 1735689599999 [] r
                  [SProfile; SPurchases; SLastMinutePurchases; SLists; SListItemsCount;
                   SUserLists; SUserListItems; SSuggestedGifts; SSuggestedInfo])
        as (Hgifts & _ & _ & _ & l & El & Hno & _)
  end.
  - vm_compute. reflexivity.
  - reflexivity.
  - reflexivity.
  - reflexivity.
  - split; [exact Hgifts |]. rewrite El. cbn [app].
    intros [E | [E | [E | Hin]]]; try discriminate E. exact (Hno Hin).
Defined.

(** ** Spend and extremes, continued *)

Lemma fold_dearer_first l seed :
  let chosen := fold_left dearer l seed in
  (chosen = seed /\ forall x, In x l -> (price_or_0 x <= price_or_0 seed)%Q) \/
  (exists l1 l2,
     l = l1 ++ chosen :: l2 /\
     (price_or_0 seed < price_or_0 chosen)%Q /\
     (forall x, In x l1 -> (price_or_0 x < price_or_0 chosen)%Q) /\
     (forall x, In x l2 -> (price_or_0 x <= price_or_0 chosen)%Q)).
Proof.
  revert seed. induction l as [| y l IH]; intros seed; cbn [fold_left].
  - left. split; [reflexivity | intros x []].
  - assert (Hstep : dearer seed y
                    = if Qgtb (price_or_0 y) (price_or_0 seed) then y else seed)
      by reflexivity.
    rewrite Hstep. clear Hstep.
    destruct (Qgtb (price_or_0 y) (price_or_0 seed)) eqn:E.
    + apply Qgtb_true in E. destruct (IH y) as [[Ec Hall] | (l1 & l2 & El & Hlt & H1 & H2)].
      * right. exists [], l. cbv zeta. rewrite Ec. cbn [app].
        split; [reflexivity |]. split; [exact E |]. split; [intros x [] | exact Hall].
      * right. exists (y :: l1), l2. cbv zeta in *. cbn [app].
        split; [f_equal; exact El |].
        split; [eapply Qlt_trans; [exact E | exact Hlt] |].
        split; [| exact H2].
        intros x [<- | Hx]; [exact Hlt | apply H1; exact Hx].
    + apply Qgtb_false in E. destruct (IH seed) as [[Ec Hall] | (l1 & l2 & El & Hlt & H1 & H2)].
      * left. cbv zeta. split; [exact Ec |].
        intros x [<- | Hx]; [exact E | apply Hall; exact Hx].
      * right. exists (y :: l1), l2. cbv zeta in *. cbn [app].
        split; [f_equal; exact El |]. split; [exact Hlt |]. split; [| exact H2].
        intros x [<- | Hx]; [eapply Qle_lt_trans; [exact E | exact Hlt] | apply H1; exact Hx].
Qed.

Lemma maxPrice_fold l seed :
  fold_left js_max (map price_or_0 l) (price_or_0 seed)
  = price_or_0 (fold_left dearer l seed).
Proof.
  revert seed. induction l as [| y l IH]; intros seed; cbn [map fold_left]; [reflexivity |].
  rewrite <- IH. f_equal. unfold js_max, dearer.
  destruct (Qgtb (price_or_0 y) (price_or_0 seed)); reflexivity.
Qed.

Lemma dearer_self x : dearer x x = x.
Proof. unfold dearer. destruct (Qgtb _ _); reflexivity. Qed.

(** X7.  The most expensive item is the first of the items with the
    greatest parsed price: every item before it is strictly cheaper, no item
    after it is dearer, and its price is the [Math.max] of line 102. *)
Theorem mostExpensiveItem_is_first_greatest listItems chosen :
  mostExpensiveItem listItems = Some chosen ->
  exists before after,
    listItems = before ++ chosen :: after /\
    (forall x, In x before -> (price_or_0 x < price_or_0 chosen)%Q) /\
    (forall x, In x after -> (price_or_0 x <= price_or_0 chosen)%Q) /\
    maxPrice listItems = price_or_0 chosen.
Proof.
  destruct listItems as [| first rest]; [discriminate |].
  unfold mostExpensiveItem. cbn [fold_left]. rewrite dearer_self.
  intros H. injection H as <-.
  assert (Hmax : maxPrice (first :: rest) = price_or_0 (fold_left dearer rest first)).
  { unfold maxPrice. apply maxPrice_fold. }
  destruct (fold_dearer_first rest first) as [[Ec Hall] | (l1 & l2 & El & Hlt & H1 & H2)];
    cbv zeta in *.
  - exists [], rest. cbn [app]. rewrite Ec in *.
    split; [reflexivity |]. split; [intros x [] |]. split; [exact Hall | exact Hmax].
  - exists (first :: l1), l2. cbn [app].
    split; [f_equal; exact El |].
    split; [intros x [<- | Hx]; [exact Hlt | apply H1; exact Hx] |].
    split; [exact H2 | exact Hmax].
Qed.

Lemma mostExpensiveItem_is_first_greatest_witness :
  exists before after,
    [Fixtures.line_item 1 Fixtures.ten; Fixtures.line_item 2 Fixtures.fifty;
     Fixtures.line_item 3 Fixtures.fifty]
    = before ++ Fixtures.line_item 2 Fixtures.fifty :: after /\
    (forall x, In x before -> (price_or_0 x < price_or_0 (Fixtures.line_item 2 Fixtures.fifty))%Q).
Proof.
  destruct (mostExpensiveItem_is_first_greatest
              [Fixtures.line_item 1 Fixtures.ten; Fixtures.line_item 2 Fixtures.fifty;
               Fixtures.line_item 3 Fixtures.fifty]
              (Fixtures.line_item 2 Fixtures.fifty))
    as (before & after & E & Hb & _ & _).
  - reflexivity.
  - exists before, after. split; [exact E | exact Hb].
Defined.

Lemma spent_cons x l : (spent (x :: l) == price_or_0 x + spent l)%Q.
Proof.
  change (x :: l) with ([x] ++ l). rewrite spent_app.
  unfold spent at 1. cbn [fold_left]. unfold add_price. ring.
Qed.

Lemma spent_bounds l :
  (forall x, In x l -> (0 <= price_or_0 x)%Q) ->
  (0 <= spent l)%Q /\ forall x, In x l -> (price_or_0 x <= spent l)%Q.
Proof.
  induction l as [| y l IH]; intros Hpos.
  - split; [unfold spent; cbn; apply Qle_refl | intros x []].
  - destruct IH as [IH0 IHx]; [intros x Hx; apply Hpos; right; exact Hx |].
    pose proof (Hpos y (or_introl eq_refl)) as Hy.
    pose proof (spent_cons y l) as E.
    split; [rewrite E; lra |].
    intros x [<- | Hx]; rewrite E; [lra |]. specialize (IHx x Hx). lra.
Qed.

Lemma mostExpensiveItem_In listItems chosen :
  mostExpensiveItem listItems = Some chosen -> In chosen listItems.
Proof.
  destruct listItems as [| first rest]; [discriminate |].
  unfold mostExpensiveItem. intros H. injection H as H.
  destruct (fold_dearer_max (first :: rest) first) as (Hc & _ & _).
  cbv zeta in Hc. cbn [fold_left] in Hc, H. rewrite H in Hc.
  destruct Hc as [-> | Hin]; [left; reflexivity | exact Hin].
Qed.

(** X8.  When no line item of the store has a negative parsed price, the
    price of the most expensive gift in a returned report lies between 0 and
    the total spending. *)
Theorem most_expensive_within_spending st tza profileId year log r log' :
  calculatePatientData st tza profileId year log = (Returned r, log') ->
  (forall item, In item (list_items st) -> (0 <= price_or_0 item)%Q) ->
  (0 <= meg_price (s_mostExpensiveGift (wd_stats r)))%Q /\
  (meg_price (s_mostExpensiveGift (wd_stats r)) <= s_totalSpending (wd_stats r))%Q.
Proof.
  intros Hrun Hpos. apply calculatePatientData_returned in Hrun.
  destruct Hrun as (ys & ye & items & lm & lp & op & l1 & l2 & l3
                    & _ & _ & Hitems & _ & _ & _ & ->).
  cbn [assemble wd_stats s_mostExpensiveGift meg_price s_totalSpending].
  apply fetchListItems_result in Hitems. destruct Hitems as [Hitems _].
  assert (Hpos' : forall x, In x items -> (0 <= price_or_0 x)%Q).
  { intros x Hx. rewrite Hitems in Hx. apply filter_In in Hx. apply Hpos. apply Hx. }
  destruct (spent_bounds items Hpos') as [H0 Hle].
  destruct (mostExpensiveItem items) as [chosen |] eqn:E.
  - pose proof (mostExpensiveItem_In items chosen E) as Hin.
    split; [apply Hpos'; exact Hin | apply Hle; exact Hin].
  - split; [apply Qle_refl | exact H0].
Qed.

Lemma most_expensive_within_spending_witness :
  exists r log',
    calculatePatientData Fixtures.year_2024 0 7 (Num 2024) [] = (Returned r, log') /\
    (meg_price (s_mostExpensiveGift (wd_stats r)) == 50 # 1)%Q /\
    (s_totalSpending (wd_stats r) == 60 # 1)%Q /\
    (meg_price (s_mostExpensiveGift (wd_stats r)) <= s_totalSpending (wd_stats r))%Q.
Proof.
  eexists. eexists. split; [vm_compute; reflexivity |].
  split; [vm_compute; reflexivity |]. split; [vm_compute; reflexivity |].
  match goal with
  | |- (meg_price (s_mostExpensiveGift (wd_stats ?r)) <= _)%Q =>
      destruct (most_expensive_within_spending Fixtures.year_2024 0 7 (Num 2024) [] r
                  [SProfile; SPurchases; SListItems; SLastMinutePurchases;
                   SLastMinuteItemsCount; SLists; SListItemsCount; SUserLists;
                   SUserListItems; SItemsOnDay; SSuggestedGifts; SSuggestedInfo])
        as [_ Hle]
  end.
  - vm_compute. reflexivity.
  - intros item Hin. cbn in Hin.
    repeat (destruct Hin as [<- | Hin]; [vm_compute; discriminate |]). destruct Hin.
  - exact Hle.
Defined.

(** ** The most active day *)

Lemma counted_on_app day l1 l2 :
  counted_on day (l1 ++ l2) = counted_on day l1 ++ counted_on day l2.
Proof. unfold counted_on. apply filter_app. Qed.

Lemma itemsByDate_snoc items x :
  itemsByDate (items ++ [x])
  = match counted_at x with
    | Some created_at =>
        let entry :=
          match JSObject.get (itemsByDate items) (JSDate.Day created_at) with
          | Some d => d
          | None => {| dd_date := JSDate.Day created_at; dd_datetime := created_at;
                       dd_count := O |}
          end in
        JSObject.set (itemsByDate items) (JSDate.Day created_at)
          {| dd_date := dd_date entry; dd_datetime := dd_datetime entry;
             dd_count := S (dd_count entry) |}
    | None => itemsByDate items
    end.
Proof.
  unfold itemsByDate, counted_at. rewrite fold_left_app. cbn [fold_left].
  destruct (li_created_at x) as [c |]; [| reflexivity].
  destruct (truthy_id (suggested_by x)); reflexivity.
Qed.

(** After the pass over [items], the grouping holds under each day exactly
    the summary of the items counted under it. *)
Lemma itemsByDate_get items day :
  JSObject.get (itemsByDate items) day = day_summary day items.
Proof.
  revert day. induction items as [| x items IH] using rev_ind; intros day.
  - reflexivity.
  - rewrite itemsByDate_snoc. unfold day_summary. rewrite counted_on_app.
    unfold counted_on at 2. cbn [filter].
    destruct (counted_at x) as [c |] eqn:Ec.
    + cbv zeta. destruct (Z.eqb_spec (JSDate.Day c) day) as [<- | Hne].
      * rewrite get_set_same, IH. unfold day_summary.
        destruct (counted_on (JSDate.Day c) items) as [| first rest]; cbn [app].
        -- rewrite Ec. reflexivity.
        -- cbn [dd_date dd_datetime dd_count]. rewrite length_app. cbn [List.length].
           do 3 f_equal. lia.
      * rewrite (get_set_other _ _ _ _ Hne), IH, app_nil_r. reflexivity.
    + rewrite IH, app_nil_r. reflexivity.
Qed.

Lemma itemsByDate_NoDup items : NoDup (map fst (itemsByDate items)).
Proof.
  induction items as [| x items IH] using rev_ind; [constructor |].
  rewrite itemsByDate_snoc. destruct (counted_at x); [| exact IH].
  apply set_NoDup. exact IH.
Qed.

Lemma fold_maxDay vals m0 b0 :
  let res := fold_left
               (fun '(maxDayCount, best) dayData =>
                  if (maxDayCount <? dd_count dayData)%nat
                  then (dd_count dayData, Some dayData)
                  else (maxDayCount, best)) vals (m0, b0) in
  (m0 <= fst res)%nat /\
  (forall v, In v vals -> (dd_count v <= fst res)%nat) /\
  (res = (m0, b0) \/
   (m0 < fst res)%nat /\
   exists v1 v v2,
     vals = v1 ++ v :: v2 /\ snd res = Some v /\ dd_count v = fst res /\
     forall x, In x v1 -> (dd_count x < fst res)%nat).
Proof.
  revert m0 b0. induction vals as [| y vals IH]; intros m0 b0; cbn [fold_left].
  - cbn. split; [lia |]. split; [intros v [] | left; reflexivity].
  - destruct (Nat.ltb_spec m0 (dd_count y)) as [Hlt | Hge].
    + destruct (IH (dd_count y) (Some y)) as (H1 & H2 & H3). cbv zeta in *.
      split; [lia |]. split.
      * intros v [<- | Hin]; [exact H1 | apply H2; exact Hin].
      * right. destruct H3 as [E | (Hlt' & v1 & v & v2 & Ev & Hr & Hc & Hbefore)].
        -- rewrite E. cbn. split; [exact Hlt |].
           exists [], y, vals. cbn. repeat split. intros x [].
        -- split; [lia |]. exists (y :: v1), v, v2. cbn [app].
           split; [f_equal; exact Ev |]. split; [exact Hr |]. split; [exact Hc |].
           intros x [<- | Hin]; [exact Hlt' | apply Hbefore; exact Hin].
    + destruct (IH m0 b0) as (H1 & H2 & H3). cbv zeta in *.
      split; [exact H1 |]. split.
      * intros v [<- | Hin]; [lia | apply H2; exact Hin].
      * destruct H3 as [E | (Hlt' & v1 & v & v2 & Ev & Hr & Hc & Hbefore)]; [left; exact E |].
        right. split; [exact Hlt' |]. exists (y :: v1), v, v2. cbn [app].
        split; [f_equal; exact Ev |]. split; [exact Hr |]. split; [exact Hc |].
        intros x [<- | Hin]; [lia | apply Hbefore; exact Hin].
Qed.

Lemma grouped_value items v :
  In v (JSObject.values_of_text_keys (itemsByDate items)) ->
  day_summary (dd_date v) items = Some v.
Proof.
  unfold JSObject.values_of_text_keys. intros Hin. apply in_map_iff in Hin.
  destruct Hin as ([k v'] & E & Hin). cbn in E. subst v'.
  apply (In_get _ _ _ (itemsByDate_NoDup items)) in Hin. rewrite itemsByDate_get in Hin.
  assert (Ek : dd_date v = k).
  { unfold day_summary in Hin. destruct (counted_on k items); [discriminate |].
    injection Hin as <-. reflexivity. }
  rewrite Ek. exact Hin.
Qed.

Lemma summary_is_grouped items day v :
  day_summary day items = Some v ->
  In v (JSObject.values_of_text_keys (itemsByDate items)).
Proof.
  intros H. rewrite <- itemsByDate_get in H.
  apply (In_get _ _ _ (itemsByDate_NoDup items)) in H.
  unfold JSObject.values_of_text_keys. apply in_map_iff. exists (day, v). auto.
Qed.

(** X9.  The day that the loop of lines 294 to 301 selects holds the
    greatest number of counted items of any UTC day; its [count] is the number
    of items counted under it, at least 1, and its [datetime] is the
    [created_at] of the first of them. *)
Theorem most_active_day_is_greatest userListItems best :
  snd (maxDay (itemsByDate userListItems)) = Some best ->
  dd_count best = List.length (counted_on (dd_date best) userListItems) /\
  (0 < dd_count best)%nat /\
  (forall day, (List.length (counted_on day userListItems) <= dd_count best)%nat) /\
  exists first rest,
    counted_on (dd_date best) userListItems = first :: rest /\
    counted_at first = Some (dd_datetime best).
Proof.
  intros Hbest. unfold maxDay in Hbest.
  destruct (fold_maxDay (JSObject.values_of_text_keys (itemsByDate userListItems)) O None)
    as (_ & Hmax & Hcase). cbv zeta in *.
  destruct Hcase as [E | (Hpos & v1 & v & v2 & Ev & Hr & Hc & _)].
  { rewrite E in Hbest. discriminate Hbest. }
  rewrite Hbest in Hr. injection Hr as <-.
  assert (Hin : In best (JSObject.values_of_text_keys (itemsByDate userListItems))).
  { rewrite Ev. apply in_or_app. right. left. reflexivity. }
  pose proof (grouped_value _ _ Hin) as Hsum. unfold day_summary in Hsum.
  destruct (counted_on (dd_date best) userListItems) as [| first rest] eqn:Eon;
    [discriminate Hsum |].
  injection Hsum as Hsum.
  assert (Ecount : dd_count best = S (List.length rest)) by (rewrite <- Hsum; reflexivity).
  assert (Etime : dd_datetime best
                  = match counted_at first with Some c => c | None => 0 end)
    by (rewrite <- Hsum; reflexivity).
  split; [exact Ecount |]. split; [lia |]. split.
  - intros day. destruct (day_summary day userListItems) as [s |] eqn:Es.
    + pose proof (Hmax s (summary_is_grouped _ _ _ Es)) as Hle.
      unfold day_summary in Es. destruct (counted_on day userListItems); [discriminate |].
      injection Es as <-. cbn [dd_count] in Hle. cbn [List.length]. lia.
    + unfold day_summary in Es.
      destruct (counted_on day userListItems); [cbn [List.length]; lia | discriminate].
  - exists first, rest. split; [reflexivity |].
    assert (Hf : In first (counted_on (dd_date best) userListItems))
      by (rewrite Eon; left; reflexivity).
    unfold counted_on in Hf. apply filter_In in Hf. destruct Hf as [_ Hf].
    destruct (counted_at first) as [c |]; [| discriminate Hf]. rewrite Etime. reflexivity.
Qed.

Lemma most_active_day_is_greatest_witness :
  exists best,
    snd (maxDay (itemsByDate (list_items Fixtures.year_2024))) = Some best /\
    dd_count best = 2%nat /\
    (forall day,
       (List.length (counted_on day (list_items Fixtures.year_2024)) <= dd_count best)%nat).
Proof.
  eexists. split; [vm_compute; reflexivity |]. split; [reflexivity |].
  match goal with
  | |- forall day, (_ <= dd_count ?b)%nat =>
      destruct (most_active_day_is_greatest (list_items Fixtures.year_2024) b)
        as (_ & _ & Hmax & _)
  end.
  - vm_compute. reflexivity.
  - exact Hmax.
Defined.

Lemma itemsByDate_nothing_counted items :
  (forall item, In item items -> counted_at item = None) -> itemsByDate items = [].
Proof.
  induction items as [| x items IH] using rev_ind; intros Hall; [reflexivity |].
  rewrite itemsByDate_snoc.
  rewrite (Hall x) by (apply in_or_app; right; left; reflexivity).
  apply IH. intros item Hin. apply Hall. apply in_or_app. left. exact Hin.
Qed.

(** X10.  The loop selects no day exactly when the grouping counts no item:
    every fetched item lacks a [created_at] or has a truthy suggester. *)
Theorem no_active_day_iff_nothing_counted userListItems :
  snd (maxDay (itemsByDate userListItems)) = None <->
  forall item, In item userListItems -> counted_at item = None.
Proof.
  unfold maxDay.
  destruct (fold_maxDay (JSObject.values_of_text_keys (itemsByDate userListItems)) O None)
    as (_ & Hmax & Hcase). cbv zeta in *.
  split.
  - intros Hnone item Hin.
    destruct (counted_at item) as [c |] eqn:Ec; [exfalso | reflexivity].
    destruct Hcase as [E | (_ & v1 & v & v2 & _ & Hr & _)];
      [| rewrite Hnone in Hr; discriminate Hr].
    assert (Hon : In item (counted_on (JSDate.Day c) userListItems)).
    { unfold counted_on. apply filter_In. split; [exact Hin |].
      rewrite Ec. apply Z.eqb_refl. }
    destruct (day_summary (JSDate.Day c) userListItems) as [s |] eqn:Es.
    + pose proof (Hmax s (summary_is_grouped _ _ _ Es)) as Hle. rewrite E in Hle.
      unfold day_summary in Es.
      destruct (counted_on (JSDate.Day c) userListItems); [discriminate |].
      injection Es as <-. cbn [dd_count fst] in Hle. lia.
    + unfold day_summary in Es.
      destruct (counted_on (JSDate.Day c) userListItems); [destruct Hon | discriminate].
  - intros Hall. pose proof (itemsByDate_nothing_counted _ Hall) as Hempty.
    destruct Hcase as [E | (Hpos & v1 & v & v2 & Ev & _)]; [rewrite E; reflexivity |].
    rewrite Hempty in Ev. destruct v1; discriminate Ev.
Qed.

Lemma itemsByDate_keys_grow l1 l2 :
  exists extra,
    map fst (itemsByDate (l1 ++ l2)) = map fst (itemsByDate l1) ++ extra.
Proof.
  induction l2 as [| x l2 IH] using rev_ind.
  - exists []. rewrite !app_nil_r. reflexivity.
  - destruct IH as (extra & E). rewrite app_assoc, itemsByDate_snoc.
    destruct (counted_at x) as [c |]; [| exists extra; exact E].
    cbv zeta. rewrite keys_set.
    destruct (JSObject.get (itemsByDate (l1 ++ l2)) (JSDate.Day c)).
    + exists extra. exact E.
    + exists (extra ++ [JSDate.Day c]). rewrite E, app_assoc. reflexivity.
Qed.

Lemma split_at_first_counted day items :
  counted_on day items <> [] ->
  exists before x after,
    items = before ++ x :: after /\
    counted_on day before = [] /\
    exists c, counted_at x = Some c /\ JSDate.Day c = day.
Proof.
  induction items as [| y items IH]; intros Hne; [contradiction Hne; reflexivity |].
  destruct (counted_at y) as [c |] eqn:Ec.
  - destruct (Z.eqb_spec (JSDate.Day c) day) as [Ed | Hd].
    + exists [], y, items. split; [reflexivity |]. split; [reflexivity |].
      exists c. split; [exact Ec | exact Ed].
    + assert (Hne' : counted_on day items <> []).
      { intros E. apply Hne. unfold counted_on in *. cbn [filter]. rewrite Ec.
        destruct (Z.eqb_spec (JSDate.Day c) day); [contradiction | exact E]. }
      destruct (IH Hne') as (before & x & after & -> & Hb & Hx).
      exists (y :: before), x, after. split; [reflexivity |]. split; [| exact Hx].
      unfold counted_on in *. cbn [filter]. rewrite Ec.
      destruct (Z.eqb_spec (JSDate.Day c) day); [contradiction | exact Hb].
  - assert (Hne' : counted_on day items <> []).
    { intros E. apply Hne. unfold counted_on in *. cbn [filter]. rewrite Ec. exact E. }
    destruct (IH Hne') as (before & x & after & -> & Hb & Hx).
    exists (y :: before), x, after. split; [reflexivity |]. split; [| exact Hx].
    unfold counted_on in *. cbn [filter]. rewrite Ec. exact Hb.
Qed.

Lemma NoDup_split_unique {A} (a b a' b' : list A) d :
  NoDup (a ++ d :: b) -> a ++ d :: b = a' ++ d :: b' -> a = a' /\ b = b'.
Proof.
  revert a'. induction a as [| x a IH]; intros a' Hnd E.
  - destruct a' as [| y a']; cbn in E.
    + injection E as ->. split; reflexivity.
    + injection E as <- ->. exfalso. inversion Hnd as [| ? ? Hnot _]; subst.
      apply Hnot. apply in_or_app. right. left. reflexivity.
  - destruct a' as [| y a']; cbn in E.
    + injection E as -> <-. exfalso. inversion Hnd as [| ? ? Hnot _]; subst.
      apply Hnot. apply in_or_app. right. left. reflexivity.
    + injection E as <- E. inversion Hnd; subst.
      destruct (IH a') as [-> ->]; [assumption | exact E | split; reflexivity].
Qed.

Lemma NoDup_not_on_both_sides {A} (a b : list A) d z :
  NoDup (a ++ d :: b) -> In z a -> In z b -> False.
Proof.
  intros Hn Ha Hb. induction a as [| w a IH]; [destruct Ha |].
  cbn in Hn. inversion Hn as [| ? ? Hnot Hn']; subst. destruct Ha as [-> | Ha].
  - apply Hnot. apply in_or_app. right. right. exact Hb.
  - apply IH; assumption.
Qed.

(** X11.  When several days hold the greatest number of counted items, the
    day selected is the one whose first counted item comes first in the
    fetched items: no day that reaches the same count has a counted item
    before it. *)
Theorem most_active_day_tie_goes_to_first_met userListItems best :
  snd (maxDay (itemsByDate userListItems)) = Some best ->
  exists before x after c,
    userListItems = before ++ x :: after /\
    counted_at x = Some c /\ JSDate.Day c = dd_date best /\
    forall day,
      List.length (counted_on day userListItems) = dd_count best ->
      counted_on day before = [].
Proof.
  intros Hbest. unfold maxDay in Hbest.
  destruct (fold_maxDay (JSObject.values_of_text_keys (itemsByDate userListItems)) O None)
    as (_ & _ & Hcase). cbv zeta in *.
  destruct Hcase as [E | (Hpos & v1 & v & v2 & Ev & Hr & Hc & Hless)].
  { rewrite E in Hbest. discriminate Hbest. }
  rewrite Hbest in Hr. injection Hr as <-.
  set (obj := itemsByDate userListItems) in *.
  unfold JSObject.values_of_text_keys in Ev.
  apply map_eq_app in Ev. destruct Ev as (o1 & o2' & Eobj & Ev1 & Ev2).
  destruct o2' as [| [k b] o2]; [discriminate Ev2 |]. cbn in Ev2. injection Ev2 as -> Ev2.
  pose proof (itemsByDate_NoDup userListItems) as Hnd. fold obj in Hnd.
  assert (Hk : k = dd_date best).
  { assert (Hin : In best (JSObject.values_of_text_keys obj)).
    { unfold JSObject.values_of_text_keys. rewrite Eobj, map_app. cbn.
      apply in_or_app. right. left. reflexivity. }
    pose proof (grouped_value _ _ Hin) as Hsum.
    assert (Hget : JSObject.get obj k = Some best).
    { apply (In_get _ _ _ Hnd). rewrite Eobj. apply in_or_app. right. left. reflexivity. }
    unfold obj in Hget. rewrite itemsByDate_get in Hget. unfold day_summary in Hget.
    destruct (counted_on k userListItems); [discriminate |]. injection Hget as <-. reflexivity. }
  subst k.
  assert (Hne : counted_on (dd_date best) userListItems <> []).
  { assert (Hget : JSObject.get obj (dd_date best) = Some best).
    { apply (In_get _ _ _ Hnd). rewrite Eobj. apply in_or_app. right. left. reflexivity. }
    unfold obj in Hget. rewrite itemsByDate_get in Hget. unfold day_summary in Hget.
    intros E. rewrite E in Hget. discriminate Hget. }
  destruct (split_at_first_counted _ _ Hne) as (before & x & after & Eitems & Hb & c & Ec & Ed).
  exists before, x, after, c. split; [exact Eitems |]. split; [exact Ec |]. split; [exact Ed |].
  intros day Hday.
  destruct (counted_on day before) as [| y ys] eqn:Eday; [reflexivity | exfalso].
  assert (Hdiff : day <> dd_date best).
  { intros ->. rewrite Hb in Eday. discriminate Eday. }
  (* the keys after the pass over [before] *)
  destruct (itemsByDate_keys_grow before (x :: after)) as (extra & Ekeys).
  rewrite <- Eitems in Ekeys. fold obj in Ekeys.
  assert (Hday_in : In day (map fst (itemsByDate before))).
  { destruct (in_dec Z.eq_dec day (map fst (itemsByDate before))) as [H | H]; [exact H |].
    apply get_None_keys in H. rewrite itemsByDate_get in H. unfold day_summary in H.
    rewrite Eday in H. discriminate H. }
  assert (Hbest_out : ~ In (dd_date best) (map fst (itemsByDate before))).
  { apply get_None_keys. rewrite itemsByDate_get. unfold day_summary. rewrite Hb. reflexivity. }
  assert (Hbest_extra : In (dd_date best) extra).
  { assert (H : In (dd_date best) (map fst obj)).
    { rewrite Eobj, map_app. cbn. apply in_or_app. right. left. reflexivity. }
    rewrite Ekeys in H. apply in_app_or in H. destruct H as [H | H]; [contradiction | exact H]. }
  apply in_split in Hbest_extra. destruct Hbest_extra as (e1 & e2 & ->).
  (* the entry of [day] lies after the entry of the winner *)
  assert (Hday_o2 : In day (map fst o2)).
  { destruct (day_summary day userListItems) as [s |] eqn:Es.
    - assert (Hs : dd_count s = dd_count best).
      { unfold day_summary in Es. destruct (counted_on day userListItems); [discriminate |].
        injection Es as <-. cbn [dd_count List.length] in *. lia. }
      rewrite <- itemsByDate_get in Es. fold obj in Es.
      apply (In_get _ _ _ Hnd) in Es. rewrite Eobj in Es.
      apply in_app_or in Es. destruct Es as [H | [H | H]].
      + exfalso. assert (Hv : In s v1).
        { rewrite <- Ev1. apply in_map_iff. exists (day, s). auto. }
        apply Hless in Hv. lia.
      + injection H as H _. exfalso. apply Hdiff. symmetry. exact H.
      + apply in_map_iff. exists (day, s). auto.
    - exfalso. unfold day_summary in Es.
      destruct (counted_on day userListItems) eqn:Eall; [| discriminate Es].
      rewrite Eitems, counted_on_app, Eday in Eall. discriminate Eall. }
  rewrite Eobj, map_app in Ekeys, Hnd. cbn [map fst] in Ekeys, Hnd.
  rewrite app_assoc in Ekeys.
  destruct (NoDup_split_unique _ _ _ _ _ Hnd Ekeys) as [Ea _].
  apply (NoDup_not_on_both_sides _ _ _ day Hnd); [| exact Hday_o2].
  rewrite Ea. apply in_or_app. left. exact Hday_in.
Qed.

Lemma most_active_day_tie_goes_to_first_met_witness :
  exists best before x after c,
    snd (maxDay (itemsByDate (list_items Fixtures.tied_lists))) = Some best /\
    dd_count best = 1%nat /\
    list_items Fixtures.tied_lists = before ++ x :: after /\
    counted_at x = Some c /\ JSDate.Day c = dd_date best /\
    counted_on (JSDate.Day (Fixtures.at_hour 2024 3 2 10)) before = [].
Proof.
  eexists.
  match goal with
  | |- exists before x after c, snd ?m = Some ?b /\ _ =>
      assert (Hbest : snd m = Some b) by (vm_compute; reflexivity)
  end.
  destruct (most_active_day_tie_goes_to_first_met _ _ Hbest)
    as (before & x & after & c & E & Hc & Hd & Hties).
  exists before, x, after, c.
  split; [exact Hbest |]. split; [reflexivity |]. split; [exact E |].
  split; [exact Hc |]. split; [exact Hd |].
  apply Hties. vm_compute. reflexivity.
Defined.

(** ** The suggestion tally, continued *)




Lemma insert_by_count_tally_sorted e l :
  StronglySorted tally_before l ->
  Forall (fun x => t_suggested_by e < t_suggested_by x) l ->
  StronglySorted tally_before (insert_by_count e l).
Proof.
  intros Hs Hid. induction Hs as [| e' l Hs IH Hall]; cbn [insert_by_count].
  - constructor; [constructor | constructor].
  - inversion Hid as [| ? ? Hid' Hidl]; subst.
    destruct (Nat.ltb_spec (t_count e) (t_count e')) as [Hlt | Hge].
    + constructor; [apply IH; exact Hidl |].
      apply Forall_forall. intros x Hx.
      apply (Permutation_in _ (insert_by_count_perm e l)) in Hx. destruct Hx as [<- | Hx].
      * left. exact Hlt.
      * rewrite Forall_forall in Hall. apply Hall. exact Hx.
    + constructor; [constructor; assumption |].
      constructor.
      * unfold tally_before. destruct (Nat.eq_dec (t_count e) (t_count e')) as [E | N];
          [right; split; assumption | left; lia].
      * apply Forall_forall. intros x Hx. rewrite Forall_forall in Hall, Hidl.
        specialize (Hall x Hx). specialize (Hidl x Hx). unfold tally_before in *.
        destruct Hall as [H | [H1 H2]].
        -- left. lia.
        -- destruct (Nat.eq_dec (t_count e) (t_count x)) as [E | N];
             [right; split; assumption | left; lia].
Qed.

Lemma sort_by_count_tally_sorted l :
  StronglySorted (fun a b => t_suggested_by a < t_suggested_by b) l ->
  StronglySorted tally_before (sort_by_count l).
Proof.
  intros Hs. induction Hs as [| e l Hs IH Hall]; cbn [sort_by_count fold_right];
    [constructor |].
  apply insert_by_count_tally_sorted; [exact IH |].
  apply Forall_forall. intros x Hx.
  apply (Permutation_in _ (sort_by_count_perm l)) in Hx.
  rewrite Forall_forall in Hall. apply Hall. exact Hx.
Qed.

Lemma ascending_strict {V} (l : list (Z * V)) :
  NoDup (map fst l) ->
  StronglySorted (fun a b => fst a < fst b) (JSObject.ascending l).
Proof.
  intros Hnd.
  assert (Hnd' : NoDup (map fst (JSObject.ascending l))).
  { apply (Permutation_NoDup (Permutation_sym (Permutation_map fst (ascending_perm l)))).
    exact Hnd. }
  pose proof (ascending_sorted l) as Hs. revert Hnd'.
  induction Hs as [| e l' Hs IH Hall]; intros Hnd'; [constructor |].
  cbn in Hnd'. inversion Hnd' as [| ? ? Hnot Hnd'']; subst.
  constructor; [apply IH; exact Hnd'' |].
  apply Forall_forall. intros x Hx. rewrite Forall_forall in Hall.
  specialize (Hall x Hx). unfold key_le in Hall.
  assert (fst e <> fst x).
  { intros E. apply Hnot. rewrite E. apply in_map. exact Hx. }
  lia.
Qed.

(** X13.  When the suggester ids are array indices, the tally is ordered by
    count, larger first, and entries with equal counts by ascending suggester
    id, with or without the names. *)
Theorem tally_order_is_count_then_id gifts names :
  Forall suggester_is_index gifts ->
  StronglySorted tally_before (suggestedGiftCountsArray gifts) /\
  StronglySorted tally_before (with_names names (suggestedGiftCountsArray gifts)).
Proof.
  intros Hidx.
  assert (Hs : StronglySorted tally_before (suggestedGiftCountsArray gifts)).
  { unfold suggestedGiftCountsArray. apply sort_by_count_tally_sorted.
    rewrite suggestedGiftCounts_fold.
    assert (Hks : Forall (fun k => JSObject.is_array_index k = true) (truthy_suggesters gifts)).
    { apply Forall_forall. intros k Hk. unfold truthy_suggesters in Hk.
      apply in_flat_map in Hk. destruct Hk as (gift & Hg & Hk).
      rewrite Forall_forall in Hidx. specialize (Hidx gift Hg).
      unfold suggester_is_index in Hidx.
      destruct (suggested_by gift) as [s |]; [| destruct Hk].
      destruct (s =? 0); [destruct Hk |]. destruct Hk as [<- | []]. exact Hidx. }
    rewrite (entries_of_indices _ (counted_keys_are_indices _ Hks)).
    pose proof (ascending_strict (fold_left bump (truthy_suggesters gifts) [])
                  (fold_bump_NoDup _ [] (NoDup_nil _))) as Hasc.
    induction Hasc as [| [s c] l Hasc IH Hall]; cbn [map]; [constructor |].
    constructor; [exact IH |].
    apply Forall_forall. intros x Hx. apply in_map_iff in Hx.
    destruct Hx as ([s' c'] & <- & Hx). rewrite Forall_forall in Hall.
    apply (Hall _ Hx). }
  split; [exact Hs |].
  induction Hs as [| e l Hs IH Hall]; cbn [with_names map]; [constructor |].
  constructor; [exact IH |].
  apply Forall_forall. intros x Hx. unfold with_names in Hx. apply in_map_iff in Hx.
  destruct Hx as (y & <- & Hy). rewrite Forall_forall in Hall. apply (Hall y Hy).
Qed.

Lemma tally_order_is_count_then_id_witness :
  StronglySorted tally_before (suggestedGiftCountsArray (list_items Fixtures.two_suggesters)) /\
  map t_suggested_by (suggestedGiftCountsArray (list_items Fixtures.two_suggesters)) = [8; 9].
Proof.
  destruct (tally_order_is_count_then_id (list_items Fixtures.two_suggesters) [])
    as [Hs _].
  - repeat constructor.
  - split; [exact Hs | reflexivity].
Defined.

Lemma profileMap_snoc info p :
  profileMap (info ++ [p])
  = JSObject.set (profileMap info) (p_id p) (first_name p ++ " " ++ last_name p)%string.
Proof. unfold profileMap. rewrite fold_left_app. reflexivity. Qed.

Lemma profileMap_get info id :
  JSObject.get (profileMap info) id
  = option_map (fun p => (first_name p ++ " " ++ last_name p)%string)
               (find (fun p => p_id p =? id) (rev info)).
Proof.
  induction info as [| p info IH] using rev_ind; [reflexivity |].
  rewrite profileMap_snoc, rev_app_distr. cbn [rev app find].
  destruct (Z.eqb_spec (p_id p) id) as [-> | Hne].
  - rewrite get_set_same. reflexivity.
  - rewrite (get_set_other _ _ _ _ Hne). exact IH.
Qed.

Lemma full_name_not_empty a b : String.eqb (a ++ " " ++ b) "" = false.
Proof. destruct a; reflexivity. Qed.

Lemma find_filter {A} (p f : A -> bool) l :
  (forall x, p x = true -> f x = true) -> find p (filter f l) = find p l.
Proof.
  intros H. induction l as [| x l IH]; cbn; [reflexivity |].
  destruct (f x) eqn:Ef; cbn.
  - rewrite IH. reflexivity.
  - destruct (p x) eqn:Ep; [rewrite (H x Ep) in Ef; discriminate | exact IH].
Qed.

Lemma rev_filter {A} (f : A -> bool) l : rev (filter f l) = filter f (rev l).
Proof.
  induction l as [| x l IH]; cbn; [reflexivity |].
  rewrite filter_app. cbn. destruct (f x); cbn; rewrite IH; [reflexivity |].
  rewrite app_nil_r. reflexivity.
Qed.

Lemma suggestionTally_names st ys ye userListIds log counts log' :
  suggestionTally st ys ye userListIds log = (Returned counts, log') ->
  outage st SSuggestedInfo = None ->
  Forall (fun e => t_name e = Some (resolved_name (profiles st) (t_suggested_by e))) counts.
Proof.
  unfold suggestionTally. destruct userListIds as [| id ids].
  { intros H _. unfold ret in H. injection H as <- _. constructor. }
  unfold bind, request, ret.
  destruct (outage st SSuggestedGifts); cbn [error data].
  { intros H _. injection H as <- _. constructor. }
  intros H O. rewrite O in H. cbn [error data] in H. injection H as <- _.
  set (counted := suggestedGiftCountsArray _).
  apply Forall_forall. intros e He. unfold with_names in He. apply in_map_iff in He.
  destruct He as (e0 & <- & He0). cbn [t_name t_suggested_by]. f_equal.
  rewrite profileMap_get, rev_filter.
  rewrite find_filter.
  - unfold resolved_name. destruct (find _ (rev (profiles st))) as [p |]; cbn [option_map].
    + unfold text_or. rewrite full_name_not_empty. reflexivity.
    + reflexivity.
  - intros p Hp. apply Z.eqb_eq in Hp. unfold in_ids. apply existsb_exists.
    exists (t_suggested_by e0). split; [apply in_map; exact He0 | apply Z.eqb_eq; exact Hp].
Qed.

Lemma ownedListReducers_parts st tza profileId ys ye log part log' :
  ownedListReducers st tza profileId ys ye log = (Returned part, log') ->
  part = (None, []) \/
  exists ids log1 log2,
    mostActiveDay st tza profileId ys ye ids log1 = (Returned (fst part), log2) /\
    suggestionTally st ys ye ids log2 = (Returned (snd part), log').
Proof.
  unfold ownedListReducers. intros H. apply bind_returned in H.
  destruct H as (resp & log1 & Hreq & H). rewrite request_run in Hreq.
  injection Hreq as <- <-.
  destruct (outage st SUserLists); cbn [error data] in H.
  - left. unfold ret in H. injection H as <- _. reflexivity.
  - right. repeat run_step. do 3 eexists. cbn [fst snd]. split; eassumption.
Qed.

(** X14.  When the name lookup succeeds, every entry of the tally in a
    returned report carries a name: first and last name of the profile row
    with the suggester's id (the last such row, should there be several), and
    "Unknown" when [profiles] has no row with that id. *)
Theorem tally_names_are_resolved st tza profileId year log r log' :
  calculatePatientData st tza profileId year log = (Returned r, log') ->
  outage st SSuggestedInfo = None ->
  Forall (fun e => t_name e = Some (resolved_name (profiles st) (t_suggested_by e)))
         (ls_suggestedGiftCounts (wd_listStats r)).
Proof.
  intros Hrun O. apply calculatePatientData_returned in Hrun.
  destruct Hrun as (ys & ye & items & lm & lp & op & l1 & l2 & l3
                    & _ & _ & _ & _ & _ & Howned & ->).
  cbn [assemble wd_listStats ls_suggestedGiftCounts].
  apply ownedListReducers_parts in Howned.
  destruct Howned as [-> | (ids & k1 & k2 & _ & Htally)]; [constructor |].
  exact (suggestionTally_names _ _ _ _ _ _ _ Htally O).
Qed.

Lemma tally_names_are_resolved_witness :
  exists r log',
    calculatePatientData Fixtures.year_2024 0 7 (Num 2024) [] = (Returned r, log') /\
    map t_name (ls_suggestedGiftCounts (wd_listStats r)) = [Some "Quinn Roe"%string] /\
    Forall (fun e => t_name e
                     = Some (resolved_name (profiles Fixtures.year_2024) (t_suggested_by e)))
           (ls_suggestedGiftCounts (wd_listStats r)).
Proof.
  eexists. eexists. split; [vm_compute; reflexivity |].
  split; [vm_compute; reflexivity |].
  match goal with
  | |- Forall _ (ls_suggestedGiftCounts (wd_listStats ?r)) =>
      apply (tally_names_are_resolved Fixtures.year_2024 0 7 (Num 2024) [] r
               [SProfile; SPurchases; SListItems; SLastMinutePurchases;
                SLastMinuteItemsCount; SLists; SListItemsCount; SUserLists;
                SUserListItems; SItemsOnDay; SSuggestedGifts; SSuggestedInfo])
  end.
  - vm_compute. reflexivity.
  - reflexivity.
Defined.

(** X15.  In every returned report, no item of the most active day's list
    has a suggester. *)
Theorem day_items_have_no_suggester st tza profileId year log r log' d items :
  calculatePatientData st tza profileId year log = (Returned r, log') ->
  ls_mostActiveDay (wd_listStats r) = Some d ->
  mad_items d = Some items ->
  Forall (fun i => di_suggested_by i = None) items.
Proof.
  intros Hrun Hd Hitems. apply calculatePatientData_returned in Hrun.
  destruct Hrun as (ys & ye & its & lm & lp & op & l1 & l2 & l3
                    & _ & _ & _ & _ & _ & Howned & ->).
  cbn [assemble wd_listStats ls_mostActiveDay] in Hd.
  apply ownedListReducers_parts in Howned.
  destruct Howned as [-> | (ids & k1 & k2 & Hday & _)]; [discriminate Hd |].
  rewrite Hd in Hday.
  exact (items_on_day_have_no_suggester _ _ _ _ _ _ _ _ _ _ Hday Hitems).
Qed.

Lemma day_items_have_no_suggester_witness :
  exists r log' d items,
    calculatePatientData Fixtures.suggester_zero 0 7 (Num 2024) [] = (Returned r, log') /\
    ls_mostActiveDay (wd_listStats r) = Some d /\
    mad_items d = Some items /\
    map di_id items = [1] /\
    Forall (fun i => di_suggested_by i = None) items.
Proof.
  eexists. eexists. eexists. eexists.
  split; [vm_compute; reflexivity |]. split; [vm_compute; reflexivity |].
  split; [vm_compute; reflexivity |]. split; [vm_compute; reflexivity |].
  match goal with
  | |- Forall _ ?items =>
      eapply (day_items_have_no_suggester Fixtures.suggester_zero 0 7 (Num 2024) []
                _ [SProfile; SPurchases; SLastMinutePurchases; SLists; SListItemsCount;
                   SUserLists; SUserListItems; SItemsOnDay; SSuggestedGifts;
                   SSuggestedInfo]
                _ items)
  end.
  - vm_compute. reflexivity.
  - vm_compute. reflexivity.
  - vm_compute. reflexivity.
Defined.

(** ** List statistics, continued *)






(** ** The year of a request *)

Lemma to_uint_not_nil n : Nat.to_uint n <> Decimal.Nil.
Proof.
  rewrite <- (DecimalNat.Unsigned.of_to n) at 1. rewrite DecimalNat.Unsigned.to_of.
  unfold Decimal.unorm. destruct (Decimal.nzhead (Nat.to_uint n)); discriminate.
Qed.

Lemma code_units_String c s :
  Server.code_units (String c s) = Z.of_nat (nat_of_ascii c) :: Server.code_units s.
Proof. reflexivity. Qed.

Lemma read_digits_uint d acc :
  Server.read_digits 10 (Server.code_units (NilEmpty.string_of_uint d)) (Some (Z.of_nat acc))
  = Some (Z.of_nat (Nat.of_uint_acc d acc)).
Proof.
  revert acc. induction d; intros acc; cbn [NilEmpty.string_of_uint Nat.of_uint_acc];
    [reflexivity | ..];
    rewrite code_units_String; cbn [Server.read_digits];
    match goal with
    | |- context [Server.digit_value 10 ?c] =>
        let v := eval vm_compute in (Server.digit_value 10 c) in
        change (Server.digit_value 10 c) with v
    end;
    rewrite <- IHd; do 2 f_equal; rewrite Nat.tail_mul_spec; lia.
Qed.

(** A decimal numeral is read as the number it denotes, converted to a
    Number. *)
Lemma parseInt_uint d :
  d <> Decimal.Nil ->
  Server.parseInt (Server.code_units (NilEmpty.string_of_uint d))
  = to_double (Z.of_nat (Nat.of_uint d)).
Proof.
  intros Hd.
  assert (H : Server.parseInt (Server.code_units (NilEmpty.string_of_uint d))
              = match Server.read_digits 10 (Server.code_units (NilEmpty.string_of_uint d))
                        (Some 0) with
                | Some n => to_double (1 * n)
                | None => NaN
                end).
  { destruct d as [| d' | d' | d' | d' | d' | d' | d' | d' | d' | d'];
      [contradiction | destruct d' | ..]; reflexivity. }
  rewrite H. change 0 with (Z.of_nat 0). rewrite read_digits_uint.
  rewrite Z.mul_1_l. reflexivity.
Qed.

(** Integers up to [2^53] in absolute value are Numbers as they are. *)
Lemma to_double_exact z : Z.abs z <= 2 ^ 53 -> to_double z = Num z.
Proof.
  intros H. unfold to_double.
  destruct (Z.ltb_spec (Z.abs z) (2 ^ 53)) as [Hlt | Hge]; [reflexivity |].
  change (2 ^ 53) with 9007199254740992 in H, Hge.
  assert (E : z = 9007199254740992 \/ z = - 9007199254740992) by lia.
  destruct E as [-> | ->]; vm_compute; reflexivity.
Qed.

Lemma yearParam_decimal currentYear n :
  Server.yearParam (Some (decimal n)) currentYear = to_double (Z.of_nat n).
Proof.
  unfold Server.yearParam, Server.yearParam_of, decimal. cbn [option_map].
  pose proof (parseInt_uint _ (to_uint_not_nil n)) as Hparse.
  unfold Nat.of_uint in Hparse. fold (Nat.of_uint (Nat.to_uint n)) in Hparse.
  rewrite DecimalNat.Unsigned.of_to in Hparse.
  destruct (Server.code_units (NilEmpty.string_of_uint (Nat.to_uint n))) as [| c text] eqn:E.
  - pose proof (to_uint_not_nil n) as Hn.
    destruct (Nat.to_uint n); [contradiction | ..]; discriminate E.
  - exact Hparse.
Qed.

(** X17.  A year of at most 2^53 written in decimal digits in the query is
    passed to the engine as that number, 0 included; beyond, the number is
    rounded to a double, so that 2^53 + 1 is passed as 2^53.  A missing or
    empty year is replaced by the current year. *)
Theorem yearParam_reads_decimal_years currentYear n :
  (Z.of_nat n <= 2 ^ 53 ->
   Server.yearParam (Some (decimal n)) currentYear = Num (Z.of_nat n)) /\
  Server.yearParam (Some "9007199254740993"%string) currentYear = Num 9007199254740992 /\
  Server.yearParam (Some ""%string) currentYear = Num currentYear /\
  Server.yearParam None currentYear = Num currentYear.
Proof.
  split; [| split; [vm_compute; reflexivity | split; reflexivity]].
  intros Hn. rewrite yearParam_decimal. apply to_double_exact. lia.
Qed.

Lemma yearParam_reads_decimal_years_witness :
  Server.yearParam (Some "2024"%string) 2026 = Num 2024.
Proof.
  destruct (yearParam_reads_decimal_years 2026 2024%nat) as [H _].
  apply H. vm_compute. discriminate.
Defined.

Example decimal_2024 : decimal 2024 = "2024"%string.
Proof. reflexivity. Qed.

(** White space before the numeral is skipped, a no-break space or a byte
    order mark as well as a blank; what follows the numeral is ignored. *)
Example parseInt_trims :
  Server.parseInt (160 :: Server.code_units "2024") = Num 2024 /\
  Server.parseInt (65279 :: 8232 :: Server.code_units " 2024") = Num 2024 /\
  Server.parseInt (Server.code_units "2024abc") = Num 2024 /\
  Server.parseInt (Server.code_units "0x7E8") = Num 2024 /\
  Server.parseInt (Server.code_units "year 2024") = NaN.
Proof. repeat split; vm_compute; reflexivity. Qed.

(** X21.  The route handler answers a request whose year, at most 2^53, is
    written in decimal digits with the engine's report for that year (status
    200), or, when the engine throws, with status 500, the fixed label and
    the error's message; the requests issued are those of the engine.  A
    year string that [parseInt] cannot read is answered 500 "Invalid time
    value" without any request to the store. *)
Theorem handler_answers st tza currentYear patientId :
  (forall n,
     Z.of_nat n <= 2 ^ 53 ->
     Server.handler st tza currentYear patientId (Some (Server.code_units (decimal n)))
     = match calculatePatientData st tza patientId (Num (Z.of_nat n)) [] with
       | (Returned wrappedData, log) => (Server.Json200 wrappedData, log)
       | (Threw e, log) =>
           (Server.Json500 "Failed to calculate wrapped data" (err_message e), log)
       end) /\
  (forall text : Server.jsstring,
     Server.parseInt text = NaN ->
     text <> [] ->
     Server.handler st tza currentYear patientId (Some text)
     = (Server.Json500 "Failed to calculate wrapped data" "Invalid time value", [])).
Proof.
  split.
  - intros n Hn. unfold Server.handler.
    change (Server.yearParam_of (Some (Server.code_units (decimal n))) currentYear)
      with (Server.yearParam (Some (decimal n)) currentYear).
    rewrite yearParam_decimal, to_double_exact by lia. reflexivity.
  - intros text Hnan Hne. apply handler_on_unreadable_year; assumption.
Qed.

Lemma handler_answers_witness :
  Server.handler Fixtures.year_2024 0 2026 7 (Some (Server.code_units "next year"))
  = (Server.Json500 "Failed to calculate wrapped data" "Invalid time value", []) /\
  Server.handler Fixtures.year_2024 0 2026 7 (Some (Server.code_units (decimal 2024)))
  = match calculatePatientData Fixtures.year_2024 0 7 (Num (Z.of_nat 2024)) [] with
    | (Returned wrappedData, log) => (Server.Json200 wrappedData, log)
    | (Threw e, log) =>
        (Server.Json500 "Failed to calculate wrapped data" (err_message e), log)
    end.
Proof.
  destruct (handler_answers Fixtures.year_2024 0 2026 7) as [Hdec Hnan].
  split.
  - apply Hnan; [reflexivity | vm_compute; discriminate].
  - apply (Hdec 2024%nat). vm_compute. discriminate.
Defined.

(** ** The most active day and its items *)

Lemma mostActiveDay_some st tza profileId ys ye ids log d log' :
  mostActiveDay st tza profileId ys ye ids log = (Returned (Some d), log') ->
  exists best a b,
    snd (maxDay (itemsByDate
                   (filter (fun item => in_ids ids (list_id item)
                                        && within_opt ys ye (li_created_at item))
                           (list_items st)))) = Some best /\
    setHours tza (dd_date best * JSDate.msPerDay) 0 0 0 0 = Some a /\
    setHours tza (dd_date best * JSDate.msPerDay) 23 59 59 999 = Some b /\
    mad_date d = dd_date best /\
    mad_datetime d = dd_datetime best /\
    mad_itemCount d = dd_count best /\
    mad_items d
    = match outage st SItemsOnDay with
      | Some _ => None
      | None =>
          Some (map day_item_of
                  (order_by_created_at
                     (filter (fun item => in_ids ids (list_id item)
                                          && is_null (suggested_by item)
                                          && within_opt a b (li_created_at item))
                             (list_items st))))
      end.
Proof.
  unfold mostActiveDay. destruct ids as [| id ids]; [discriminate |].
  intros H. apply bind_returned in H. destruct H as (resp & log1 & Hreq & H).
  rewrite request_run in Hreq. injection Hreq as <- <-.
  destruct (outage st SUserListItems); cbn [error data] in H; [discriminate H |].
  destruct (filter _ (list_items st)) as [| i rows]; [discriminate H |].
  destruct (snd (maxDay (itemsByDate (i :: rows)))) as [best |]; [| discriminate H].
  repeat run_step.
  match goal with
  | Hr : request _ SItemsOnDay _ _ = _ |- _ => rewrite request_run in Hr; injection Hr as <- <-
  end.
  match goal with
  | Ha : setHours _ _ 0 0 0 0 = Some ?a, Hb : setHours _ _ 23 59 59 999 = Some ?b |- _ =>
      exists best, a, b; split; [reflexivity |]; split; [exact Ha |]; split; [exact Hb |]
  end.
  cbn [mad_date mad_datetime mad_itemCount mad_items].
  repeat split. destruct (outage st SItemsOnDay); reflexivity.
Qed.

Lemma maxDay_summary items best :
  snd (maxDay (itemsByDate items)) = Some best ->
  day_summary (dd_date best) items = Some best.
Proof.
  intros H. apply grouped_value. apply maxDay_In. exact H.
Qed.

Lemma order_by_created_at_length l :
  List.length (order_by_created_at l) = List.length l.
Proof.
  unfold order_by_created_at.
  assert (Hins : forall x acc,
             List.length (insert_by_created_at x acc) = S (List.length acc)).
  { intros x acc. induction acc as [| y acc IH]; cbn [insert_by_created_at]; [reflexivity |].
    destruct (created_or_0 y <=? created_or_0 x); cbn [List.length]; [rewrite IH |];
      reflexivity. }
  assert (Hfold : forall acc,
             List.length (fold_left (fun acc x => insert_by_created_at x acc) l acc)
             = (List.length acc + List.length l)%nat).
  { induction l as [| x l IH]; intros acc; cbn [fold_left List.length]; [lia |].
    rewrite IH, Hins. lia. }
  rewrite Hfold. reflexivity.
Qed.

Lemma filter_twice {A} (f g : A -> bool) l :
  filter f (filter g l) = filter (fun x => g x && f x) l.
Proof.
  induction l as [| x l IH]; cbn [filter]; [reflexivity |].
  destruct (g x); cbn [filter andb]; [destruct (f x) |]; rewrite IH; reflexivity.
Qed.

(** On a host whose local time is UTC, the local day around the parsed
    date is the UTC day itself. *)
Lemma utc_day_bounds day a b c :
  setHours 0 (day * JSDate.msPerDay) 0 0 0 0 = Some a ->
  setHours 0 (day * JSDate.msPerDay) 23 59 59 999 = Some b ->
  within a b c = (JSDate.Day c =? day).
Proof.
  unfold setHours. intros Ha Hb.
  apply TimeClip_Some in Ha. destruct Ha as [-> _].
  apply TimeClip_Some in Hb. destruct Hb as [-> _].
  unfold within, JSDate.MakeDate, JSDate.MakeTime, JSDate.Day,
    JSDate.msPerDay, JSDate.msPerHour, JSDate.msPerMinute, JSDate.msPerSecond.
  match goal with
  | |- (?lo <=? c) && (c <=? ?hi) = _ =>
      destruct (Z.leb_spec lo c) as [H1 | H1], (Z.leb_spec c hi) as [H2 | H2]
  end;
    destruct (Z.eqb_spec (c / 86400000) day) as [E | N]; cbn [andb]; try reflexivity;
    exfalso; Z.div_mod_to_equations; lia.
Qed.

(** The UTC day of an instant of the year lies inside the year window, on a
    host whose local time is UTC. *)
Lemma utc_day_inside_year y ys ye c0 c :
  yearStart 0 (Num y) = Some ys ->
  yearEnd 0 (Num y) = Some ye ->
  ys <= c0 <= ye ->
  JSDate.Day c = JSDate.Day c0 ->
  within ys ye c = true.
Proof.
  intros Hs He Hc0 Hday.
  destruct (fullYear_window 0 y ys ye Hs He) as [-> ->].
  unfold within, JSDate.TimeFromYear, JSDate.Day, JSDate.msPerDay in *.
  apply andb_true_intro. split; apply Z.leb_le; Z.div_mod_to_equations; lia.
Qed.

(** X18.  On a host whose local time is UTC, and when no suggester id is 0,
    the list of items that a returned report gives for the most active day
    has exactly [itemCount] items. *)
Theorem day_items_match_count_on_utc_host st profileId year log r log' d items :
  calculatePatientData st 0 profileId year log = (Returned r, log') ->
  (forall item, In item (list_items st) -> suggested_by item <> Some 0) ->
  ls_mostActiveDay (wd_listStats r) = Some d ->
  mad_items d = Some items ->
  List.length items = mad_itemCount d.
Proof.
  intros Hrun Hnz Hd Hitems. apply calculatePatientData_returned in Hrun.
  destruct Hrun as (ys & ye & its & lm & lp & op & l1 & l2 & l3
                    & Hs & He & _ & _ & _ & Howned & ->).
  cbn [assemble wd_listStats ls_mostActiveDay] in Hd.
  destruct year as [| y | neg]; [discriminate Hs | | discriminate Hs].
  apply ownedListReducers_parts in Howned.
  destruct Howned as [-> | (ids & k1 & k2 & Hday & _)]; [discriminate Hd |].
  rewrite Hd in Hday. apply mostActiveDay_some in Hday.
  destruct Hday as (best & a & b & Hbest & Ha & Hb & _ & _ & Hcount & Hlist).
  rewrite Hitems in Hlist.
  destruct (outage st SItemsOnDay); [discriminate Hlist |]. injection Hlist as ->.
  rewrite length_map, order_by_created_at_length, Hcount.
  apply maxDay_summary in Hbest. unfold day_summary in Hbest.
  set (D := dd_date best) in *.
  destruct (counted_on D _) as [| first rest] eqn:Eon; [discriminate Hbest |].
  injection Hbest as Hbest.
  assert (Ec : dd_count best = List.length (first :: rest)).
  { rewrite <- Hbest. reflexivity. }
  rewrite Ec, <- Eon. unfold counted_on. rewrite filter_twice. f_equal.
  (* the first item counted under the winning day *)
  assert (Hfirst : exists c0, ys <= c0 <= ye /\ JSDate.Day c0 = D).
  { assert (Hin : In first (first :: rest)) by (left; reflexivity).
    rewrite <- Eon in Hin. unfold counted_on in Hin.
    apply filter_In in Hin. destruct Hin as [Hin Hc].
    apply filter_In in Hin. destruct Hin as [_ Hf].
    apply andb_prop in Hf. destruct Hf as [_ Hw].
    unfold counted_at in Hc. destruct (li_created_at first) as [c0 |]; [| discriminate Hc].
    exists c0. cbn in Hw. unfold within in Hw. apply andb_prop in Hw. destruct Hw as [W1 W2].
    apply Z.leb_le in W1. apply Z.leb_le in W2. split; [lia |].
    destruct (truthy_id (suggested_by first)); [discriminate Hc |].
    apply Z.eqb_eq. exact Hc. }
  destruct Hfirst as (c0 & Hc0 & Ed).
  apply filter_ext_in. intros item Hitem. specialize (Hnz item Hitem).
  unfold counted_at, within_opt.
  destruct (li_created_at item) as [c |].
  2: { rewrite !andb_false_r. reflexivity. }
  rewrite (utc_day_bounds D a b c Ha Hb).
  destruct (suggested_by item) as [s |]; cbn [is_null truthy_id].
  - destruct (Z.eqb_spec s 0) as [-> | _]; [contradiction Hnz; reflexivity |].
    cbn [negb]. rewrite !andb_false_r. reflexivity.
  - rewrite andb_true_r.
    destruct (Z.eqb_spec (JSDate.Day c) D) as [E | N].
    + rewrite (utc_day_inside_year y ys ye c0 c Hs He Hc0) by (rewrite E, Ed; reflexivity).
      rewrite !andb_true_r. reflexivity.
    + rewrite !andb_false_r. reflexivity.
Qed.

Lemma day_items_match_count_on_utc_host_witness :
  exists r log' d items,
    calculatePatientData Fixtures.year_2024 0 7 (Num 2024) [] = (Returned r, log') /\
    ls_mostActiveDay (wd_listStats r) = Some d /\
    mad_items d = Some items /\
    mad_itemCount d = 2%nat /\
    List.length items = mad_itemCount d.
Proof.
  eexists. eexists. eexists. eexists.
  split; [vm_compute; reflexivity |]. split; [vm_compute; reflexivity |].
  split; [vm_compute; reflexivity |]. split; [vm_compute; reflexivity |].
  match goal with
  | |- List.length ?items = mad_itemCount ?d =>
      eapply (day_items_match_count_on_utc_host Fixtures.year_2024 7 (Num 2024) []
                _ [SProfile; SPurchases; SListItems; SLastMinutePurchases;
                   SLastMinuteItemsCount; SLists; SListItemsCount; SUserLists;
                   SUserListItems; SItemsOnDay; SSuggestedGifts; SSuggestedInfo]
                d items)
  end.
  - vm_compute. reflexivity.
  - intros item Hin. cbn in Hin.
    repeat (destruct Hin as [<- | Hin]; [discriminate |]). destruct Hin.
  - vm_compute. reflexivity.
  - vm_compute. reflexivity.
Defined.

(** ** Gifts and purchases *)

Lemma purchased_in_join (f : purchase -> bool) ps item :
  purchased_in (map pu_id (filter f ps)) item
  = match purchase_id item with
    | Some k => existsb (fun p => f p && (pu_id p =? k)) ps
    | None => false
    end.
Proof.
  unfold purchased_in, in_ids. destruct (purchase_id item) as [k |]; [| reflexivity].
  induction ps as [| p ps IH]; cbn [filter map existsb]; [reflexivity |].
  destruct (f p); cbn [map existsb andb]; rewrite IH; [| reflexivity].
  rewrite (Z.eqb_sym k). reflexivity.
Qed.

Lemma existsb_pointwise {A} (f g : A -> bool) l :
  (forall x, f x = g x) -> existsb f l = existsb g l.
Proof.
  intros H. induction l as [| x l IH]; cbn [existsb]; [reflexivity |].
  rewrite H, IH. reflexivity.
Qed.

Lemma lastMinutePurchases_exact st tza profileId year log n log' :
  lastMinutePurchases st tza profileId year log = (Returned n, log') ->
  outage st SLastMinutePurchases = None ->
  outage st SLastMinuteItemsCount = None ->
  exists a b,
    lastMinuteStart tza year = Some a /\ lastMinuteEnd tza year = Some b /\
    n = List.length
          (filter (purchased_in
                     (map pu_id
                        (filter (fun p => (purchase_user p =? profileId)
                                          && (a <=? pu_created_at p) && (pu_created_at p <? b))
                                (purchases st))))
                  (list_items st)).
Proof.
  unfold lastMinutePurchases. intros H O1 O2. repeat run_step.
  match goal with
  | Ha : lastMinuteStart _ _ = Some ?a, Hb : lastMinuteEnd _ _ = Some ?b |- _ =>
      exists a, b; split; [exact Ha |]; split; [exact Hb |]
  end.
  match goal with
  | Hr : request _ SLastMinutePurchases _ _ = _ |- _ =>
      rewrite request_run in Hr; injection Hr as <- <-
  end.
  rewrite O1 in H. cbn [error data] in H.
  destruct (filter _ (purchases st)) as [| p rows].
  - unfold ret in H. injection H as <- _. cbn [map].
    rewrite (filter_none _ _ purchased_in_nil). reflexivity.
  - unfold bind, request, ret in H. rewrite O2 in H. cbn [error data] in H.
    injection H as <- _. reflexivity.
Qed.

(** X19.  [totalGiftsGiven] in a returned report is the number of list
    items of the store bought in a purchase of the profile created in the year
    window; and when the two last-minute requests succeed,
    [lastMinutePurchases] is the number of list items bought in a purchase of
    the profile created in the last-minute window. *)
Theorem gifts_are_items_of_the_profile_s_purchases
  st tza profileId year ys ye log r log' :
  calculatePatientData st tza profileId year log = (Returned r, log') ->
  yearStart tza year = Some ys ->
  yearEnd tza year = Some ye ->
  s_totalGiftsGiven (wd_stats r)
  = List.length (filter (bought_when st profileId (within ys ye)) (list_items st)) /\
  (outage st SLastMinutePurchases = None ->
   outage st SLastMinuteItemsCount = None ->
   exists a b,
     lastMinuteStart tza year = Some a /\ lastMinuteEnd tza year = Some b /\
     s_lastMinutePurchases (wd_stats r)
     = List.length (filter (bought_when st profileId (fun c => (a <=? c) && (c <? b)))
                           (list_items st))).
Proof.
  intros Hrun Hs He. apply calculatePatientData_returned in Hrun.
  destruct Hrun as (ys' & ye' & items & lm & lp & op & l1 & l2 & l3
                    & Hs' & He' & Hitems & Hlm & _ & _ & ->).
  rewrite Hs in Hs'. injection Hs' as <-. rewrite He in He'. injection He' as <-.
  cbn [assemble wd_stats s_totalGiftsGiven s_lastMinutePurchases].
  apply fetchListItems_result in Hitems. destruct Hitems as [-> _]. split.
  - f_equal. apply filter_ext. intros item. unfold purchases_of_year, bought_when.
    rewrite purchased_in_join. reflexivity.
  - intros O1 O2. destruct (lastMinutePurchases_exact _ _ _ _ _ _ _ Hlm O1 O2)
      as (a & b & Ha & Hb & ->).
    exists a, b. split; [exact Ha |]. split; [exact Hb |].
    f_equal. apply filter_ext. intros item. unfold bought_when.
    rewrite purchased_in_join. destruct (purchase_id item); [| reflexivity].
    apply existsb_pointwise. intros p. rewrite andb_assoc. reflexivity.
Qed.

Lemma gifts_are_items_of_the_profile_s_purchases_witness :
  exists r log',
    calculatePatientData Fixtures.year_2024 0 7 (Num 2024) [] = (Returned r, log') /\
    s_totalGiftsGiven (wd_stats r) = 2%nat /\
    s_totalGiftsGiven (wd_stats r)
    = List.length (filter (bought_when Fixtures.year_2024 7
                             (within 1704067200000 1735689599999))
                          (list_items Fixtures.year_2024)).
Proof.
  eexists. eexists. split; [vm_compute; reflexivity |].
  split; [vm_compute; reflexivity |].
  match goal with
  | |- s_totalGiftsGiven (wd_stats ?r) = _ =>
      destruct (gifts_are_items_of_the_profile_s_purchases Fixtures.year_2024 0 7
                  (Num 2024) 1704067200000 1735689599999 [] r
                  [SProfile; SPurchases; SListItems; SLastMinutePurchases;
                   SLastMinuteItemsCount; SLists; SListItemsCount; SUserLists;
                   SUserListItems; SItemsOnDay; SSuggestedGifts; SSuggestedInfo])
        as [Hgifts _]
  end.
  - vm_compute. reflexivity.
  - reflexivity.
  - reflexivity.
  - exact Hgifts.
Defined.

(** ** What the engine throws *)

Lemma throws_only_ret {A} P (a : A) : throws_only P (ret a).
Proof. intros log e log' H. discriminate H. Qed.

Lemma throws_only_throw {A} (P : js_error -> Prop) e : P e -> throws_only P (@throw A e).
Proof. intros He log e' log' H. unfold throw in H. injection H as <- _. exact He. Qed.

Lemma throws_only_toISOString P d :
  P (RangeError "Invalid time value") -> throws_only P (toISOString d).
Proof.
  intros H. destruct d; [apply throws_only_ret | apply throws_only_throw; exact H].
Qed.

Lemma throws_only_bind {A B} P (m : M A) (k : A -> M B) :
  throws_only P m -> (forall a, throws_only P (k a)) -> throws_only P (bind m k).
Proof.
  intros Hm Hk log e log' H. unfold bind in H.
  destruct (m log) as [[a | e0] log1] eqn:Em.
  - exact (Hk a _ _ _ H).
  - injection H as <- _. exact (Hm _ _ _ Em).
Qed.

(** A request throws nothing, and its answer holds either the rows or the
    error. *)
Lemma throws_only_request {A B} P st s (rows : A) (k : response A -> M B) :
  (forall m, throws_only P (k (mkResponse None (Some m)))) ->
  throws_only P (k (mkResponse (Some rows) None)) ->
  throws_only P (bind (request st s rows) k).
Proof.
  intros Herr Hok log e log' H. unfold bind, request in H.
  destruct (outage st s) as [m |].
  - exact (Herr m _ _ _ H).
  - exact (Hok _ _ _ H).
Qed.

Ltac throws_step :=
  match goal with
  | |- throws_only _ (ret _) => apply throws_only_ret
  | |- throws_only _ (bind (toISOString _) _) =>
      apply throws_only_bind;
      [apply throws_only_toISOString; left; reflexivity | intros ?]
  | |- throws_only _ (bind (ret _) _) =>
      apply throws_only_bind; [apply throws_only_ret | intros ?]
  | |- throws_only _ (bind (request _ _ _) _) =>
      apply throws_only_request; [intros ? |]; cbn [error data rows_or_empty]
  | |- throws_only _ (match ?x with _ => _ end) => destruct x
  end.

Lemma lastMinutePurchases_throws st tza profileId year :
  throws_only engine_error (lastMinutePurchases st tza profileId year).
Proof. unfold lastMinutePurchases. repeat throws_step. Qed.

Lemma listStatistics_throws st profileId ys ye :
  throws_only engine_error (listStatistics st profileId ys ye).
Proof. unfold listStatistics. repeat throws_step. Qed.

Lemma mostActiveDay_throws st tza profileId ys ye ids :
  throws_only engine_error (mostActiveDay st tza profileId ys ye ids).
Proof.
  unfold mostActiveDay. destruct ids as [| id ids]; [apply throws_only_ret |].
  repeat throws_step.
Qed.

Lemma suggestionTally_throws st ys ye ids :
  throws_only engine_error (suggestionTally st ys ye ids).
Proof. unfold suggestionTally. repeat throws_step. Qed.

Lemma ownedListReducers_throws st tza profileId ys ye :
  throws_only engine_error (ownedListReducers st tza profileId ys ye).
Proof.
  unfold ownedListReducers. throws_step; [apply throws_only_ret |].
  apply throws_only_bind; [apply mostActiveDay_throws | intros day].
  apply throws_only_bind; [apply suggestionTally_throws | intros counts].
  apply throws_only_ret.
Qed.

Lemma fetchListItems_throws st profileId ys ye :
  throws_only engine_error (fetchListItems st profileId ys ye).
Proof.
  unfold fetchListItems. throws_step.
  - apply throws_only_throw. right. exists m. right. left. reflexivity.
  - destruct (map pu_id _); [apply throws_only_ret |]. throws_step.
    + apply throws_only_throw. right. exists m. right. right. reflexivity.
    + apply throws_only_ret.
Qed.

(** X20.  Whatever [calculatePatientData] throws is the [RangeError] of an
    invalid date or a plain [Error] whose message starts with "Failed to fetch
    profile: ", "Failed to fetch purchases: " or "Failed to fetch list items: ";
    failures of the other requests are never thrown. *)
Theorem thrown_errors_are_of_four_kinds st tza profileId year log e log' :
  calculatePatientData st tza profileId year log = (Threw e, log') ->
  engine_error e.
Proof.
  revert log e log'. change (throws_only engine_error (calculatePatientData st tza profileId year)).
  unfold calculatePatientData. throws_step. throws_step.
  apply throws_only_bind.
  { intros log e log' H. discriminate H. }
  intros p. destruct (error p) as [m |].
  { apply throws_only_throw. right. exists m. left. reflexivity. }
  apply throws_only_bind; [apply fetchListItems_throws | intros items].
  apply throws_only_bind; [apply lastMinutePurchases_throws | intros lm].
  apply throws_only_bind; [apply listStatistics_throws | intros lp].
  apply throws_only_bind; [apply ownedListReducers_throws | intros op].
  apply throws_only_ret.
Qed.

Lemma thrown_errors_are_of_four_kinds_witness :
  engine_error (Error ("Failed to fetch profile: " ++ PGRST116)).
Proof.
  apply (thrown_errors_are_of_four_kinds Fixtures.without_profile 0 7 (Num 2024) []
           (Error ("Failed to fetch profile: " ++ PGRST116)) [SProfile]).
  reflexivity.
Defined.
